(** * Energy-monitoring board: configuration parser and telemetry loop

    A shallow embedding of [src/BoardConfig/BoardConfig.cpp] and of the
    control loop of [src/main.cpp], with the properties of the board's
    specification stated against it.

    Conventions of the embedding:
    - a C string is the list of its characters before the terminating NUL;
      a [char *] that may be [NULL] is an [option];
    - undefined behaviour (a null pointer handed to [std::string], [atoi],
      [atof] or dereferenced, a [vector] or array indexed out of range) is an
      explicit outcome [Undefined];
    - the loops over the lines of the file carry a fuel argument; the
      outcome [OutOfFuel] says the fuel did not suffice;
    - what the headers that are not part of the sources declare (the float
      type and its arithmetic, [atof], the macros [BUFFLEN], [WIFITRIES],
      [NETWORKSUCCESS], the initial value of the members of [PortInfo] and
      [BoardSpecs] that the parser never assigns) is a parameter, collected
      in the class [Platform]. *)

From Stdlib Require Import ZArith Ascii String.
From Stdlib Require Import Floats.PrimFloat Numbers.Cyclic.Int63.Uint63.
From stdpp Require Import base tactics option list strings.

Local Open Scope Z_scope.

(** ** Outcomes *)

Inductive fault : Set :=
| NullPointer   (* NULL used as a C string or dereferenced *)
| OutOfRange.   (* operator[] past the end of a vector or array *)

Inductive result (A : Type) : Type :=
| Done (a : A)
| Undefined (f : fault)
| OutOfFuel.

Arguments Done {A} a.
Arguments Undefined {A} f.
Arguments OutOfFuel {A}.

#[export] Instance result_ret : MRet result := fun A a => Done a.

#[export] Instance result_bind : MBind result := fun A B k m =>
  match m with
  | Done a => k a
  | Undefined f => Undefined f
  | OutOfFuel => OutOfFuel
  end.

#[export] Instance result_fmap : FMap result := fun A B f m =>
  match m with
  | Done a => Done (f a)
  | Undefined e => Undefined e
  | OutOfFuel => OutOfFuel
  end.

(** A pointer is used as a C string: [NULL] is undefined behaviour. *)
Definition deref {A : Type} (p : option A) : result A :=
  match p with
  | Some a => Done a
  | None => Undefined NullPointer
  end.

(** [v[i]] on a [std::vector] or a built-in array, [i] a [size_t]. *)
Definition index {A : Type} (v : list A) (i : Z) : result A :=
  if (0 <=? i) && (i <? Z.of_nat (length v)) then
    match v !! Z.to_nat i with
    | Some a => Done a
    | None => Undefined OutOfRange
    end
  else Undefined OutOfRange.

(** ** The C library functions the parser calls *)

Definition lit (s : string) : list ascii := list_ascii_of_string s.
Arguments lit : simpl never.

Definition NUL : ascii := "000"%char.
Definition LF : ascii := "010"%char.

Definition ascii_eqb (a b : ascii) : bool := Ascii.eqb a b.

(** The characters of a buffer that make up its C string. *)
Fixpoint c_str (buf : list ascii) : list ascii :=
  match buf with
  | [] => []
  | c :: buf' => if ascii_eqb c NUL then [] else c :: c_str buf'
  end.

(** [strchr(delim, c) != NULL] for a character [c] other than NUL. *)
Definition is_delim (delim : list ascii) (c : ascii) : bool :=
  existsb (ascii_eqb c) delim.

(** [strtok]: the hidden save pointer is threaded explicitly.
    [strtok delim s] scans from [s] (the buffer for a first call, the save
    pointer for a call with [NULL]); it returns the token, or [None] for
    [NULL], and the new save pointer. *)
Fixpoint skip_delims (delim s : list ascii) : list ascii :=
  match s with
  | [] => []
  | c :: s' => if is_delim delim c then skip_delims delim s' else s
  end.

Fixpoint scan_token (delim s : list ascii) : list ascii * list ascii :=
  match s with
  | [] => ([], [])
  | c :: s' =>
      if is_delim delim c then ([], s')
      else let '(tok, save) := scan_token delim s' in (c :: tok, save)
  end.

Definition strtok (delim s : list ascii) : option (list ascii) * list ascii :=
  match skip_delims delim s with
  | [] => (None, [])
  | s' => let '(tok, save) := scan_token delim s' in (Some tok, save)
  end.

(** [strstr(hay, needle) != NULL]. *)
Fixpoint is_prefix (needle hay : list ascii) : bool :=
  match needle, hay with
  | [], _ => true
  | _ :: _, [] => false
  | a :: needle', b :: hay' => ascii_eqb a b && is_prefix needle' hay'
  end.

Fixpoint strstr (hay needle : list ascii) : bool :=
  is_prefix needle hay ||
  match hay with
  | [] => false
  | _ :: hay' => strstr hay' needle
  end.

Definition isdigit (c : ascii) : bool :=
  (48 <=? Z.of_nat (nat_of_ascii c)) && (Z.of_nat (nat_of_ascii c) <=? 57).

Definition isspace (c : ascii) : bool :=
  let n := Z.of_nat (nat_of_ascii c) in
  (n =? 32) || ((9 <=? n) && (n <=? 13)).

Definition digit_val (c : ascii) : Z := Z.of_nat (nat_of_ascii c) - 48.

Fixpoint skip_space (s : list ascii) : list ascii :=
  match s with
  | [] => []
  | c :: s' => if isspace c then skip_space s' else s
  end.

(** The value of the longest prefix of decimal digits, from [acc]. *)
Fixpoint read_digits (acc : Z) (s : list ascii) : Z :=
  match s with
  | [] => acc
  | c :: s' => if isdigit c then read_digits (10 * acc + digit_val c) s' else acc
  end.

Definition INT_MAX : Z := 2147483647.
Definition INT_MIN : Z := -2147483648.

(** [atoi]: optional white space, optional sign, decimal digits. A value
    that does not fit [int] saturates, as [strtol] does where [long] has
    the width of [int] (the C standard leaves that case undefined). *)
Definition atoi (s : list ascii) : Z :=
  let s := skip_space s in
  let v :=
    match s with
    | c :: s' =>
        if ascii_eqb c "-" then - read_digits 0 s'
        else if ascii_eqb c "+" then read_digits 0 s'
        else read_digits 0 s
    | [] => 0
    end in
  Z.max INT_MIN (Z.min INT_MAX v).

(** A [FILE *] opened for reading: the bytes of the file and the part of
    them not yet read. *)
Record FILE : Type := { data : list ascii; unread : list ascii }.

Definition fopen (bytes : list ascii) : FILE := {| data := bytes; unread := bytes |}.
Definition rewind (fp : FILE) : FILE := {| data := data fp; unread := data fp |}.

(** At most [n] characters, stopping after a newline. *)
Fixpoint take_line (n : nat) (s : list ascii) : list ascii * list ascii :=
  match n, s with
  | O, _ => ([], s)
  | _, [] => ([], [])
  | S n', c :: s' =>
      if ascii_eqb c LF then ([c], s')
      else let '(l, r) := take_line n' s' in (c :: l, r)
  end.

(** [fgets(Buffer, size, fp)]: [None] is [NULL] (end of file and nothing
    read); otherwise the C string left in [Buffer] and the advanced file. *)
Definition fgets (size : nat) (fp : FILE) : option (list ascii * FILE) :=
  match unread fp with
  | [] => None
  | s => let '(l, r) := take_line (size - 1) s in
         Some (c_str l, {| data := data fp; unread := r |})
  end.

(** ** [std::string] members the parser calls *)

(** [s.find_first_of(c)]: [None] is [string::npos]. *)
Fixpoint find_first_of (c : ascii) (s : list ascii) : option nat :=
  match s with
  | [] => None
  | a :: s' => if ascii_eqb a c then Some O else S <$> find_first_of c s'
  end.

(** [s.erase(pos)]: the one-argument form removes every character from
    [pos] to the end. *)
Definition erase (s : list ascii) (pos : nat) : list ascii := take pos s.

(** ** What the absent headers declare *)

Class Platform : Type := {
  (** the floating-point type and the operations the code applies to it *)
  F : Type;
  F_of_Z : Z -> F;               (* a literal: 0.0f, -1.0f, 5.0f, 5 *)
  Fmul : F -> F -> F;            (* a * b *)
  Fopp : F -> F;                 (* - a *)
  Feqb : F -> F -> bool;         (* a == b *)
  Fltb : F -> F -> bool;         (* a < b *)
  Fleb : F -> F -> bool;         (* a <= b *)
  HUGE_VAL : F;                  (* <cmath> *)
  atof : list ascii -> F;        (* <cstdlib> *)
  (** macros *)
  BUFFLEN : nat;
  WIFITRIES : Z;
  NETWORKSUCCESS : Z;
  (** members left as they are by the default constructors *)
  PortInfo_RangeEnd0 : F;
  PortInfo_RangeFloor0 : F;
  PortInfo_RangeCeiling0 : F;
  PortInfo_Value0 : F;
  BoardSpecs_RemotePort0 : Z;
  (** the literals [0.0f] and [-1.0f] compare equal to themselves *)
  Feqb_zero : Feqb (F_of_Z 0) (F_of_Z 0) = true;
  Feqb_minus_one : Feqb (F_of_Z (-1)) (F_of_Z (-1)) = true
}.

(** [a != b] and [a > b]. *)
Definition Fneb `{Platform} (a b : F) : bool := negb (Feqb a b).
Definition Fgtb `{Platform} (a b : F) : bool := Fltb b a.

(** ** Data model

    [Structs.h] is not among the sources: the records have the members the
    two source files name. [PortInfo] has the member [RangeEnd] that
    [setBoundsFromID] assigns as well as the members [RangeFloor] and
    [RangeCeiling] that the loop of [main] reads. The identity of a sensor
    is its index in [Sensors]; [SensorID] holds what [atoi] returned. *)

Module SensorInfo.
Record t `{Platform} : Type := mk {
  Type' : list ascii;
  Unit : list ascii;
  Multiplier : F;
  RangeStart : F;
  RangeEnd : F
}.
End SensorInfo.
Abbreviation SensorInfo := SensorInfo.t.

Module PortInfo.
Record t `{Platform} : Type := mk {
  Name : list ascii;
  SensorID : Z;
  Multiplier : F;
  Description : list ascii;
  RangeEnd : F;
  RangeFloor : F;
  RangeCeiling : F;
  Value : F
}.
End PortInfo.
Abbreviation PortInfo := PortInfo.t.

Module BoardSpecs.
Record t `{Platform} : Type := mk {
  ID : list ascii;
  NetworkSSID : list ascii;
  NetworkPassword : list ascii;
  DatabaseTableName : list ascii;
  RemoteIP : list ascii;
  RemotePort : Z;
  HostName : list ascii;
  RemoteDir : list ascii;
  Sensors : list SensorInfo;
  Ports : list PortInfo
}.
End BoardSpecs.
Abbreviation BoardSpecs := BoardSpecs.t.

(** ** BoardConfig.cpp *)

Section BoardConfig.
Context {P : Platform}.

(** [BoardSpecs Specs;] *)
Definition BoardSpecs_new : BoardSpecs :=
  {| BoardSpecs.ID := []; BoardSpecs.NetworkSSID := [];
     BoardSpecs.NetworkPassword := []; BoardSpecs.DatabaseTableName := [];
     BoardSpecs.RemoteIP := []; BoardSpecs.RemotePort := BoardSpecs_RemotePort0;
     BoardSpecs.HostName := []; BoardSpecs.RemoteDir := [];
     BoardSpecs.Sensors := []; BoardSpecs.Ports := [] |}.

Definition push_sensor (Specs : BoardSpecs) (s : SensorInfo) : BoardSpecs :=
  {| BoardSpecs.ID := BoardSpecs.ID Specs;
     BoardSpecs.NetworkSSID := BoardSpecs.NetworkSSID Specs;
     BoardSpecs.NetworkPassword := BoardSpecs.NetworkPassword Specs;
     BoardSpecs.DatabaseTableName := BoardSpecs.DatabaseTableName Specs;
     BoardSpecs.RemoteIP := BoardSpecs.RemoteIP Specs;
     BoardSpecs.RemotePort := BoardSpecs.RemotePort Specs;
     BoardSpecs.HostName := BoardSpecs.HostName Specs;
     BoardSpecs.RemoteDir := BoardSpecs.RemoteDir Specs;
     BoardSpecs.Sensors := BoardSpecs.Sensors Specs ++ [s];
     BoardSpecs.Ports := BoardSpecs.Ports Specs |}.

Definition push_port (Specs : BoardSpecs) (p : PortInfo) : BoardSpecs :=
  {| BoardSpecs.ID := BoardSpecs.ID Specs;
     BoardSpecs.NetworkSSID := BoardSpecs.NetworkSSID Specs;
     BoardSpecs.NetworkPassword := BoardSpecs.NetworkPassword Specs;
     BoardSpecs.DatabaseTableName := BoardSpecs.DatabaseTableName Specs;
     BoardSpecs.RemoteIP := BoardSpecs.RemoteIP Specs;
     BoardSpecs.RemotePort := BoardSpecs.RemotePort Specs;
     BoardSpecs.HostName := BoardSpecs.HostName Specs;
     BoardSpecs.RemoteDir := BoardSpecs.RemoteDir Specs;
     BoardSpecs.Sensors := BoardSpecs.Sensors Specs;
     BoardSpecs.Ports := BoardSpecs.Ports Specs ++ [p] |}.

Definition set_conn (Specs : BoardSpecs) (ip : list ascii) (port : Z)
    (host dir : list ascii) : BoardSpecs :=
  {| BoardSpecs.ID := BoardSpecs.ID Specs;
     BoardSpecs.NetworkSSID := BoardSpecs.NetworkSSID Specs;
     BoardSpecs.NetworkPassword := BoardSpecs.NetworkPassword Specs;
     BoardSpecs.DatabaseTableName := BoardSpecs.DatabaseTableName Specs;
     BoardSpecs.RemoteIP := ip;
     BoardSpecs.RemotePort := port;
     BoardSpecs.HostName := host;
     BoardSpecs.RemoteDir := dir;
     BoardSpecs.Sensors := BoardSpecs.Sensors Specs;
     BoardSpecs.Ports := BoardSpecs.Ports Specs |}.

Definition set_board (Specs : BoardSpecs) (id ssid pw table : list ascii) : BoardSpecs :=
  {| BoardSpecs.ID := id;
     BoardSpecs.NetworkSSID := ssid;
     BoardSpecs.NetworkPassword := pw;
     BoardSpecs.DatabaseTableName := table;
     BoardSpecs.RemoteIP := BoardSpecs.RemoteIP Specs;
     BoardSpecs.RemotePort := BoardSpecs.RemotePort Specs;
     BoardSpecs.HostName := BoardSpecs.HostName Specs;
     BoardSpecs.RemoteDir := BoardSpecs.RemoteDir Specs;
     BoardSpecs.Sensors := BoardSpecs.Sensors Specs;
     BoardSpecs.Ports := BoardSpecs.Ports Specs |}.

(** An [int] converted to [size_t] (32 bits on the board). *)
Definition size_t_of_int (z : Z) : Z := z mod 2 ^ 32.

(** [setUnitMultiplier], lines 198-205. *)
Definition setUnitMultiplier (Sensors : list SensorInfo) (Sens_ID : Z) : result F :=
  if Z.of_nat (length Sensors) <=? Sens_ID then mret (F_of_Z 0)
  else SensorInfo.Multiplier <$> index Sensors Sens_ID.

(** [getSensorName], lines 208-227. *)
Definition getSensorName (Sensors : list SensorInfo) (Sens_ID : Z) : result (list ascii) :=
  if Z.of_nat (length Sensors) <=? Sens_ID then mret (lit "No Sensor")
  else s ← index Sensors Sens_ID;
       mret ((SensorInfo.Type' s ++ lit " in ") ++ SensorInfo.Unit s).

(** [input.RangeEnd = x]. *)
Definition set_RangeEnd (input : PortInfo) (x : F) : PortInfo :=
  {| PortInfo.Name := PortInfo.Name input;
     PortInfo.SensorID := PortInfo.SensorID input;
     PortInfo.Multiplier := PortInfo.Multiplier input;
     PortInfo.Description := PortInfo.Description input;
     PortInfo.RangeEnd := x;
     PortInfo.RangeFloor := PortInfo.RangeFloor input;
     PortInfo.RangeCeiling := PortInfo.RangeCeiling input;
     PortInfo.Value := PortInfo.Value input |}.

(** [setBoundsFromID], lines 61-64: both statements assign the member
    [RangeEnd] of the port from the member [RangeEnd] of the sensor; the
    vector is indexed without a check of the index. *)
Definition setBoundsFromID (input : PortInfo) (sensors : list SensorInfo) : result PortInfo :=
  s1 ← index sensors (size_t_of_int (PortInfo.SensorID input));
  let input := set_RangeEnd input (SensorInfo.RangeEnd s1) in
  s2 ← index sensors (size_t_of_int (PortInfo.SensorID input));
  mret (set_RangeEnd input (SensorInfo.RangeEnd s2)).

(** Lines 169-174: the loop meant to take the blanks out of the name. *)
Fixpoint erase_at_blanks (fuel : nat) (Name : list ascii) : list ascii :=
  match fuel with
  | O => Name
  | S fuel' =>
      match find_first_of " " Name with
      | None => Name
      | Some SpaceDex => erase_at_blanks fuel' (erase Name SpaceDex)
      end
  end.

(** Lines 82-108: a sensor description line. *)
Definition sensor_line (Buffer : list ascii) (Specs : BoardSpecs) : result BoardSpecs :=
  let '(_, save) := strtok (lit ":") Buffer in
  let token := lit "," in
  let '(value, save) := strtok token save in
  Type' ← deref value;
  let '(value, save) := strtok token save in
  Unit ← deref value;
  let '(value, save) := strtok token save in
  Multiplier ← atof <$> deref value;
  let '(value, save) := strtok token save in
  RangeStart ← atof <$> deref value;
  let '(value, save) := strtok [LF] save in
  RangeEnd ← atof <$> deref value;
  mret (push_sensor Specs
          {| SensorInfo.Type' := Type'; SensorInfo.Unit := Unit;
             SensorInfo.Multiplier := Multiplier;
             SensorInfo.RangeStart := RangeStart;
             SensorInfo.RangeEnd := RangeEnd |}).

(** Lines 78-112: the first pass over the file. *)
Fixpoint read_sensors (fuel : nat) (fp : FILE) (Specs : BoardSpecs) : result (FILE * BoardSpecs) :=
  match fuel with
  | O => OutOfFuel
  | S fuel' =>
      match fgets BUFFLEN fp with
      | None => Done (fp, Specs)
      | Some (Buffer, fp) =>
          Specs ← (if strstr Buffer (lit "SensorID") && ascii_eqb (hd NUL Buffer) "S"
                   then sensor_line Buffer Specs else Done Specs);
          read_sensors fuel' fp Specs
      end
  end.

(** Lines 121-139: the remote connection line. *)
Definition conn_line (Buffer : list ascii) (Specs : BoardSpecs) : result BoardSpecs :=
  let s := lit ":" in
  let '(tmp, save) := strtok s Buffer in
  let '(tok, save) := strtok s save in
  RemoteIP ← deref tok;
  let '(tmp, save) := strtok s save in
  tmp ← deref tmp;
  let RemotePort := if isdigit (hd NUL tmp) then atoi tmp else 0 in
  let '(tok, save) := strtok s save in
  HostName ← deref tok;
  let '(tok, save) := strtok [LF] save in
  RemoteDir ← deref tok;
  mret (set_conn Specs RemoteIP RemotePort HostName RemoteDir).

(** Lines 142-154: the board line. *)
Definition board_line (Buffer : list ascii) (Specs : BoardSpecs) : result BoardSpecs :=
  let s := lit ":" in
  let '(tok, save) := strtok s Buffer in
  ID ← deref tok;
  let '(tok, save) := strtok s save in
  NetworkSSID ← deref tok;
  let '(tok, save) := strtok s save in
  NetworkPassword ← deref tok;
  let '(tok, save) := strtok s save in
  DatabaseTableName ← deref tok;
  mret (set_board Specs ID NetworkSSID NetworkPassword DatabaseTableName).

(** Lines 155-191: a port line. The counter [prtCnt] is written and never
    read; it is left out. *)
Definition port_line (Buffer : list ascii) (Specs : BoardSpecs) : result BoardSpecs :=
  let '(tok, save) := strtok (lit ":") Buffer in
  Name ← deref tok;
  let '(tok, save) := strtok [LF] save in
  SensorID ← atoi <$> deref tok;
  let Name := erase_at_blanks (S (length Name)) Name in
  Multiplier ← setUnitMultiplier (BoardSpecs.Sensors Specs) (size_t_of_int SensorID);
  Description ← getSensorName (BoardSpecs.Sensors Specs) (size_t_of_int SensorID);
  tmp ← setBoundsFromID
          {| PortInfo.Name := Name; PortInfo.SensorID := SensorID;
             PortInfo.Multiplier := Multiplier; PortInfo.Description := Description;
             PortInfo.RangeEnd := PortInfo_RangeEnd0;
             PortInfo.RangeFloor := PortInfo_RangeFloor0;
             PortInfo.RangeCeiling := PortInfo_RangeCeiling0;
             PortInfo.Value := PortInfo_Value0 |}
          (BoardSpecs.Sensors Specs);
  mret (if Fneb (PortInfo.Multiplier tmp) (F_of_Z 0) then push_port Specs tmp else Specs).

(** Lines 116-192, the body of the second loop. [strtok] writes into the
    buffer only behind its first character, and a buffer that starts with
    [C] takes neither of the two later branches, so the tests of lines 142
    and 155 are made on the line as read. *)
Definition config_line (Buffer : list ascii) (Specs : BoardSpecs) : result BoardSpecs :=
  Specs ← (if ascii_eqb (hd NUL Buffer) "C" && strstr Buffer (lit "ConnInfo")
           then conn_line Buffer Specs else Done Specs);
  if ascii_eqb (hd NUL Buffer) "B" && strstr Buffer (lit "Board")
  then board_line Buffer Specs
  else if ascii_eqb (hd NUL Buffer) "P" then port_line Buffer Specs
  else Done Specs.

(** Lines 116-192: the second pass over the file. *)
Fixpoint read_config (fuel : nat) (fp : FILE) (Specs : BoardSpecs) : result (FILE * BoardSpecs) :=
  match fuel with
  | O => OutOfFuel
  | S fuel' =>
      match fgets BUFFLEN fp with
      | None => Done (fp, Specs)
      | Some (Buffer, fp) =>
          Specs ← config_line Buffer Specs;
          read_config fuel' fp Specs
      end
  end.

(** [readConfigText], lines 67-195, run with [fuel] iterations allowed to
    each of its two loops. *)
Definition readConfigText_fuel (fuel : nat) (fp : FILE) : result BoardSpecs :=
  '(fp, Specs) ← read_sensors fuel fp BoardSpecs_new;
  let fp := rewind fp in
  '(fp, Specs) ← read_config fuel fp Specs;
  mret Specs.

(** Every call of [fgets] with a buffer of two or more characters consumes
    a character, so one iteration per character of the file and one more
    for the end of the file are enough (lemma [readConfigText_fueled]). *)
Definition readConfigText (fp : FILE) : result BoardSpecs :=
  readConfigText_fuel (S (length (data fp))) fp.

(** [readSDCard], lines 25-59; [None] is a file that cannot be opened. *)
Definition readSDCard (file : option (list ascii)) : result BoardSpecs :=
  match file with
  | Some bytes => readConfigText (rewind (fopen bytes))
  | None => Done BoardSpecs_new
  end.

End BoardConfig.

(** ** main.cpp *)

(** Lines 69-70: the ten analog inputs the samples are read from. *)
Inductive PinName : Set :=
| PTB2 | PTB3 | PTB10 | PTB11 | PTC11 | PTC10 | PTC2 | PTC0 | PTC9 | PTC8.

Definition Port : list PinName :=
  [PTB2; PTB3; PTB10; PTB11; PTC11; PTC10; PTC2; PTC0; PTC9; PTC8].

Section Main.
Context {P : Platform}.

(** What one call of [dumpSensorDataToFile] stores: the values of the
    ports at the time of the call. *)
Definition Reading : Type := list F.

(** The calls that leave the program, in the order they are made; a send
    is recorded with its status and with the value it leaves in [tmp]. *)
Inductive Event : Type :=
| Watchdog (delay : F)                          (* resetWatchdog *)
| Connect (err : Z)                             (* connectESPWiFi and its status *)
| SendBackup (entry : option Reading) (err : Z) (tmp : F) (* sendBackupDataTCP *)
| Delete (entry : option Reading)               (* deleteDataEntry *)
| SendBulk (now : Reading) (err : Z) (tmp : F)  (* sendBulkDataTCP *)
| Dump (now : Reading).                         (* dumpSensorDataToFile *)

(** What the hardware and the network answer during one turn of the loop.
    [PollingTimer_read n] and [sendBackupDataTCP n] are the answers met by
    the turn of the loop of line 220 that has [n] turns before it; the
    second component of a send is the value it leaves in [tmp]. *)
Record Oracle : Type := {
  AnalogIn_read : PinName -> F;
  checkESPWiFiConnection_189 : bool;
  connectESPWiFi : Z;
  checkESPWiFiConnection_216 : bool;
  PollingTimer_read : nat -> F;
  sendBackupDataTCP : nat -> Z * F;
  sendBulkDataTCP : Z * F
}.

(** Modelled from the spec: OfflineLogging.cpp is not among the sources;
    the backup file is the queue of section 6, [hasBacklog],
    [peekOldest], [deleteOldest] and [append]. *)
Definition checkForBackupFile (BackupFile : list Reading) : bool :=
  match BackupFile with
  | [] => false
  | _ :: _ => true
  end.

(** Modelled from the spec: the entry [sendBackupDataTCP] sends and
    [deleteDataEntry] removes is the oldest one. *)
Definition oldest (BackupFile : list Reading) : option Reading := head BackupFile.

(** Modelled from the spec: [deleteOldest]. *)
Definition deleteDataEntry (BackupFile : list Reading) : list Reading := tail BackupFile.

(** Modelled from the spec: [append] of the current port values. *)
Definition dumpSensorDataToFile (Ports : list PortInfo) (BackupFile : list Reading) : list Reading :=
  BackupFile ++ [PortInfo.Value <$> Ports].

(** The variables of [main] that live across the turns of the loop, and
    the backup file. [wifi_tries] is an [int] that the code only lowers
    while it is positive; it is kept as an integer without a bound. *)
Record LoopState : Type := {
  Specs : BoardSpecs;
  PollingInterval : F;
  OfflineMode : bool;
  wifi_tries : Z;
  wifi_err : Z;
  BackupFile : list Reading
}.

Definition set_Value (p : PortInfo) (x : F) : PortInfo :=
  {| PortInfo.Name := PortInfo.Name p;
     PortInfo.SensorID := PortInfo.SensorID p;
     PortInfo.Multiplier := PortInfo.Multiplier p;
     PortInfo.Description := PortInfo.Description p;
     PortInfo.RangeEnd := PortInfo.RangeEnd p;
     PortInfo.RangeFloor := PortInfo.RangeFloor p;
     PortInfo.RangeCeiling := PortInfo.RangeCeiling p;
     PortInfo.Value := x |}.

Definition set_Ports (Specs : BoardSpecs) (Ports : list PortInfo) : BoardSpecs :=
  {| BoardSpecs.ID := BoardSpecs.ID Specs;
     BoardSpecs.NetworkSSID := BoardSpecs.NetworkSSID Specs;
     BoardSpecs.NetworkPassword := BoardSpecs.NetworkPassword Specs;
     BoardSpecs.DatabaseTableName := BoardSpecs.DatabaseTableName Specs;
     BoardSpecs.RemoteIP := BoardSpecs.RemoteIP Specs;
     BoardSpecs.RemotePort := BoardSpecs.RemotePort Specs;
     BoardSpecs.HostName := BoardSpecs.HostName Specs;
     BoardSpecs.RemoteDir := BoardSpecs.RemoteDir Specs;
     BoardSpecs.Sensors := BoardSpecs.Sensors Specs;
     BoardSpecs.Ports := Ports |}.

(** Lines 162-172: the error value for a sample out of the range. *)
Definition range_check (Value RangeFloor RangeCeiling : F) : F :=
  if Fgtb Value RangeCeiling then HUGE_VAL
  else if Fltb Value RangeFloor then Fopp HUGE_VAL
  else Value.

(** Lines 155-178: the body of the loop over the ports, for index [i]. *)
Definition read_port (o : Oracle) (PollingInterval : F) (i : nat) (p : PortInfo) : result (PortInfo * list Event) :=
  if Fneb (PortInfo.Multiplier p) (F_of_Z 0) then
    pin ← index Port (Z.of_nat i);
    let Value := Fmul (AnalogIn_read o pin) (PortInfo.Multiplier p) in
    let Value := range_check Value (PortInfo.RangeFloor p) (PortInfo.RangeCeiling p) in
    mret (set_Value p Value, [Watchdog (Fmul PollingInterval (F_of_Z 5))])
  else mret (p, []).

(** Lines 152-179: [for (i = 0; i < NumPorts; ++i)], from index [i] on. *)
Fixpoint read_ports (o : Oracle) (PollingInterval : F) (i : nat) (Ports : list PortInfo) : result (list PortInfo * list Event) :=
  match Ports with
  | [] => mret ([], [])
  | p :: Ports' =>
      '(p, ev) ← read_port o PollingInterval i p;
      '(Ports', evs) ← read_ports o PollingInterval (S i) Ports';
      mret (p :: Ports', ev ++ evs)
  end.

(** Lines 228-232 and 251-255. *)
Definition adopt_interval (tmp PollingInterval : F) : F :=
  if Fneb tmp (F_of_Z (-1)) && Fgtb tmp (F_of_Z 0) then tmp else PollingInterval.

(** Lines 220-243: the loop that sends the backed-up entries; [n] turns
    have been made. The result is [PollingInterval], [wifi_err], the
    backup file and the calls made. *)
Fixpoint drain (fuel : nat) (o : Oracle) (n : nat) (PollingInterval : F) (wifi_err : Z) (BackupFile : list Reading) : result (F * Z * list Reading * list Event) :=
  match fuel with
  | O => OutOfFuel
  | S fuel' =>
      if Fleb (PollingTimer_read o n) PollingInterval && checkForBackupFile BackupFile then
        let '(wifi_err, tmp) := sendBackupDataTCP o n in
        let sent := SendBackup (oldest BackupFile) wifi_err tmp in
        let PollingInterval := adopt_interval tmp PollingInterval in
        if negb (wifi_err =? NETWORKSUCCESS) then
          mret (PollingInterval, wifi_err, BackupFile, [sent])
        else
          let deleted := Delete (oldest BackupFile) in
          '(PollingInterval, wifi_err, BackupFile, evs) ←
            drain fuel' o (S n) PollingInterval wifi_err (deleteDataEntry BackupFile);
          mret (PollingInterval, wifi_err, BackupFile, sent :: deleted :: evs)
      else mret (PollingInterval, wifi_err, BackupFile, [])
  end.

(** Lines 189-212: the attempt to connect again. The result is
    [wifi_err], [wifi_tries], [OfflineMode] and the calls made. *)
Definition reconnect (o : Oracle) (wifi_err wifi_tries : Z) : Z * Z * bool * list Event :=
  if negb (checkESPWiFiConnection_189 o) then
    let wifi_err := connectESPWiFi o in
    if negb (wifi_err =? NETWORKSUCCESS) then
      let wifi_tries := wifi_tries - 1 in
      (wifi_err, wifi_tries, if wifi_tries <=? 0 then true else false, [Connect wifi_err])
    else (wifi_err, WIFITRIES, false, [Connect wifi_err])
  else (wifi_err, wifi_tries, false, []).

(** Lines 216-272: what is done with the samples when the board is not in
    offline mode. The result is [PollingInterval], [wifi_err], the backup
    file and the calls made. *)
Definition transmit (o : Oracle) (Ports : list PortInfo) (PollingInterval : F) (wifi_err : Z) (BackupFile : list Reading) : result (F * Z * list Reading * list Event) :=
  let now := PortInfo.Value <$> Ports in
  if checkESPWiFiConnection_216 o then
    '(PollingInterval, wifi_err, BackupFile, ev_drain) ←
      drain (S (length BackupFile)) o O PollingInterval wifi_err BackupFile;
    if negb (checkForBackupFile BackupFile) then
      let '(wifi_err, tmp) := sendBulkDataTCP o in
      let PollingInterval := adopt_interval tmp PollingInterval in
      if negb (wifi_err =? NETWORKSUCCESS) then
        mret (PollingInterval, wifi_err, dumpSensorDataToFile Ports BackupFile,
              ev_drain ++ [SendBulk now wifi_err tmp; Dump now])
      else mret (PollingInterval, wifi_err, BackupFile, ev_drain ++ [SendBulk now wifi_err tmp])
    else mret (PollingInterval, wifi_err, dumpSensorDataToFile Ports BackupFile,
               ev_drain ++ [Dump now])
  else mret (PollingInterval, wifi_err, dumpSensorDataToFile Ports BackupFile, [Dump now]).

(** Lines 149-286: one turn of [while (true)]. The wait of line 280
    changes no variable and is left out. *)
Definition cycle (o : Oracle) (s : LoopState) : result (LoopState * list Event) :=
  '(Ports, ev_read) ← read_ports o (PollingInterval s) O (BoardSpecs.Ports (Specs s));
  let Specs' := set_Ports (Specs s) Ports in
  if negb (OfflineMode s) then
    let '(wifi_err, wifi_tries, OfflineMode, ev_conn) := reconnect o (wifi_err s) (wifi_tries s) in
    '(PollingInterval, wifi_err, BackupFile, ev_send) ←
      transmit o Ports (PollingInterval s) wifi_err (BackupFile s);
    mret ({| Specs := Specs'; PollingInterval := PollingInterval;
             OfflineMode := OfflineMode; wifi_tries := wifi_tries;
             wifi_err := wifi_err; BackupFile := BackupFile |},
          ev_read ++ ev_conn ++ ev_send)
  else
    mret ({| Specs := Specs'; PollingInterval := PollingInterval s;
             OfflineMode := OfflineMode s; wifi_tries := wifi_tries s;
             wifi_err := wifi_err s;
             BackupFile := dumpSensorDataToFile Ports (BackupFile s) |},
          ev_read ++ [Dump (PortInfo.Value <$> Ports)]).

(** The first turns of the loop, one oracle for each. *)
Fixpoint run (os : list Oracle) (s : LoopState) : result (LoopState * list Event) :=
  match os with
  | [] => mret (s, [])
  | o :: os' =>
      '(s, ev) ← cycle o s;
      '(s, evs) ← run os' s;
      mret (s, ev ++ evs)
  end.

(** What the network answers before the loop starts. *)
Record Boot : Type := {
  startESP : Z;
  checkESPWiFiConnection_132 : bool;
  connectESPWiFi_134 : Z
}.

Definition blank (s : list ascii) : bool :=
  match s with
  | [] => true
  | [c] => ascii_eqb c " "
  | _ => false
  end.

(** Lines 37, 73-144: the state the loop is entered with. *)
Definition startup (b : Boot) (Specs0 : BoardSpecs) (BackupFile0 : list Reading) : LoopState :=
  let OfflineMode := negb (startESP b =? NETWORKSUCCESS) in
  let OfflineMode := if blank (BoardSpecs.DatabaseTableName Specs0) then true else OfflineMode in
  let OfflineMode := if blank (BoardSpecs.RemoteDir Specs0) then true else OfflineMode in
  let OfflineMode := if blank (BoardSpecs.RemoteIP Specs0) then true else OfflineMode in
  let OfflineMode := if BoardSpecs.RemotePort Specs0 =? 0 then true else OfflineMode in
  let OfflineMode := if blank (BoardSpecs.HostName Specs0) then true else OfflineMode in
  let wifi_err :=
    if negb OfflineMode && negb (checkESPWiFiConnection_132 b)
    then connectESPWiFi_134 b else NETWORKSUCCESS in
  let wifi_tries :=
    if negb OfflineMode && negb (wifi_err =? NETWORKSUCCESS)
    then WIFITRIES - 1 else WIFITRIES in
  {| Specs := Specs0; PollingInterval := F_of_Z 5; OfflineMode := OfflineMode;
     wifi_tries := wifi_tries; wifi_err := wifi_err; BackupFile := BackupFile0 |}.

End Main.

(** ** The vocabulary of the statements *)

Section Vocabulary.
Context {P : Platform}.
Implicit Types (delim tok Buffer name body : list ascii) (Specs : BoardSpecs).
Implicit Types (Sensors : list SensorInfo) (p : PortInfo) (o : Oracle).
Implicit Types (evs : list Event).

(** A token: characters none of which is a delimiter. *)
Definition free_of delim tok : Prop := Forall (λ c, is_delim delim c = false) tok.

(** The port a line [name:id] makes when [id] is the index of [s]. *)
Definition resolved_port name (id : Z) (s : SensorInfo) : PortInfo :=
  {| PortInfo.Name := erase_at_blanks (S (length name)) name;
     PortInfo.SensorID := id;
     PortInfo.Multiplier := SensorInfo.Multiplier s;
     PortInfo.Description := (SensorInfo.Type' s ++ lit " in ") ++ SensorInfo.Unit s;
     PortInfo.RangeEnd := SensorInfo.RangeEnd s;
     PortInfo.RangeFloor := PortInfo_RangeFloor0;
     PortInfo.RangeCeiling := PortInfo_RangeCeiling0;
     PortInfo.Value := PortInfo_Value0 |}.

(** What the parser sees to for a port it keeps: the floor and the
    ceiling are those of the default constructor; the multiplier is not
    zero and is, as the member [RangeEnd], that of the sensor the port
    names. *)
Definition port_ok Sensors p : Prop :=
  PortInfo.RangeFloor p = PortInfo_RangeFloor0 ∧
  PortInfo.RangeCeiling p = PortInfo_RangeCeiling0 ∧
  Fneb (PortInfo.Multiplier p) (F_of_Z 0) = true ∧
  ∃ s, index Sensors (size_t_of_int (PortInfo.SensorID p)) = Done s ∧
       PortInfo.Multiplier p = SensorInfo.Multiplier s ∧
       PortInfo.RangeEnd p = SensorInfo.RangeEnd s.

Definition ports_ok Specs : Prop :=
  Forall (port_ok (BoardSpecs.Sensors Specs)) (BoardSpecs.Ports Specs).

(** A field: not empty, and without the delimiter that ends it. *)
Definition field (d : ascii) (x : list ascii) : Prop := x ≠ [] ∧ d ∉ x.

(** The tests of lines 81, 121, 142 and 155. *)
Definition sensor_test Buffer : bool :=
  strstr Buffer (lit "SensorID") && ascii_eqb (hd NUL Buffer) "S".
Definition conn_test Buffer : bool :=
  ascii_eqb (hd NUL Buffer) "C" && strstr Buffer (lit "ConnInfo").
Definition board_test Buffer : bool :=
  ascii_eqb (hd NUL Buffer) "B" && strstr Buffer (lit "Board").
Definition port_test Buffer : bool :=
  negb (board_test Buffer) && ascii_eqb (hd NUL Buffer) "P".

(** The shapes of the four records, without the newline. *)
Definition sensor_shape body : Prop :=
  ∃ pre ty un mu rs re,
    body = pre ++ ":"%char :: ty ++ ","%char :: un ++ ","%char :: mu ++ ","%char :: rs ++ ","%char :: re ∧
    (":"%char ∉ pre) ∧ field "," ty ∧ field "," un ∧ field "," mu ∧ field "," rs ∧ re ≠ [].

Definition conn_shape body : Prop :=
  ∃ pre ip port host dir,
    body = pre ++ ":"%char :: ip ++ ":"%char :: port ++ ":"%char :: host ++ ":"%char :: dir ∧
    (":"%char ∉ pre) ∧ field ":" ip ∧ field ":" port ∧ field ":" host ∧ dir ≠ [].

Definition board_shape body : Prop :=
  ∃ pre ssid pw more,
    body = pre ++ ":"%char :: ssid ++ ":"%char :: pw ++ ":"%char :: more ∧
    (":"%char ∉ pre) ∧ field ":" ssid ∧ field ":" pw.

Definition port_shape (n : nat) body : Prop :=
  ∃ name idtxt,
    body = name ++ ":"%char :: idtxt ∧
    (":"%char ∉ name) ∧ idtxt ≠ [] ∧ 0 ≤ atoi idtxt < Z.of_nat n.

(** A line of a file with [n] sensor lines that every branch taking it
    can read to its end: it ends in a newline, fits the buffer, holds no
    NUL, and has the shape of its record. *)
Definition wf_line (n : nat) (l : list ascii) : Prop :=
  ∃ body,
    l = body ++ [LF] ∧ (LF ∉ body) ∧ (NUL ∉ body) ∧ (length body + 2 ≤ BUFFLEN)%nat ∧
    (sensor_test l = true → sensor_shape body) ∧
    (conn_test l = true → conn_shape body) ∧
    (board_test l = true → board_shape body) ∧
    (port_test l = true → port_shape n body).

(** The number of lines the first loop takes for sensor lines. *)
Definition count_sensors (lines : list (list ascii)) : nat :=
  length (List.filter sensor_test lines).

(** The value a send left in [tmp], for the events that are sends. *)
Definition override (ev : Event) : option F :=
  match ev with
  | SendBackup _ _ tmp | SendBulk _ _ tmp => Some tmp
  | _ => None
  end.

Definition overrides evs : list F := omap override evs.

(** The polling interval after a run of sends. *)
Definition adopt_all (PollingInterval : F) (tmps : list F) : F :=
  foldl (λ PI tmp, adopt_interval tmp PI) PollingInterval tmps.

(** The entries a run of calls deleted. *)
Definition deleted (ev : Event) : option (option Reading) :=
  match ev with
  | Delete e => Some e
  | _ => None
  end.

Definition deletes evs : list (option Reading) := omap deleted evs.

(** Calls that stay on the board: the watchdog and the backup file. *)
Definition local_only (ev : Event) : Prop :=
  match ev with
  | Watchdog _ | Dump _ => True
  | _ => False
  end.

(** The port after the body of the sampling loop has run for it. *)
Definition sampled o (pin : PinName) p : PortInfo :=
  set_Value p (range_check (Fmul (AnalogIn_read o pin) (PortInfo.Multiplier p))
                           (PortInfo.RangeFloor p) (PortInfo.RangeCeiling p)).

(** The traces the loop of lines 220-243 can leave: the backup file
    before, the calls, the backup file after. *)
Inductive drained : list Reading → list Event → list Reading → Prop :=
| drained_stop store :
    drained store [] store
| drained_fail e store err tmp :
    err ≠ NETWORKSUCCESS →
    drained (e :: store) [SendBackup (Some e) err tmp] (e :: store)
| drained_ack e store tmp evs store' :
    drained store evs store' →
    drained (e :: store)
            (SendBackup (Some e) NETWORKSUCCESS tmp :: Delete (Some e) :: evs) store'.

(** What a turn of the loop leaves: the values stored for the ports, and
    the polling interval. *)
Definition stored_values (r : result (LoopState * list Event)) : result (list F) :=
  '(s, _) ← r; mret (PortInfo.Value <$> BoardSpecs.Ports (Specs s)).

Definition interval_left (r : result (LoopState * list Event)) : result F :=
  '(s, _) ← r; mret (PollingInterval s).

End Vocabulary.

(** ** The vocabulary of the further properties *)

Section MoreVocabulary.
Context {P : Platform}.
Implicit Types (Buffer : list ascii) (Specs : BoardSpecs) (evs : list Event).

(** A line of text that [fgets] hands out whole: it ends in a newline,
    holds no other newline and no NUL, and fits the buffer. *)
Definition text_line (l : list ascii) : Prop :=
  ∃ body, l = body ++ [LF] ∧ (LF ∉ body) ∧ (NUL ∉ body) ∧
          (length body + 2 ≤ BUFFLEN)%nat.

(** The first part of a line too long for the buffer, as [fgets] hands it
    out: [BUFFLEN - 1] characters without a newline. *)
Definition buffer_fill (l : list ascii) : Prop :=
  l ≠ [] ∧ (LF ∉ l) ∧ (NUL ∉ l) ∧ length l = (BUFFLEN - 1)%nat.

(** What one call of [fgets] hands out. *)
Definition piece (l : list ascii) : Prop := text_line l ∨ buffer_fill l.

(** Lines 81-111: the body of the first loop. *)
Definition sensor_pass Buffer Specs : result BoardSpecs :=
  if sensor_test Buffer then sensor_line Buffer Specs else Done Specs.

(** A loop body run on the lines of a text, one after the other. *)
Fixpoint each_line (body : list ascii → BoardSpecs → result BoardSpecs)
    (lines : list (list ascii)) (Specs : BoardSpecs) : result BoardSpecs :=
  match lines with
  | [] => Done Specs
  | l :: lines' => Specs ← body l Specs; each_line body lines' Specs
  end.

(** The two passes of [readConfigText] over the lines of a text. *)
Definition parse_lines (lines : list (list ascii)) : result BoardSpecs :=
  Specs ← each_line sensor_pass lines BoardSpecs_new;
  each_line config_line lines Specs.

(** A line that no branch of either loop takes. *)
Definition ignored_line (l : list ascii) : Prop :=
  sensor_test l = false ∧ conn_test l = false ∧
  board_test l = false ∧ port_test l = false.

(** The test of line 155 of main.cpp. *)
Definition active (p : PortInfo) : bool := Fneb (PortInfo.Multiplier p) (F_of_Z 0).

(** The delays the watchdog was reset with, the statuses of the attempts
    to connect, and the entries and statuses of the sends of backed-up
    entries, in a run of calls. *)
Definition watchdog_delay (ev : Event) : option F :=
  match ev with
  | Watchdog delay => Some delay
  | _ => None
  end.

Definition watchdogs evs : list F := omap watchdog_delay evs.

Definition connect_status (ev : Event) : option Z :=
  match ev with
  | Connect err => Some err
  | _ => None
  end.

Definition connects evs : list Z := omap connect_status evs.

Definition backup_sent (ev : Event) : option (option Reading * Z) :=
  match ev with
  | SendBackup entry err _ => Some (entry, err)
  | _ => None
  end.

Definition backups evs : list (option Reading * Z) := omap backup_sent evs.

(** The values a run of calls dumped to the backup file, and the values
    and statuses of its sends of fresh samples. *)
Definition dumped (ev : Event) : option Reading :=
  match ev with
  | Dump now => Some now
  | _ => None
  end.

Definition dumps evs : list Reading := omap dumped evs.

Definition bulk_sent (ev : Event) : option (Reading * Z) :=
  match ev with
  | SendBulk now err _ => Some (now, err)
  | _ => None
  end.

Definition bulks evs : list (Reading * Z) := omap bulk_sent evs.

(** What the sampling loop may do to a port: give it a new [Value], and
    that only when its multiplier is not zero. *)
Definition resampled (p p' : PortInfo) : Prop :=
  p' = set_Value p (PortInfo.Value p') ∧ (active p = false → p' = p).

(** The text the port branch takes for the name, and what it keeps. *)
Definition port_origin (Sensors : list SensorInfo) (p : PortInfo) : Prop :=
  ∃ tok idtxt s,
    hd NUL tok = "P"%char ∧ (":"%char ∉ tok) ∧
    index Sensors (size_t_of_int (atoi idtxt)) = Done s ∧
    Fneb (SensorInfo.Multiplier s) (F_of_Z 0) = true ∧
    p = resolved_port tok (atoi idtxt) s.

End MoreVocabulary.

(** ** A platform to run the embedding on: binary64 arithmetic

    The statements below hold on every platform; this one is there to run
    the embedding on the texts and samples of the specification. Its
    macros have sample values, and the members the default constructors
    leave are zero. *)

(** An integer literal as a float. *)
Definition float_of_Z (z : Z) : float :=
  if z <? 0 then PrimFloat.opp (PrimFloat.of_uint63 (Uint63.of_Z (- z)))
  else PrimFloat.of_uint63 (Uint63.of_Z z).

(** The number of leading decimal digits, and what follows them. *)
Fixpoint count_digits (s : list ascii) : nat :=
  match s with
  | [] => O
  | c :: s' => if isdigit c then S (count_digits s') else O
  end.

Fixpoint drop_digits (s : list ascii) : list ascii :=
  match s with
  | [] => []
  | c :: s' => if isdigit c then drop_digits s' else s
  end.

(** A reader of plain decimal numerals ([-12.5], [0.01], [500]): the
    quotient of two integers, rounded once. Exponents, [inf] and [nan] are
    not read. *)
Definition atof_decimal (s : list ascii) : float :=
  let s := skip_space s in
  let '(neg, s) :=
    match s with
    | c :: s' =>
        if ascii_eqb c "-" then (true, s')
        else if ascii_eqb c "+" then (false, s') else (false, s)
    | [] => (false, [])
    end in
  let ip := read_digits 0 s in
  let '(m, k) :=
    match drop_digits s with
    | c :: s' =>
        if ascii_eqb c "." then (read_digits ip s', count_digits s') else (ip, O)
    | [] => (ip, O)
    end in
  let v := PrimFloat.div (float_of_Z m) (float_of_Z (10 ^ Z.of_nat k)) in
  if neg then PrimFloat.opp v else v.

#[export] Instance binary64 : Platform := {|
  F := float;
  F_of_Z := float_of_Z;
  Fmul := PrimFloat.mul;
  Fopp := PrimFloat.opp;
  Feqb := PrimFloat.eqb;
  Fltb := PrimFloat.ltb;
  Fleb := PrimFloat.leb;
  HUGE_VAL := PrimFloat.infinity;
  atof := atof_decimal;
  BUFFLEN := 128;
  WIFITRIES := 3;
  NETWORKSUCCESS := 0;
  PortInfo_RangeEnd0 := PrimFloat.zero;
  PortInfo_RangeFloor0 := PrimFloat.zero;
  PortInfo_RangeCeiling0 := PrimFloat.zero;
  PortInfo_Value0 := PrimFloat.zero;
  BoardSpecs_RemotePort0 := 0;
  Feqb_zero := eq_refl;
  Feqb_minus_one := eq_refl
|}.

(** A line of text with its newline. *)
Definition line (s : string) : list ascii := lit s ++ [LF].

(** The text of section 8 of the specification. *)
Definition spec_text : list (list ascii) :=
  [line "SensorID:Voltage,V,0.01,0,500"; line "P Main:0"].

(** A sensor with multiplier zero, and a port for it. *)
Definition zero_multiplier_text : list (list ascii) :=
  [line "SensorID:Voltage,V,0,0,500"; line "PMain:0"].

(** A file with a line for every branch of the parser, and one for none. *)
Definition full_text : list (list ascii) :=
  [line "SensorID:Voltage,V,0.01,0,500";
   line "Board 7:net:pw:tbl";
   line "ConnInfo:10.0.0.1:80:host:/dir";
   line "A comment";
   line "PMain:0"].

(** A file with one port more than the board has pins. *)
Definition eleven_ports_text : list (list ascii) :=
  line "SensorID:Voltage,V,0.01,0,500" :: replicate 11 (line "PMain:0").

(** The sensor of section 8, and the tables after its line. *)
Definition voltage_sensor : SensorInfo :=
  {| SensorInfo.Type' := lit "Voltage"; SensorInfo.Unit := lit "V";
     SensorInfo.Multiplier := atof (lit "0.01");
     SensorInfo.RangeStart := atof (lit "0");
     SensorInfo.RangeEnd := atof (lit "500") |}.

Definition one_sensor : BoardSpecs := push_sensor BoardSpecs_new voltage_sensor.

(** The tables after that line and eleven lines [PMain:0]. *)
Definition eleven_ports : BoardSpecs :=
  set_Ports one_sensor (replicate 11 (resolved_port (lit "PMain") 0 voltage_sensor)).

(** A port with multiplier 1 and range [0,500]. *)
Definition unit_port : PortInfo :=
  {| PortInfo.Name := lit "PMain"; PortInfo.SensorID := 0;
     PortInfo.Multiplier := 1%float; PortInfo.Description := lit "Voltage in V";
     PortInfo.RangeEnd := 500%float; PortInfo.RangeFloor := 0%float;
     PortInfo.RangeCeiling := 500%float; PortInfo.Value := 0%float |}.

(** A board with three such ports, on line, with one attempt left. *)
Definition three_ports : LoopState :=
  {| Specs := set_Ports one_sensor [unit_port; unit_port; unit_port];
     PollingInterval := F_of_Z 5; OfflineMode := false;
     wifi_tries := 1; wifi_err := NETWORKSUCCESS; BackupFile := [] |}.

(** The same board with two readings in its backup file. *)
Definition with_backlog : LoopState :=
  {| Specs := set_Ports one_sensor [unit_port; unit_port; unit_port];
     PollingInterval := F_of_Z 5; OfflineMode := false;
     wifi_tries := 3; wifi_err := NETWORKSUCCESS;
     BackupFile := [[1%float; 2%float; 3%float]; [4%float; 5%float; 6%float]] |}.

(** A text of [BUFFLEN - 1] characters without a newline. *)
Definition long_comment : list ascii := replicate 127 "x"%char.

(** The pins read 600, -5 and 250; the network is down. *)
Definition network_down : Oracle :=
  {| AnalogIn_read := λ pin,
       match pin with
       | PTB2 => 600%float
       | PTB3 => (-5)%float
       | _ => 250%float
       end;
     checkESPWiFiConnection_189 := false;
     connectESPWiFi := 1;
     checkESPWiFiConnection_216 := false;
     PollingTimer_read := λ _, 0%float;
     sendBackupDataTCP := λ _, (1, (-1)%float);
     sendBulkDataTCP := (1, (-1)%float) |}.

(** The network is up, and a send leaves [tmp] in [tmp]. *)
Definition network_up (tmp : float) : Oracle :=
  {| AnalogIn_read := λ _, 250%float;
     checkESPWiFiConnection_189 := true;
     connectESPWiFi := 0;
     checkESPWiFiConnection_216 := true;
     PollingTimer_read := λ _, 0%float;
     sendBackupDataTCP := λ _, (0, tmp);
     sendBulkDataTCP := (0, tmp) |}.

(** The network answers the start of the program. *)
Definition boot_ok : Boot :=
  {| startESP := 0; checkESPWiFiConnection_132 := true; connectESPWiFi_134 := 0 |}.

(** ** Tactics *)

(** Splits [c ∉ a ++ d :: b] into its parts. *)
Ltac notin_parts H :=
  repeat first [rewrite not_elem_of_app in H | rewrite not_elem_of_cons in H].

(** Membership in a literal is decided by computation. *)
Ltac not_in_literal := apply (bool_decide_unpack _); vm_compute; exact I.

Ltac literal_field := split; [discriminate | not_in_literal].

(** A test that fails on the line at hand. *)
Ltac not_taken := let H := fresh in intros H; vm_compute in H; discriminate H.

(** ** Facts about the C library functions *)

Section Libc.
Implicit Types (delim s tok rest : list ascii) (c d : ascii).

Lemma ascii_eqb_eq c d : ascii_eqb c d = true ↔ c = d.
Proof. unfold ascii_eqb. apply Ascii.eqb_eq. Qed.

Lemma ascii_eqb_refl c : ascii_eqb c c = true.
Proof. by apply ascii_eqb_eq. Qed.

Lemma ascii_eqb_neq c d : c ≠ d → ascii_eqb c d = false.
Proof.
  intros Hne. destruct (ascii_eqb c d) eqn:E; [|done].
  by apply ascii_eqb_eq in E.
Qed.

Lemma is_delim_single c d : is_delim [d] c = ascii_eqb c d.
Proof. unfold is_delim. simpl. by rewrite orb_false_r. Qed.

Lemma free_of_single d tok : d ∉ tok → free_of [d] tok.
Proof.
  intros Hd. apply Forall_forall. intros c Hc.
  rewrite is_delim_single. apply ascii_eqb_neq. by intros ->.
Qed.

Lemma skip_delims_token delim c tok :
  is_delim delim c = false → skip_delims delim (c :: tok) = c :: tok.
Proof. intros Hc. simpl. by rewrite Hc. Qed.

Lemma scan_token_field delim tok d rest :
  free_of delim tok → is_delim delim d = true →
  scan_token delim (tok ++ d :: rest) = (tok, rest).
Proof.
  intros Htok Hd. induction Htok as [|c tok Hc _ IH]; simpl.
  - by rewrite Hd.
  - by rewrite Hc, IH.
Qed.

Lemma scan_token_last delim tok :
  free_of delim tok → scan_token delim tok = (tok, []).
Proof.
  intros Htok. induction Htok as [|c tok Hc _ IH]; simpl; [done|].
  by rewrite Hc, IH.
Qed.

(** [strtok] on a field followed by a delimiter. *)
Lemma strtok_field delim tok d rest :
  tok ≠ [] → free_of delim tok → is_delim delim d = true →
  strtok delim (tok ++ d :: rest) = (Some tok, rest).
Proof.
  intros Hne Htok Hd. destruct tok as [|c tok]; [done|].
  unfold strtok. pose proof (Forall_inv Htok) as Hc. simpl in Hc.
  change ((c :: tok) ++ d :: rest) with (c :: (tok ++ d :: rest)).
  rewrite skip_delims_token by done.
  change (c :: (tok ++ d :: rest)) with ((c :: tok) ++ d :: rest).
  by rewrite scan_token_field.
Qed.

(** [strtok] on a last field, which runs to the end of the string. *)
Lemma strtok_last delim tok :
  tok ≠ [] → free_of delim tok → strtok delim tok = (Some tok, []).
Proof.
  intros Hne Htok. destruct tok as [|c tok]; [done|].
  unfold strtok. pose proof (Forall_inv Htok) as Hc. simpl in Hc.
  rewrite skip_delims_token by done.
  by rewrite scan_token_last.
Qed.

(** A string with a character that is no delimiter has a token. *)
Lemma strtok_is_Some delim s :
  Exists (λ c, is_delim delim c = false) s →
  ∃ tok save, strtok delim s = (Some tok, save).
Proof.
  unfold strtok. induction 1 as [c s Hc|c s _ IH]; simpl.
  - rewrite Hc. simpl. rewrite Hc.
    destruct (scan_token delim s) as [tok save]. by eexists _, _.
  - destruct (is_delim delim c) eqn:Hc; [done|].
    simpl. rewrite Hc.
    destruct (scan_token delim s) as [tok save]. by eexists _, _.
Qed.

Lemma c_str_id s : NUL ∉ s → c_str s = s.
Proof.
  induction s as [|c s IH]; intros Hs; simpl; [done|].
  apply not_elem_of_cons in Hs as [Hc Hs].
  rewrite ascii_eqb_neq by done. by rewrite IH.
Qed.

(** [fgets] hands out a line that fits the buffer whole. *)
Lemma take_line_line n body rest :
  LF ∉ body → (length body < n)%nat →
  take_line n (body ++ LF :: rest) = (body ++ [LF], rest).
Proof.
  revert n. induction body as [|c body IH]; intros n Hlf Hn; simpl in *.
  - destruct n; [lia|]. done.
  - destruct n; [lia|]. apply not_elem_of_cons in Hlf as [Hc Hlf].
    simpl. rewrite (ascii_eqb_neq c LF) by done.
    rewrite IH by (done || lia). done.
Qed.

Lemma fgets_line size bytes body rest :
  LF ∉ body → NUL ∉ body → (length body + 2 <= size)%nat →
  fgets size {| data := bytes; unread := body ++ LF :: rest |} =
    Some (body ++ [LF], {| data := bytes; unread := rest |}).
Proof.
  intros Hlf Hnul Hsize. unfold fgets. simpl.
  destruct (body ++ LF :: rest) as [|c s] eqn:E.
  { by destruct body. }
  rewrite <- E. rewrite take_line_line by (done || lia).
  rewrite c_str_id; [done|].
  rewrite elem_of_app, list_elem_of_singleton. by intros [?|?].
Qed.

(** The loop of lines 169-174 cuts the name at its first blank. *)
Lemma find_first_of_None c s : c ∉ s → find_first_of c s = None.
Proof.
  induction s as [|a s IH]; intros Hs; simpl; [done|].
  apply not_elem_of_cons in Hs as [Hc Hs].
  rewrite ascii_eqb_neq by done. by rewrite IH.
Qed.

Lemma find_first_of_Some c s i :
  find_first_of c s = Some i → (c ∉ take i s) ∧ (s !! i = Some c).
Proof.
  revert i. induction s as [|a s IH]; intros i; simpl; [done|].
  destruct (ascii_eqb a c) eqn:E.
  - intros [= <-]. apply ascii_eqb_eq in E as ->. split; [|done].
    simpl. apply not_elem_of_nil.
  - destruct (find_first_of c s) as [j|] eqn:Ej; [|done].
    simpl. intros [= <-]. destruct (IH j eq_refl) as [H1 H2].
    split; [|done]. simpl. apply not_elem_of_cons. split; [|done].
    intros ->. by rewrite ascii_eqb_refl in E.
Qed.

End Libc.

(** ** Facts about the parser *)

Section ParserFacts.
Context {P : Platform}.
Implicit Types (Buffer name pre body : list ascii) (Specs : BoardSpecs).
Implicit Types (Sensors : list SensorInfo) (p : PortInfo).

Lemma bind_Done {A B} (m : result A) (k : A → result B) (b : B) :
  m ≫= k = Done b ↔ ∃ a, m = Done a ∧ k a = Done b.
Proof.
  destruct m as [a| |]; simpl; split; try done.
  - intros H. by exists a.
  - by intros (a' & [= <-] & H).
  - by intros (a' & [=] & _).
  - by intros (a' & [=] & _).
Qed.

Lemma fmap_Done {A B} (f : A → B) (m : result A) (b : B) :
  f <$> m = Done b ↔ ∃ a, m = Done a ∧ f a = b.
Proof.
  destruct m as [a| |]; simpl; split; try done.
  - intros [= <-]. by exists a.
  - by intros (a' & [= <-] & <-).
  - by intros (a' & [=] & _).
  - by intros (a' & [=] & _).
Qed.

Lemma index_Done {A} (v : list A) (i : Z) (a : A) :
  index v i = Done a ↔ 0 ≤ i < Z.of_nat (length v) ∧ v !! Z.to_nat i = Some a.
Proof.
  unfold index.
  destruct (0 <=? i) eqn:E1; destruct (i <? Z.of_nat (length v)) eqn:E2; simpl;
    try (split; [done | intros [? _]; lia]).
  destruct (v !! Z.to_nat i) eqn:E; split; try done.
  - intros [= <-]. split; [lia | done].
  - by intros [_ [= <-]].
  - by intros [_ [=]].
Qed.

Lemma index_in_range {A} (v : list A) (i : Z) :
  0 ≤ i < Z.of_nat (length v) → ∃ a, index v i = Done a.
Proof.
  intros Hi. destruct (lookup_lt_is_Some_2 v (Z.to_nat i)) as [a Ha]; [lia|].
  exists a. by apply index_Done.
Qed.

Lemma index_out_of_range {A} (v : list A) (i : Z) :
  ¬ (0 ≤ i < Z.of_nat (length v)) → index v i = Undefined OutOfRange.
Proof.
  intros Hi. unfold index.
  destruct (0 <=? i) eqn:E1; destruct (i <? Z.of_nat (length v)) eqn:E2; simpl; try done.
  lia.
Qed.

Lemma size_t_of_int_small z : 0 ≤ z < 2 ^ 32 → size_t_of_int z = z.
Proof. intros Hz. unfold size_t_of_int. by apply Z.mod_small. Qed.

Lemma atoi_range s : INT_MIN ≤ atoi s ≤ INT_MAX.
Proof. unfold atoi, INT_MIN, INT_MAX. lia. Qed.

(** Taking apart a run that came to its end. *)
Ltac done_inv H :=
  repeat match type of H with
  | (let '(_, _) := ?x in _) = Done _ => destruct x as [? ?] eqn:?
  | _ ≫= _ = Done _ => apply bind_Done in H as (? & ? & H)
  | (if ?b then _ else _) = Done _ => destruct b eqn:?
  end.

(** *** The name of a port *)

Lemma erase_at_blanks_free fuel name :
  " "%char ∉ name → erase_at_blanks fuel name = name.
Proof.
  intros Hname. destruct fuel; simpl; [done|].
  by rewrite find_first_of_None.
Qed.

Lemma erase_at_blanks_ends name :
  find_first_of " " (erase_at_blanks (S (length name)) name) = None.
Proof.
  simpl. destruct (find_first_of " " name) as [i|] eqn:Hi; [|done].
  apply find_first_of_Some in Hi as [Hi _]. unfold erase.
  rewrite erase_at_blanks_free by done. by apply find_first_of_None.
Qed.

Lemma erase_at_blanks_cut name i :
  find_first_of " " name = Some i →
  erase_at_blanks (S (length name)) name = take i name.
Proof.
  intros Hi. simpl. rewrite Hi. unfold erase.
  apply erase_at_blanks_free. by apply find_first_of_Some.
Qed.

(** *** The three resolutions of a sensor index *)

Lemma setUnitMultiplier_resolved Sensors id s :
  index Sensors id = Done s →
  setUnitMultiplier Sensors id = Done (SensorInfo.Multiplier s).
Proof.
  intros Hs. unfold setUnitMultiplier. rewrite Hs.
  apply index_Done in Hs as [Hid _].
  destruct (Z.of_nat (length Sensors) <=? id) eqn:E; [lia | done].
Qed.

Lemma setUnitMultiplier_dangling Sensors id :
  Z.of_nat (length Sensors) ≤ id → setUnitMultiplier Sensors id = Done (F_of_Z 0).
Proof.
  intros Hid. unfold setUnitMultiplier.
  destruct (Z.of_nat (length Sensors) <=? id) eqn:E; [done | lia].
Qed.

Lemma getSensorName_resolved Sensors id s :
  index Sensors id = Done s →
  getSensorName Sensors id =
    Done ((SensorInfo.Type' s ++ lit " in ") ++ SensorInfo.Unit s).
Proof.
  intros Hs. unfold getSensorName. rewrite Hs.
  apply index_Done in Hs as [Hid _].
  destruct (Z.of_nat (length Sensors) <=? id) eqn:E; [lia | done].
Qed.

Lemma getSensorName_dangling Sensors id :
  Z.of_nat (length Sensors) ≤ id → getSensorName Sensors id = Done (lit "No Sensor").
Proof.
  intros Hid. unfold getSensorName.
  destruct (Z.of_nat (length Sensors) <=? id) eqn:E; [done | lia].
Qed.

Lemma setBoundsFromID_resolved p Sensors s :
  index Sensors (size_t_of_int (PortInfo.SensorID p)) = Done s →
  setBoundsFromID p Sensors = Done (set_RangeEnd p (SensorInfo.RangeEnd s)).
Proof.
  intros Hs. unfold setBoundsFromID. rewrite Hs. simpl. rewrite Hs. simpl.
  by destruct p.
Qed.

Lemma setBoundsFromID_dangling p Sensors :
  Z.of_nat (length Sensors) ≤ size_t_of_int (PortInfo.SensorID p) →
  setBoundsFromID p Sensors = Undefined OutOfRange.
Proof.
  intros Hid. unfold setBoundsFromID.
  rewrite index_out_of_range by lia. done.
Qed.

(** What [setBoundsFromID] leaves alone. *)
Lemma setBoundsFromID_frame p Sensors p' :
  setBoundsFromID p Sensors = Done p' →
  PortInfo.RangeFloor p' = PortInfo.RangeFloor p ∧
  PortInfo.RangeCeiling p' = PortInfo.RangeCeiling p ∧
  PortInfo.Name p' = PortInfo.Name p ∧
  PortInfo.Multiplier p' = PortInfo.Multiplier p.
Proof.
  unfold setBoundsFromID. intros H.
  apply bind_Done in H as (s1 & _ & H).
  apply bind_Done in H as (s2 & _ & H).
  by injection H as <-.
Qed.

(** A port line whose index is the index of a sensor. *)
Lemma port_line_resolved Specs name tail idtxt save s :
  name ≠ [] → ":"%char ∉ name →
  strtok [LF] tail = (Some idtxt, save) →
  index (BoardSpecs.Sensors Specs) (size_t_of_int (atoi idtxt)) = Done s →
  port_line (name ++ ":"%char :: tail) Specs =
    Done (if Fneb (SensorInfo.Multiplier s) (F_of_Z 0)
          then push_port Specs (resolved_port name (atoi idtxt) s)
          else Specs).
Proof.
  intros Hne Hname Htail Hs. unfold port_line.
  rewrite (strtok_field (lit ":") name ":" tail); [|done|by apply free_of_single|done].
  simpl. rewrite Htail. simpl.
  rewrite (setUnitMultiplier_resolved _ _ s) by done. simpl.
  rewrite (getSensorName_resolved _ _ s) by done. simpl.
  rewrite (setBoundsFromID_resolved _ _ s) by done. simpl.
  done.
Qed.

(** A port line whose index is past the last sensor. *)
Lemma port_line_dangling Specs name tail idtxt save :
  name ≠ [] → ":"%char ∉ name →
  strtok [LF] tail = (Some idtxt, save) →
  Z.of_nat (length (BoardSpecs.Sensors Specs)) ≤ size_t_of_int (atoi idtxt) →
  port_line (name ++ ":"%char :: tail) Specs = Undefined OutOfRange.
Proof.
  intros Hne Hname Htail Hid. unfold port_line.
  rewrite (strtok_field (lit ":") name ":" tail); [|done|by apply free_of_single|done].
  simpl. rewrite Htail. simpl.
  rewrite setUnitMultiplier_dangling by done. simpl.
  rewrite getSensorName_dangling by done. simpl.
  rewrite setBoundsFromID_dangling by done. done.
Qed.

(** What a port line can do to the tables: nothing, or one more port,
    resolved against a sensor with a multiplier that is not zero. *)
Lemma port_line_Done Buffer Specs Specs' :
  port_line Buffer Specs = Done Specs' →
  Specs' = Specs ∨
  ∃ name idtxt s,
    index (BoardSpecs.Sensors Specs) (size_t_of_int (atoi idtxt)) = Done s ∧
    Fneb (SensorInfo.Multiplier s) (F_of_Z 0) = true ∧
    Specs' = push_port Specs (resolved_port name (atoi idtxt) s).
Proof.
  unfold port_line. intros H.
  destruct (strtok (lit ":") Buffer) as [tok save] eqn:E1.
  apply bind_Done in H as (name & Hname & H).
  destruct (strtok [LF] save) as [tok' save'] eqn:E2.
  apply bind_Done in H as (id & Hid & H).
  apply fmap_Done in Hid as (idtxt & _ & <-).
  apply bind_Done in H as (m & Hm & H).
  apply bind_Done in H as (d & Hd & H).
  apply bind_Done in H as (p & Hp & H).
  injection H as <-.
  unfold setBoundsFromID in Hp.
  apply bind_Done in Hp as (s & Hs & Hp). simpl in Hs, Hp. rewrite Hs in Hp.
  simpl in Hp. injection Hp as <-. simpl.
  rewrite (setUnitMultiplier_resolved _ _ s) in Hm by done. injection Hm as <-.
  rewrite (getSensorName_resolved _ _ s) in Hd by done. injection Hd as <-.
  destruct (Fneb (SensorInfo.Multiplier s) (F_of_Z 0)) eqn:E; [|by left].
  right. by exists name, idtxt, s.
Qed.

Lemma sensor_line_Done Buffer Specs Specs' :
  sensor_line Buffer Specs = Done Specs' →
  ∃ s, Specs' = push_sensor Specs s.
Proof.
  unfold sensor_line. intros H. done_inv H. injection H as <-. by eexists.
Qed.

Lemma conn_line_Done Buffer Specs Specs' :
  conn_line Buffer Specs = Done Specs' →
  ∃ ip port host dir, Specs' = set_conn Specs ip port host dir.
Proof.
  unfold conn_line. intros H. done_inv H. injection H as <-. by eexists _, _, _, _.
Qed.

Lemma board_line_Done Buffer Specs Specs' :
  board_line Buffer Specs = Done Specs' →
  ∃ id ssid pw table, Specs' = set_board Specs id ssid pw table.
Proof.
  unfold board_line. intros H. done_inv H. injection H as <-. by eexists _, _, _, _.
Qed.

(** *** What holds of every port the parser keeps *)

Lemma resolved_port_ok Sensors name idtxt s :
  index Sensors (size_t_of_int (atoi idtxt)) = Done s →
  Fneb (SensorInfo.Multiplier s) (F_of_Z 0) = true →
  port_ok Sensors (resolved_port name (atoi idtxt) s).
Proof. intros Hs Hm. repeat split; try done. by exists s. Qed.

Lemma config_line_ports_ok Buffer Specs Specs' :
  config_line Buffer Specs = Done Specs' → ports_ok Specs → ports_ok Specs'.
Proof.
  unfold config_line, ports_ok. intros H Hok.
  apply bind_Done in H as (Specs1 & H1 & H).
  assert (BoardSpecs.Sensors Specs1 = BoardSpecs.Sensors Specs ∧
          BoardSpecs.Ports Specs1 = BoardSpecs.Ports Specs) as [HS HP].
  { destruct (_ && _) in H1.
    - by apply conn_line_Done in H1 as (? & ? & ? & ? & ->).
    - by injection H1 as <-. }
  rewrite <- HS, <- HP in Hok. clear H1 HS HP.
  destruct (_ && _) in H.
  { by apply board_line_Done in H as (? & ? & ? & ? & ->). }
  destruct (ascii_eqb _ _) in H; [|by injection H as <-].
  apply port_line_Done in H as [->|(name & idtxt & s & Hs & Hm & ->)]; [done|].
  simpl. apply Forall_app. split; [done|].
  apply Forall_singleton. by apply resolved_port_ok.
Qed.

Lemma read_config_ports_ok fuel fp Specs fp' Specs' :
  read_config fuel fp Specs = Done (fp', Specs') → ports_ok Specs → ports_ok Specs'.
Proof.
  revert fp Specs. induction fuel as [|fuel IH]; intros fp Specs H Hok; simpl in H; [done|].
  destruct (fgets BUFFLEN fp) as [[Buffer fp1]|]; [|by injection H as _ <-].
  apply bind_Done in H as (Specs1 & H1 & H).
  eapply IH; [done|]. by eapply config_line_ports_ok.
Qed.

Lemma read_sensors_ports fuel fp Specs fp' Specs' :
  read_sensors fuel fp Specs = Done (fp', Specs') →
  BoardSpecs.Ports Specs' = BoardSpecs.Ports Specs.
Proof.
  revert fp Specs. induction fuel as [|fuel IH]; intros fp Specs H; simpl in H; [done|].
  destruct (fgets BUFFLEN fp) as [[Buffer fp1]|]; [|by injection H as _ <-].
  apply bind_Done in H as (Specs1 & H1 & H).
  rewrite (IH _ _ H).
  destruct (_ && _) in H1; [|by injection H1 as <-].
  by apply sensor_line_Done in H1 as (s & ->).
Qed.

Lemma readConfigText_ports_ok fp Specs :
  readConfigText fp = Done Specs → ports_ok Specs.
Proof.
  unfold readConfigText, readConfigText_fuel. intros H.
  apply bind_Done in H as ([fp1 Specs1] & H1 & H).
  apply bind_Done in H as ([fp2 Specs2] & H2 & H).
  injection H as <-.
  eapply read_config_ports_ok; [done|].
  unfold ports_ok. rewrite (read_sensors_ports _ _ _ _ _ H1). simpl.
  apply Forall_nil_2.
Qed.

(** *** Lines that carry every field their branch reads *)

Lemma hd_app_colon pre rest c :
  hd NUL (pre ++ ":"%char :: rest) = c → c ≠ ":"%char → pre ≠ [].
Proof. intros H Hc ->. simpl in H. congruence. Qed.

Lemma test_hd Buffer c : ascii_eqb (hd NUL Buffer) c = true → hd NUL Buffer = c.
Proof. apply ascii_eqb_eq. Qed.

Lemma strtok_colon tok rest :
  tok ≠ [] → ":"%char ∉ tok →
  strtok (lit ":") (tok ++ ":"%char :: rest) = (Some tok, rest).
Proof. intros. apply strtok_field; [done | by apply free_of_single | done]. Qed.

Lemma strtok_comma tok rest :
  field "," tok → strtok (lit ",") (tok ++ ","%char :: rest) = (Some tok, rest).
Proof. intros [??]. apply strtok_field; [done | by apply free_of_single | done]. Qed.

Lemma strtok_newline tok :
  tok ≠ [] → LF ∉ tok → strtok [LF] (tok ++ [LF]) = (Some tok, []).
Proof. intros. apply strtok_field; [done | by apply free_of_single | done]. Qed.

Lemma sensor_line_shape body Specs :
  sensor_shape body → LF ∉ body → hd NUL (body ++ [LF]) = "S"%char →
  ∃ s, sensor_line (body ++ [LF]) Specs = Done (push_sensor Specs s).
Proof.
  intros (pre & ty & un & mu & rs & re & -> & Hpre & Hty & Hun & Hmu & Hrs & Hre) Hlf Hhd.
  assert (pre ≠ []) as Hpre0.
  { eapply hd_app_colon; [by rewrite <- app_assoc in Hhd|done]. }
  notin_parts Hlf.
  unfold sensor_line.
  replace ((pre ++ ":"%char :: ty ++ ","%char :: un ++ ","%char :: mu ++ ","%char :: rs ++ ","%char :: re) ++ [LF])
    with (pre ++ ":"%char :: ty ++ ","%char :: un ++ ","%char :: mu ++ ","%char :: rs ++ ","%char :: (re ++ [LF])).
  2:{ repeat (rewrite <- app_assoc; simpl). done. }
  rewrite strtok_colon by done.
  rewrite strtok_comma by done. simpl.
  rewrite strtok_comma by done. simpl.
  rewrite strtok_comma by done. simpl.
  rewrite strtok_comma by done. simpl.
  rewrite strtok_newline by tauto. simpl.
  by eexists.
Qed.

Lemma conn_line_shape body Specs :
  conn_shape body → LF ∉ body → hd NUL (body ++ [LF]) = "C"%char →
  ∃ Specs', conn_line (body ++ [LF]) Specs = Done Specs'.
Proof.
  intros (pre & ip & port & host & dir & -> & Hpre & Hip & Hport & Hhost & Hdir) Hlf Hhd.
  assert (pre ≠ []) as Hpre0.
  { eapply hd_app_colon; [by rewrite <- app_assoc in Hhd|done]. }
  notin_parts Hlf. destruct Hip, Hport, Hhost.
  unfold conn_line.
  replace ((pre ++ ":"%char :: ip ++ ":"%char :: port ++ ":"%char :: host ++ ":"%char :: dir) ++ [LF])
    with (pre ++ ":"%char :: ip ++ ":"%char :: port ++ ":"%char :: host ++ ":"%char :: (dir ++ [LF])).
  2:{ repeat (rewrite <- app_assoc; simpl). done. }
  rewrite strtok_colon by done.
  rewrite strtok_colon by done. simpl.
  rewrite strtok_colon by done. simpl.
  rewrite strtok_colon by done. simpl.
  rewrite strtok_newline by tauto. simpl.
  by eexists.
Qed.

Lemma board_line_shape body Specs :
  board_shape body → hd NUL (body ++ [LF]) = "B"%char →
  ∃ Specs', board_line (body ++ [LF]) Specs = Done Specs'.
Proof.
  intros (pre & ssid & pw & more & -> & Hpre & Hssid & Hpw) Hhd.
  assert (pre ≠ []) as Hpre0.
  { eapply hd_app_colon; [by rewrite <- app_assoc in Hhd|done]. }
  destruct Hssid, Hpw.
  unfold board_line.
  replace ((pre ++ ":"%char :: ssid ++ ":"%char :: pw ++ ":"%char :: more) ++ [LF])
    with (pre ++ ":"%char :: ssid ++ ":"%char :: pw ++ ":"%char :: (more ++ [LF])).
  2:{ repeat (rewrite <- app_assoc; simpl). done. }
  rewrite strtok_colon by done. simpl.
  rewrite strtok_colon by done. simpl.
  rewrite strtok_colon by done. simpl.
  destruct (strtok_is_Some (lit ":") (more ++ [LF])) as (tok & save & ->).
  { apply Exists_app. right. by apply Exists_cons_hd. }
  simpl. by eexists.
Qed.

Lemma port_line_shape body Specs :
  port_shape (length (BoardSpecs.Sensors Specs)) body → LF ∉ body →
  hd NUL (body ++ [LF]) = "P"%char →
  ∃ Specs', port_line (body ++ [LF]) Specs = Done Specs'.
Proof.
  intros (name & idtxt & -> & Hname & Hid & Hrange) Hlf Hhd.
  assert (name ≠ []) as Hname0.
  { eapply hd_app_colon; [by rewrite <- app_assoc in Hhd|done]. }
  notin_parts Hlf.
  replace ((name ++ ":"%char :: idtxt) ++ [LF]) with (name ++ ":"%char :: (idtxt ++ [LF])).
  2:{ by rewrite <- app_assoc. }
  pose proof (atoi_range idtxt) as Hint. unfold INT_MAX in Hint.
  destruct (index_in_range (BoardSpecs.Sensors Specs) (size_t_of_int (atoi idtxt))) as [s Hs].
  { rewrite size_t_of_int_small by lia. done. }
  erewrite port_line_resolved; [by eexists|done|done| |done].
  apply strtok_newline; tauto.
Qed.

Lemma config_line_sensors Buffer Specs Specs' :
  config_line Buffer Specs = Done Specs' →
  BoardSpecs.Sensors Specs' = BoardSpecs.Sensors Specs.
Proof.
  unfold config_line. intros H.
  apply bind_Done in H as (Specs1 & H1 & H).
  assert (BoardSpecs.Sensors Specs1 = BoardSpecs.Sensors Specs) as <-.
  { destruct (_ && _) in H1.
    - by apply conn_line_Done in H1 as (? & ? & ? & ? & ->).
    - by injection H1 as <-. }
  destruct (_ && _) in H.
  { by apply board_line_Done in H as (? & ? & ? & ? & ->). }
  destruct (ascii_eqb _ _) in H; [|by injection H as <-].
  by apply port_line_Done in H as [->|(name & idtxt & s & Hs & Hm & ->)].
Qed.

(** The second loop reads a well-formed line to its end. *)
Lemma config_line_wf l Specs :
  wf_line (length (BoardSpecs.Sensors Specs)) l →
  ∃ Specs', config_line l Specs = Done Specs'.
Proof.
  intros (body & -> & Hlf & Hnul & Hlen & _ & Hconn & Hboard & Hport).
  unfold config_line.
  unfold conn_test in Hconn. unfold port_test, board_test in Hport.
  unfold board_test in Hboard.
  destruct (ascii_eqb (hd NUL (body ++ [LF])) "C") eqn:EC.
  - (* a line that starts with C *)
    apply test_hd in EC as HC. rewrite andb_true_l in Hconn |- *.
    destruct (strstr (body ++ [LF]) (lit "ConnInfo")) eqn:ES.
    + destruct (conn_line_shape body Specs) as [Specs' ->]; [by apply Hconn|done|done|].
      simpl. rewrite HC. simpl. by eexists.
    + simpl. rewrite HC. simpl. by eexists.
  - simpl.
    destruct (ascii_eqb (hd NUL (body ++ [LF])) "B" && strstr (body ++ [LF]) (lit "Board")) eqn:EB.
    + apply andb_true_iff in EB as [EB _]. apply test_hd in EB.
      by apply board_line_shape; [apply Hboard|].
    + simpl in Hport.
      destruct (ascii_eqb (hd NUL (body ++ [LF])) "P") eqn:EP; [|by eexists].
      apply test_hd in EP. by apply port_line_shape; [apply Hport| |].
Qed.

Lemma wf_line_fgets n l rest bytes :
  wf_line n l →
  fgets BUFFLEN {| data := bytes; unread := l ++ rest |} =
    Some (l, {| data := bytes; unread := rest |}).
Proof.
  intros (body & -> & Hlf & Hnul & Hlen & _).
  rewrite <- app_assoc. simpl. by apply fgets_line.
Qed.

Lemma wf_lines_length n lines :
  Forall (wf_line n) lines → (length lines ≤ length (concat lines))%nat.
Proof.
  induction 1 as [|l lines (body & -> & _) _ IH]; simpl; [done|].
  rewrite !length_app. simpl. lia.
Qed.

(** The first loop reads a file of well-formed lines to its end, and
    stores a sensor for every sensor line. *)
Lemma read_sensors_lines n lines bytes fuel Specs :
  Forall (wf_line n) lines → (length lines < fuel)%nat →
  ∃ Specs',
    read_sensors fuel {| data := bytes; unread := concat lines |} Specs =
      Done ({| data := bytes; unread := [] |}, Specs') ∧
    length (BoardSpecs.Sensors Specs') =
      (length (BoardSpecs.Sensors Specs) + count_sensors lines)%nat.
Proof.
  intros Hwf. revert fuel Specs.
  induction Hwf as [|l lines Hl _ IH]; intros fuel Specs Hfuel.
  - destruct fuel; [simpl in Hfuel; lia|]. simpl.
    exists Specs. split; [done|]. unfold count_sensors. simpl. lia.
  - destruct fuel; [simpl in Hfuel; lia|].
    cbn [read_sensors concat]. rewrite (wf_line_fgets n) by done.
    fold (sensor_test l). unfold count_sensors. cbn [List.filter].
    destruct (sensor_test l) eqn:Etest.
    + destruct Hl as (body & -> & Hlf & _ & _ & Hshape & _).
      apply Hshape in Etest as Hbody.
      apply andb_true_iff in Etest as [_ Ehd]. apply test_hd in Ehd.
      destruct (sensor_line_shape body Specs) as [s ->]; [done..|].
      cbn [mbind result_bind].
      destruct (IH fuel (push_sensor Specs s)) as (Specs' & -> & Hlen).
      { simpl in Hfuel. lia. }
      exists Specs'. split; [done|].
      rewrite Hlen. unfold count_sensors. simpl. rewrite length_app. simpl. lia.
    + cbn [mbind result_bind].
      destruct (IH fuel Specs) as (Specs' & -> & Hlen).
      { simpl in Hfuel. lia. }
      by exists Specs'.
Qed.

(** The second loop reads a file of well-formed lines to its end. *)
Lemma read_config_lines lines bytes fuel Specs :
  Forall (wf_line (length (BoardSpecs.Sensors Specs))) lines →
  (length lines < fuel)%nat →
  ∃ Specs',
    read_config fuel {| data := bytes; unread := concat lines |} Specs =
      Done ({| data := bytes; unread := [] |}, Specs').
Proof.
  intros Hwf. revert fuel Specs Hwf.
  induction lines as [|l lines IH]; intros fuel Specs Hwf Hfuel.
  - destruct fuel; [simpl in Hfuel; lia|]. by exists Specs.
  - destruct fuel; [simpl in Hfuel; lia|].
    apply Forall_cons in Hwf as [Hl Hwf].
    cbn [read_config concat]. rewrite (wf_line_fgets _ l) by done.
    destruct (config_line_wf l Specs Hl) as [Specs1 H1]. rewrite H1.
    cbn [mbind result_bind].
    apply IH; [|simpl in Hfuel; lia].
    by rewrite (config_line_sensors _ _ _ H1).
Qed.

(** A line that starts with [P] is taken by the port branch alone. *)
Lemma config_line_port Buffer Specs :
  hd NUL Buffer = "P"%char → config_line Buffer Specs = port_line Buffer Specs.
Proof. intros H. unfold config_line. rewrite H. done. Qed.

(** A line that starts with [B] and holds [Board] is taken by the board
    branch alone. *)
Lemma config_line_board Buffer Specs :
  hd NUL Buffer = "B"%char → strstr Buffer (lit "Board") = true →
  config_line Buffer Specs = board_line Buffer Specs.
Proof. intros H HB. unfold config_line. rewrite H, HB. done. Qed.

(** *** The fuel is enough

    A buffer of two or more characters makes every [fgets] consume a
    character, so neither loop runs out of the fuel [readConfigText] gives
    it: on every file the parser ends in [Done] or in [Undefined]. *)

Lemma take_line_shrinks (n : nat) (s l r : list ascii) :
  (0 < n)%nat → s ≠ [] → take_line n s = (l, r) → (length r < length s)%nat.
Proof.
  revert n l r. induction s as [|c s IH]; intros n l r Hn Hs H; [done|].
  destruct n as [|n]; [lia|]. simpl in H.
  destruct (ascii_eqb c LF).
  { injection H as _ <-. simpl. lia. }
  destruct (take_line n s) as [l' r'] eqn:E. injection H as _ <-.
  destruct n as [|n].
  { destruct s; simpl in E; injection E as _ <-; simpl; lia. }
  destruct s as [|c' s].
  { simpl in E. injection E as _ <-. simpl. lia. }
  assert (length r' < length (c' :: s))%nat by (apply (IH (S n) l'); [lia|done|done]).
  simpl in *. lia.
Qed.

Lemma fgets_shrinks (size : nat) (fp fp' : FILE) Buffer :
  (2 ≤ size)%nat → fgets size fp = Some (Buffer, fp') →
  (length (unread fp') < length (unread fp))%nat ∧ data fp' = data fp.
Proof.
  intros Hsize. unfold fgets. destruct (unread fp) as [|c s] eqn:E; [done|].
  destruct (take_line (size - 1) (c :: s)) as [l r] eqn:Et.
  intros [= _ <-]. simpl. split; [|done].
  apply (take_line_shrinks (size - 1) (c :: s) l r); [lia|done|done].
Qed.

Lemma bind_fueled {A B} (m : result A) (k : A → result B) :
  m ≠ OutOfFuel → (∀ a, m = Done a → k a ≠ OutOfFuel) → m ≫= k ≠ OutOfFuel.
Proof. destruct m; simpl; intros Hm Hk; [by apply Hk|done|done]. Qed.

Lemma deref_fueled {A} (o : option A) : deref o ≠ OutOfFuel.
Proof. by destruct o. Qed.

Lemma fmap_fueled {A B} (f : A → B) (m : result A) :
  m ≠ OutOfFuel → f <$> m ≠ OutOfFuel.
Proof. by destruct m. Qed.

Lemma index_fueled {A} (v : list A) (i : Z) : index v i ≠ OutOfFuel.
Proof.
  unfold index. destruct (_ && _); [|done]. by destruct (v !! Z.to_nat i).
Qed.

(** A goal that some straight-line code does not run out of fuel. *)
Ltac fueled :=
  repeat first
    [ done
    | apply deref_fueled
    | apply index_fueled
    | apply fmap_fueled
    | apply bind_fueled; [|intros ? _]
    | match goal with
      | |- context [strtok ?d ?s] => destruct (strtok d s) as [? ?]
      | |- context [if ?b then _ else _] => destruct b
      end ].

Lemma sensor_line_fueled Buffer Specs : sensor_line Buffer Specs ≠ OutOfFuel.
Proof. unfold sensor_line. fueled. Qed.

Lemma config_line_fueled Buffer Specs : config_line Buffer Specs ≠ OutOfFuel.
Proof.
  unfold config_line, conn_line, board_line, port_line, setUnitMultiplier,
    getSensorName, setBoundsFromID.
  fueled.
Qed.

Lemma read_sensors_fueled fuel fp Specs :
  (2 ≤ BUFFLEN)%nat → (length (unread fp) < fuel)%nat →
  read_sensors fuel fp Specs ≠ OutOfFuel.
Proof.
  intros HB. revert fp Specs. induction fuel as [|fuel IH]; intros fp Specs Hfuel; [lia|].
  simpl. destruct (fgets BUFFLEN fp) as [[Buffer fp']|] eqn:E; [|done].
  destruct (fgets_shrinks _ _ _ _ HB E) as [Hlt _].
  apply bind_fueled.
  - destruct (_ && _); [apply sensor_line_fueled|done].
  - intros Specs' _. apply IH. lia.
Qed.

Lemma read_sensors_data fuel fp Specs fp' Specs' :
  (2 ≤ BUFFLEN)%nat → read_sensors fuel fp Specs = Done (fp', Specs') →
  data fp' = data fp.
Proof.
  intros HB. revert fp Specs. induction fuel as [|fuel IH]; intros fp Specs H; [done|].
  simpl in H. destruct (fgets BUFFLEN fp) as [[Buffer fp1]|] eqn:E.
  - destruct (fgets_shrinks _ _ _ _ HB E) as [_ Hd].
    apply bind_Done in H as (Specs1 & _ & H). rewrite <- Hd. by eapply IH.
  - by injection H as <- _.
Qed.

Lemma read_config_fueled fuel fp Specs :
  (2 ≤ BUFFLEN)%nat → (length (unread fp) < fuel)%nat →
  read_config fuel fp Specs ≠ OutOfFuel.
Proof.
  intros HB. revert fp Specs. induction fuel as [|fuel IH]; intros fp Specs Hfuel; [lia|].
  simpl. destruct (fgets BUFFLEN fp) as [[Buffer fp']|] eqn:E; [|done].
  destruct (fgets_shrinks _ _ _ _ HB E) as [Hlt _].
  apply bind_fueled; [apply config_line_fueled|].
  intros Specs' _. apply IH. lia.
Qed.

Lemma readConfigText_fueled fp :
  (2 ≤ BUFFLEN)%nat → (length (unread fp) ≤ length (data fp))%nat →
  readConfigText fp ≠ OutOfFuel.
Proof.
  intros HB Hfp. unfold readConfigText, readConfigText_fuel.
  apply bind_fueled; [apply read_sensors_fueled; [done|lia]|].
  intros [fp1 Specs1] H1. apply bind_fueled; [|by intros [? ?] _].
  apply read_config_fueled; [done|].
  simpl. rewrite (read_sensors_data _ _ _ _ _ HB H1). lia.
Qed.

(** C1 (what the code does): every port the parser keeps has the members
    [RangeFloor] and [RangeCeiling] that the default constructor of
    [PortInfo] left; no line of the file, and no sensor, has a part in them. *)
Theorem kept_ports_keep_default_bounds (fp : FILE) (Specs : BoardSpecs) :
  readConfigText fp = Done Specs →
  Forall (λ p, PortInfo.RangeFloor p = PortInfo_RangeFloor0 ∧
               PortInfo.RangeCeiling p = PortInfo_RangeCeiling0)
         (BoardSpecs.Ports Specs).
Proof.
  intros H. apply readConfigText_ports_ok in H.
  eapply Forall_impl; [exact H|]. intros p (Hf & Hc & _). done.
Qed.

(** C2 (amended): parsing comes to its end and returns the tables for every
    text made of lines that end in a newline, fit the line buffer and hold
    no NUL, in which every line taken by a branch has all the fields that
    branch reads, and every port line names the index of a sensor line of
    the text. *)
Theorem readConfigText_completes (lines : list (list ascii)) :
  Forall (wf_line (count_sensors lines)) lines →
  ∃ Specs, readConfigText (fopen (concat lines)) = Done Specs ∧
           length (BoardSpecs.Sensors Specs) = count_sensors lines.
Proof.
  intros Hwf. unfold readConfigText, readConfigText_fuel, fopen. cbn [data].
  pose proof (wf_lines_length _ _ Hwf) as Hlen.
  destruct (read_sensors_lines _ lines (concat lines) (S (length (concat lines)))
              BoardSpecs_new Hwf) as (Specs1 & -> & H1); [lia|].
  cbn [mbind result_bind]. unfold rewind. cbn [data].
  simpl in H1.
  destruct (read_config_lines lines (concat lines) (S (length (concat lines))) Specs1)
    as (Specs2 & H2); [by rewrite H1|lia|].
  rewrite H2. cbn [mbind result_bind].
  exists Specs2. split; [done|].
  assert (∀ fuel fp S1 fp' S2, read_config fuel fp S1 = Done (fp', S2) →
            BoardSpecs.Sensors S2 = BoardSpecs.Sensors S1) as Hkeep.
  { induction fuel as [|fuel IH]; intros fp S1 fp' S2 H; simpl in H; [done|].
    destruct (fgets BUFFLEN fp) as [[Buffer fp1]|]; [|by injection H as _ <-].
    apply bind_Done in H as (S3 & H3 & H).
    rewrite (IH _ _ _ _ H). by eapply config_line_sensors. }
  by rewrite (Hkeep _ _ _ _ _ H2).
Qed.

(** C3 (amended): a port is kept exactly when the multiplier resolved for
    it is not zero. Every kept port has the index of a sensor and that
    sensor's multiplier, which is not zero; a port line with the index of a
    sensor is kept when that sensor's multiplier is not zero and dropped
    when it is zero; and the multiplier resolved for an index at or past
    the size of the catalog is zero. *)
Theorem port_kept_iff_multiplier_nonzero :
  (∀ fp Specs, readConfigText fp = Done Specs →
     Forall (λ p, Fneb (PortInfo.Multiplier p) (F_of_Z 0) = true ∧
                  ∃ s, index (BoardSpecs.Sensors Specs)
                             (size_t_of_int (PortInfo.SensorID p)) = Done s ∧
                       PortInfo.Multiplier p = SensorInfo.Multiplier s)
            (BoardSpecs.Ports Specs)) ∧
  (∀ Specs name idtxt s,
     hd NUL name = "P"%char → ":"%char ∉ name → idtxt ≠ [] → LF ∉ idtxt →
     index (BoardSpecs.Sensors Specs) (size_t_of_int (atoi idtxt)) = Done s →
     ∃ Specs', config_line (name ++ ":"%char :: idtxt ++ [LF]) Specs = Done Specs' ∧
       BoardSpecs.Ports Specs' =
         if Fneb (SensorInfo.Multiplier s) (F_of_Z 0)
         then BoardSpecs.Ports Specs ++ [resolved_port name (atoi idtxt) s]
         else BoardSpecs.Ports Specs) ∧
  (∀ Sensors id, Z.of_nat (length Sensors) ≤ id →
     setUnitMultiplier Sensors id = Done (F_of_Z 0) ∧
     Fneb (F_of_Z 0) (F_of_Z 0) = false).
Proof.
  split; [|split].
  - intros fp Specs H. apply readConfigText_ports_ok in H.
    eapply Forall_impl; [exact H|].
    intros p (_ & _ & Hm & s & Hs & Hms & _). split; [done|]. by exists s.
  - intros Specs name idtxt s Hhd Hname Hid Hlf Hs.
    assert (name ≠ []) as Hne by (by intros ->).
    rewrite config_line_port by (by destruct name).
    erewrite port_line_resolved; [|done|done|by apply strtok_newline|done].
    eexists. split; [done|].
    by destruct (Fneb (SensorInfo.Multiplier s) (F_of_Z 0)).
  - intros Sensors id Hid. split; [by apply setUnitMultiplier_dangling|].
    unfold Fneb. by rewrite Feqb_zero.
Qed.

(** C7 (amended): when the text of a port line up to its first [:] holds
    no blank, the name of the port is that text, its first character [P]
    included. *)
Theorem port_name_is_text_before_colon (Specs : BoardSpecs) (name idtxt : list ascii) (s : SensorInfo) :
  hd NUL name = "P"%char → ":"%char ∉ name → " "%char ∉ name →
  idtxt ≠ [] → LF ∉ idtxt →
  index (BoardSpecs.Sensors Specs) (size_t_of_int (atoi idtxt)) = Done s →
  Fneb (SensorInfo.Multiplier s) (F_of_Z 0) = true →
  ∃ p, config_line (name ++ ":"%char :: idtxt ++ [LF]) Specs = Done (push_port Specs p) ∧
       PortInfo.Name p = name.
Proof.
  intros Hhd Hname Hblank Hid Hlf Hs Hm.
  assert (name ≠ []) as Hne by (by intros ->).
  rewrite config_line_port by (by destruct name).
  erewrite port_line_resolved; [|done|done|by apply strtok_newline|done].
  rewrite Hm. eexists. split; [done|].
  simpl. by rewrite find_first_of_None.
Qed.

(** C8 (amended): a line that starts with [B] and holds [Board] gives the
    board its identity from the text before the first [:] (the token with
    [Board] itself), [NetworkSSID] from the first field after it,
    [NetworkPassword] from the second and [DatabaseTableName] from the
    third, which runs to the next [:] or to the end of the buffer. *)
Theorem board_line_fields (Specs : BoardSpecs) (id ssid pw table rest : list ascii) :
  hd NUL id = "B"%char →
  strstr (id ++ ":"%char :: ssid ++ ":"%char :: pw ++ ":"%char :: table ++ rest) (lit "Board") = true →
  ":"%char ∉ id → field ":" ssid → field ":" pw → field ":" table →
  rest = [] ∨ (∃ more, rest = ":"%char :: more) →
  config_line (id ++ ":"%char :: ssid ++ ":"%char :: pw ++ ":"%char :: table ++ rest) Specs =
    Done (set_board Specs id ssid pw table).
Proof.
  intros Hhd Hboard Hid [Hs0 Hs] [Hp0 Hp] [Ht0 Ht] Hrest.
  assert (id ≠ []) as Hne by (by intros ->).
  rewrite config_line_board; [|by destruct id|done].
  unfold board_line.
  rewrite strtok_colon by done. simpl.
  rewrite strtok_colon by done. simpl.
  rewrite strtok_colon by done. simpl.
  destruct Hrest as [->|[more ->]].
  - rewrite app_nil_r. rewrite strtok_last; [done|done|by apply free_of_single].
  - rewrite strtok_colon by done. done.
Qed.

End ParserFacts.

(** ** Facts about the control loop *)

Section MainFacts.
Context {P : Platform}.
Implicit Types (o : Oracle) (s : LoopState) (p : PortInfo) (e : Reading).
Implicit Types (Ports : list PortInfo) (store : list Reading) (evs : list Event).

Lemma Port_lookup (i : nat) : (i < 10)%nat → ∃ pin, index Port (Z.of_nat i) = Done pin.
Proof. intros Hi. apply index_in_range. simpl. lia. Qed.

Lemma index_of_nat {A} (v : list A) (i : nat) (a : A) :
  index v (Z.of_nat i) = Done a ↔ v !! i = Some a.
Proof.
  rewrite index_Done, Nat2Z.id. split; [by intros [_ ?]|].
  intros H. split; [|done]. apply lookup_lt_Some in H. lia.
Qed.

Lemma read_port_sampled o PI i p pin :
  Port !! i = Some pin → Fneb (PortInfo.Multiplier p) (F_of_Z 0) = true →
  read_port o PI i p = Done (sampled o pin p, [Watchdog (Fmul PI (F_of_Z 5))]).
Proof.
  intros Hpin Hm. unfold read_port. rewrite Hm.
  apply index_of_nat in Hpin. rewrite Hpin. done.
Qed.

Lemma read_port_unwired o PI i p :
  Fneb (PortInfo.Multiplier p) (F_of_Z 0) = false → read_port o PI i p = Done (p, []).
Proof. intros Hm. unfold read_port. by rewrite Hm. Qed.

(** The sampling loop within the ten pins. *)
Lemma read_ports_spec o PI Ports i :
  (i + length Ports ≤ 10)%nat →
  ∃ Ports' evs,
    read_ports o PI i Ports = Done (Ports', evs) ∧
    length Ports' = length Ports ∧
    Forall local_only evs ∧
    ∀ k p, Ports !! k = Some p →
      ∃ pin, Port !! (i + k)%nat = Some pin ∧
        Ports' !! k = Some (if Fneb (PortInfo.Multiplier p) (F_of_Z 0)
                            then sampled o pin p else p).
Proof.
  revert i. induction Ports as [|p Ports IH]; intros i Hlen.
  - exists [], []. by repeat split.
  - simpl in Hlen.
    destruct (Port_lookup i) as [pin Hpin]; [lia|].
    apply index_of_nat in Hpin.
    destruct (IH (S i)) as (Ports' & evs & Hrun & Hl & Hev & Hk); [lia|].
    cbn [read_ports]. rewrite Hrun.
    destruct (Fneb (PortInfo.Multiplier p) (F_of_Z 0)) eqn:Hm.
    + rewrite (read_port_sampled _ _ _ _ pin) by done.
      eexists _, _. split; [done|]. split; [by simpl; rewrite Hl|].
      split; [by constructor|].
      intros [|k] q Hq; simpl in Hq.
      * injection Hq as <-. exists pin. rewrite Nat.add_0_r, Hm. done.
      * destruct (Hk k q Hq) as (pin' & Hpin' & Hq').
        exists pin'. by rewrite <- Nat.add_succ_comm.
    + rewrite read_port_unwired by done.
      eexists _, _. split; [done|]. split; [by simpl; rewrite Hl|].
      split; [done|].
      intros [|k] q Hq; simpl in Hq.
      * injection Hq as <-. exists pin. rewrite Nat.add_0_r, Hm. done.
      * destruct (Hk k q Hq) as (pin' & Hpin' & Hq').
        exists pin'. by rewrite <- Nat.add_succ_comm.
Qed.

(** The sampling loop past the ten pins. *)
Lemma read_ports_overflow o PI Ports i :
  Forall (λ p, Fneb (PortInfo.Multiplier p) (F_of_Z 0) = true) Ports →
  (i ≤ 10)%nat → (10 < i + length Ports)%nat →
  read_ports o PI i Ports = Undefined OutOfRange.
Proof.
  intros Hm. revert i. induction Hm as [|p Ports Hp _ IH]; intros i Hi0 Hlen.
  - simpl in Hlen. lia.
  - cbn [read_ports]. destruct (decide (i < 10)%nat) as [Hi|Hi].
    + destruct (Port_lookup i Hi) as [pin Hpin]. apply index_of_nat in Hpin.
      rewrite (read_port_sampled _ _ _ _ pin) by done.
      cbn [mbind result_bind]. rewrite IH; [done|lia|]. simpl in Hlen. lia.
    + unfold read_port. rewrite Hp.
      rewrite index_out_of_range; [done|]. simpl. lia.
Qed.

(** *** The loop that sends the backed-up entries *)

Lemma drain_spec o store fuel n PI err :
  (length store < fuel)%nat →
  ∃ PI' err' store' evs,
    drain fuel o n PI err store = Done (PI', err', store', evs) ∧
    drained store evs store' ∧
    PI' = adopt_all PI (overrides evs).
Proof.
  revert fuel n PI err. induction store as [|e store IH]; intros fuel n PI err Hfuel.
  - destruct fuel; [simpl in Hfuel; lia|]. cbn [drain checkForBackupFile].
    rewrite andb_false_r. exists PI, err, [], [].
    split; [done|]. split; [constructor|done].
  - destruct fuel; [simpl in Hfuel; lia|]. cbn [drain checkForBackupFile].
    rewrite andb_true_r.
    destruct (Fleb (PollingTimer_read o n) PI).
    2:{ exists PI, err, (e :: store), [].
        split; [done|]. split; [constructor|done]. }
    destruct (sendBackupDataTCP o n) as [err1 tmp].
    destruct (err1 =? NETWORKSUCCESS) eqn:Eerr; cbn [negb].
    + apply Z.eqb_eq in Eerr as ->.
      change (deleteDataEntry (e :: store)) with store.
      change (oldest (e :: store)) with (Some e).
      destruct (IH fuel (S n) (adopt_interval tmp PI) NETWORKSUCCESS)
        as (PI' & err' & store' & evs & -> & Hd & ->).
      { simpl in Hfuel. lia. }
      cbn [mbind result_bind]. eexists _, _, _, _. split; [done|].
      split; [by constructor|done].
    + apply Z.eqb_neq in Eerr.
      eexists _, _, _, _. split; [done|]. split; [by constructor|done].
Qed.

(** What is deleted is a prefix of the file, oldest first; the rest stays. *)
Lemma drained_drop store evs store' :
  drained store evs store' →
  ∃ k, (k ≤ length store)%nat ∧ store' = drop k store ∧
       deletes evs = Some <$> take k store.
Proof.
  induction 1 as [store|e store err tmp Herr|e store tmp evs store' _ (k & Hk & -> & Hdel)].
  - exists O. split; [lia|done].
  - exists O. split; [simpl; lia|done].
  - exists (S k). split; [simpl; lia|]. split; [done|].
    unfold deletes in *. simpl. f_equal. exact Hdel.
Qed.

(** A call of [deleteDataEntry] comes right after the send of the same
    entry has returned [NETWORKSUCCESS]. *)
Lemma drained_delete store evs store' (i : nat) (x : option Reading) :
  drained store evs store' → evs !! i = Some (Delete x) →
  ∃ j tmp, i = S j ∧ evs !! j = Some (SendBackup x NETWORKSUCCESS tmp).
Proof.
  intros Hd. revert i.
  induction Hd as [store|e0 store err tmp Herr|e0 store tmp evs store' _ IH]; intros i Hi.
  - done.
  - by destruct i as [|[|i]].
  - destruct i as [|[|i]]; simpl in Hi; [done| |].
    + injection Hi as <-. by exists O, tmp.
    + destruct (IH i Hi) as (j & tmp' & -> & Hj). by exists (S (S j)), tmp'.
Qed.

(** A send that fails is the last call of the loop, and its entry is still
    the oldest of the file. *)
Lemma drained_failure store evs store' (i : nat) (x : option Reading) err tmp :
  drained store evs store' → evs !! i = Some (SendBackup x err tmp) →
  err ≠ NETWORKSUCCESS →
  length evs = S i ∧ ∃ e, x = Some e ∧ head store' = Some e.
Proof.
  intros Hd. revert i.
  induction Hd as [store|e0 store err0 tmp0 Herr|e0 store tmp0 evs store' _ IH];
    intros i Hi Hne.
  - done.
  - destruct i as [|i]; simpl in Hi; [|done]. injection Hi as <- <- <-.
    split; [done|]. by exists e0.
  - destruct i as [|[|i]]; simpl in Hi.
    + by injection Hi as <- <- <-.
    + done.
    + destruct (IH i Hi Hne) as [Hl He]. simpl. by rewrite Hl.
Qed.

(** *** One turn of the loop *)

Lemma transmit_spec o Ports PI err store :
  ∃ PI1 err1 store1 ev_drain PI' err' store' evs,
    drain (S (length store)) o O PI err store = Done (PI1, err1, store1, ev_drain) ∧
    drained store ev_drain store1 ∧
    transmit o Ports PI err store = Done (PI', err', store', evs) ∧
    PI' = adopt_all PI (overrides evs) ∧
    (checkESPWiFiConnection_216 o = false →
       store' = dumpSensorDataToFile Ports store ∧ evs = [Dump (PortInfo.Value <$> Ports)]) ∧
    (checkESPWiFiConnection_216 o = true →
       (store1 ≠ [] → store' = dumpSensorDataToFile Ports store1) ∧
       deletes evs = deletes ev_drain ∧
       ∃ ev_now, evs = ev_drain ++ ev_now ∧ deletes ev_now = []).
Proof.
  destruct (drain_spec o store (S (length store)) O PI err)
    as (PI1 & err1 & store1 & ev_drain & Hdrain & Hd & HPI); [lia|].
  exists PI1, err1, store1, ev_drain.
  unfold transmit. rewrite Hdrain. cbn [mbind result_bind].
  destruct (checkESPWiFiConnection_216 o).
  2:{ eexists _, _, _, _. repeat split; try done. }
  destruct store1 as [|e1 store1]; cbn [checkForBackupFile negb].
  - destruct (sendBulkDataTCP o) as [err2 tmp2].
    destruct (err2 =? NETWORKSUCCESS); cbn [negb].
    + eexists _, _, _, _. repeat split; try done.
      * unfold adopt_all, overrides. rewrite omap_app, foldl_app. simpl.
        by rewrite HPI.
      * unfold deletes. rewrite omap_app. simpl. by rewrite app_nil_r.
      * by eexists.
    + eexists _, _, _, _. repeat split; try done.
      * unfold adopt_all, overrides. rewrite omap_app, foldl_app. simpl.
        by rewrite HPI.
      * unfold deletes. rewrite omap_app. simpl. by rewrite app_nil_r.
      * by eexists.
  - eexists _, _, _, _. repeat split; try done.
    + unfold adopt_all, overrides. rewrite omap_app, foldl_app. simpl.
      by rewrite HPI.
    + unfold deletes. rewrite omap_app. simpl. by rewrite app_nil_r.
    + by eexists.
Qed.

Lemma local_only_quiet evs :
  Forall local_only evs → overrides evs = [] ∧ deletes evs = [].
Proof.
  induction 1 as [|ev evs Hev _ [IH1 IH2]]; [done|].
  unfold overrides, deletes in *. by destruct ev; simpl; rewrite ?IH1, ?IH2.
Qed.

Lemma reconnect_quiet o err tries :
  overrides (reconnect o err tries).2 = [] ∧ deletes (reconnect o err tries).2 = [].
Proof.
  unfold reconnect.
  destruct (checkESPWiFiConnection_189 o); [done|]. simpl.
  by destruct (connectESPWiFi o =? NETWORKSUCCESS).
Qed.

(** One turn of the loop of a board with at most ten ports comes to its
    end; what it leaves. *)
Lemma cycle_spec o s :
  (length (BoardSpecs.Ports (Specs s)) ≤ 10)%nat →
  ∃ Ports' ev_read s' ev,
    read_ports o (PollingInterval s) O (BoardSpecs.Ports (Specs s)) = Done (Ports', ev_read) ∧
    Forall local_only ev_read ∧
    cycle o s = Done (s', ev) ∧
    Specs s' = set_Ports (Specs s) Ports' ∧
    length Ports' = length (BoardSpecs.Ports (Specs s)) ∧
    PollingInterval s' = adopt_all (PollingInterval s) (overrides ev) ∧
    (OfflineMode s = true →
       OfflineMode s' = true ∧ wifi_tries s' = wifi_tries s ∧
       ev = ev_read ++ [Dump (PortInfo.Value <$> Ports')] ∧
       BackupFile s' = BackupFile s ++ [PortInfo.Value <$> Ports']) ∧
    (OfflineMode s = false →
       ∃ ev_send,
         reconnect o (wifi_err s) (wifi_tries s) =
           ((reconnect o (wifi_err s) (wifi_tries s)).1.1.1, wifi_tries s', OfflineMode s',
            (reconnect o (wifi_err s) (wifi_tries s)).2) ∧
         transmit o Ports' (PollingInterval s) (reconnect o (wifi_err s) (wifi_tries s)).1.1.1
                  (BackupFile s) =
           Done (PollingInterval s', wifi_err s', BackupFile s', ev_send) ∧
         ev = ev_read ++ (reconnect o (wifi_err s) (wifi_tries s)).2 ++ ev_send).
Proof.
  intros Hlen.
  destruct (read_ports_spec o (PollingInterval s) (BoardSpecs.Ports (Specs s)) O)
    as (Ports' & ev_read & Hread & Hl & Hev & _); [lia|].
  exists Ports', ev_read. unfold cycle. rewrite Hread. cbn [mbind result_bind].
  destruct (local_only_quiet _ Hev) as [Hq _].
  destruct (OfflineMode s) eqn:Hoff; cbn [negb].
  - eexists _, _. repeat split; try done.
    unfold adopt_all, overrides. rewrite omap_app. fold (overrides ev_read).
    by rewrite Hq.
  - destruct (reconnect o (wifi_err s) (wifi_tries s)) as [[[err1 tries1] off1] ev_conn] eqn:Hrec.
    destruct (transmit_spec o Ports' (PollingInterval s) err1 (BackupFile s))
      as (_ & _ & _ & _ & PI' & err' & store' & evs & _ & _ & Htr & HPI & _).
    rewrite Htr. cbn [mbind result_bind].
    eexists _, _. repeat split; try done.
    + cbn [PollingInterval]. rewrite HPI.
      unfold adopt_all, overrides. rewrite !omap_app.
      fold (overrides ev_read) (overrides ev_conn) (overrides evs).
      pose proof (reconnect_quiet o (wifi_err s) (wifi_tries s)) as [Hc _].
      rewrite Hrec in Hc. simpl in Hc. by rewrite Hq, Hc.
    + intros _. by exists evs.
Qed.

Lemma cycle_overflow o s :
  Forall (λ p, Fneb (PortInfo.Multiplier p) (F_of_Z 0) = true) (BoardSpecs.Ports (Specs s)) →
  (10 < length (BoardSpecs.Ports (Specs s)))%nat →
  cycle o s = Undefined OutOfRange.
Proof.
  intros Hm Hlen. unfold cycle.
  rewrite read_ports_overflow; [done|done|lia|simpl; lia].
Qed.

(** Once in offline mode, every turn dumps the samples and does nothing
    else with them. *)
Lemma run_offline os s :
  (length (BoardSpecs.Ports (Specs s)) ≤ 10)%nat → OfflineMode s = true →
  ∃ s' evs rs,
    run os s = Done (s', evs) ∧ OfflineMode s' = true ∧
    Forall local_only evs ∧
    BackupFile s' = BackupFile s ++ rs ∧ length rs = length os ∧
    wifi_tries s' = wifi_tries s ∧ PollingInterval s' = PollingInterval s.
Proof.
  revert s. induction os as [|o os IH]; intros s Hlen Hoff.
  - exists s, [], []. repeat split; try done. by rewrite app_nil_r.
  - destruct (cycle_spec o s Hlen)
      as (Ports' & ev_read & s1 & ev & _ & Hev & Hc & HS & Hl & HPI & Hoffline & _).
    destruct (Hoffline Hoff) as (Hoff1 & Htries & -> & Hstore).
    destruct (IH s1) as (s2 & evs & rs & Hrun & Hoff2 & Hevs & Hst2 & Hrs & Ht2 & HPI2).
    { rewrite HS. simpl. lia. }
    { done. }
    cbn [run]. rewrite Hc. cbn [mbind result_bind]. rewrite Hrun. cbn [mbind result_bind].
    eexists _, _, ((PortInfo.Value <$> Ports') :: rs). repeat split; try done.
    + apply Forall_app. split; [|done]. apply Forall_app. split; [done|].
      by apply Forall_singleton.
    + rewrite Hst2, Hstore. by rewrite <- app_assoc.
    + simpl. by rewrite Hrs.
    + by rewrite Ht2.
    + rewrite HPI2, HPI. unfold adopt_all, overrides. rewrite omap_app.
      fold (overrides ev_read). destruct (local_only_quiet _ Hev) as [-> _]. done.
Qed.

(** What follows the loop of the backed-up entries when the board is
    connected: the samples are sent when the file is empty, and dumped
    behind what is left of it otherwise. *)
Lemma transmit_connected o Ports PI err store :
  checkESPWiFiConnection_216 o = true →
  ∃ PI1 err1 store1 ev_drain,
    drained store ev_drain store1 ∧
    ((store1 ≠ [] ∧
      transmit o Ports PI err store =
        Done (PI1, err1, store1 ++ [PortInfo.Value <$> Ports],
              ev_drain ++ [Dump (PortInfo.Value <$> Ports)])) ∨
     (store1 = [] ∧ ∃ err2 tmp2 (rest : list Reading) ev_dump,
        transmit o Ports PI err store =
          Done (adopt_interval tmp2 PI1, err2, rest,
                ev_drain ++ SendBulk (PortInfo.Value <$> Ports) err2 tmp2 :: ev_dump) ∧
        Forall local_only ev_dump)).
Proof.
  intros Hconn.
  destruct (drain_spec o store (S (length store)) O PI err)
    as (PI1 & err1 & store1 & ev_drain & Hdrain & Hd & HPI); [lia|].
  exists PI1, err1, store1, ev_drain. split; [done|].
  unfold transmit. rewrite Hconn, Hdrain. cbn [mbind result_bind].
  destruct store1 as [|e1 store1]; cbn [checkForBackupFile negb].
  - right. split; [done|].
    destruct (sendBulkDataTCP o) as [err2 tmp2].
    destruct (err2 =? NETWORKSUCCESS); cbn [negb].
    + eexists _, _, _, []. split; [done|]. constructor.
    + eexists _, _, _, [_]. split; [done|]. by apply Forall_singleton.
  - left. split; [done|]. done.
Qed.

(** C4: a failed attempt to connect that brings [wifi_tries] to zero puts
    the board in offline mode, and offline mode stays through every later
    turn of the loop: each of them only resets the watchdog and dumps its
    samples to the backup file, without any call to the network; an
    attempt that succeeds gives [wifi_tries] its value [WIFITRIES] again. *)
Theorem offline_mode_is_permanent (o : Oracle) (s : LoopState) (os : list Oracle) :
  (length (BoardSpecs.Ports (Specs s)) ≤ 10)%nat →
  OfflineMode s = false → checkESPWiFiConnection_189 o = false →
  ∃ s1 ev1,
    cycle o s = Done (s1, ev1) ∧
    (connectESPWiFi o = NETWORKSUCCESS →
       wifi_tries s1 = WIFITRIES ∧ OfflineMode s1 = false) ∧
    (connectESPWiFi o ≠ NETWORKSUCCESS → wifi_tries s - 1 ≤ 0 →
       OfflineMode s1 = true ∧
       ∃ s2 evs rs,
         run os s1 = Done (s2, evs) ∧ OfflineMode s2 = true ∧
         Forall local_only evs ∧
         BackupFile s2 = BackupFile s1 ++ rs ∧ length rs = length os).
Proof.
  intros Hlen Hoff Hconn.
  destruct (cycle_spec o s Hlen)
    as (Ports' & ev_read & s1 & ev1 & _ & _ & Hc & HS & Hl & _ & _ & Hon).
  destruct (Hon Hoff) as (ev_send & Hrec & _ & _).
  exists s1, ev1. split; [done|].
  unfold reconnect in Hrec. rewrite Hconn in Hrec. cbn [negb] in Hrec.
  split.
  - intros Hok. rewrite Hok, Z.eqb_refl in Hrec. cbn [negb] in Hrec.
    by injection Hrec as <- <-.
  - intros Hfail Hzero. apply Z.eqb_neq in Hfail. rewrite Hfail in Hrec.
    cbn [negb] in Hrec.
    destruct (wifi_tries s - 1 <=? 0) eqn:E; [|lia].
    injection Hrec as _ Hoff1. symmetry in Hoff1. split; [done|].
    destruct (run_offline os s1) as (s2 & evs & rs & Hrun & Hoff2 & Hev & Hst & Hrs & _).
    { rewrite HS. simpl. lia. }
    { done. }
    by exists s2, evs, rs.
Qed.

(** C5: in a turn of the loop, the entries deleted from the backup file
    are its oldest [k], each by a call that comes right after the send of
    that entry returned [NETWORKSUCCESS]; the other entries stay at the
    head of the file; and a send of an entry that fails is followed by
    nothing but the dump of the current samples behind those entries. *)
Theorem backlog_entry_deleted_only_after_ack (o : Oracle) (Ports : list PortInfo) (PI : F) (err : Z) (store : list Reading) :
  ∃ PI' err' store' evs k,
    transmit o Ports PI err store = Done (PI', err', store', evs) ∧
    (k ≤ length store)%nat ∧
    deletes evs = Some <$> take k store ∧
    drop k store `prefix_of` store' ∧
    (∀ (i : nat) x, evs !! i = Some (Delete x) →
       ∃ j tmp, i = S j ∧ evs !! j = Some (SendBackup x NETWORKSUCCESS tmp)) ∧
    (∀ (i : nat) x err1 tmp,
       evs !! i = Some (SendBackup x err1 tmp) → err1 ≠ NETWORKSUCCESS →
       x = head (drop k store) ∧
       evs = take (S i) evs ++ [Dump (PortInfo.Value <$> Ports)] ∧
       store' = drop k store ++ [PortInfo.Value <$> Ports]).
Proof.
  destruct (checkESPWiFiConnection_216 o) eqn:Hconn.
  - destruct (transmit_connected o Ports PI err store Hconn)
      as (PI1 & err1 & store1 & ev_drain & Hd & Hcase).
    destruct (drained_drop _ _ _ Hd) as (k & Hk & -> & Hdel).
    destruct Hcase as [[Hne Htr]|[Hnil (err2 & tmp2 & rest & ev_dump & Htr & Hdump)]].
    + eexists _, _, _, _, k. split; [exact Htr|]. split; [done|].
      split; [|split; [|split]].
      * unfold deletes in *. rewrite omap_app. simpl. by rewrite app_nil_r.
      * by apply prefix_app_r.
      * intros i x Hi. apply lookup_app_Some in Hi as [Hi|[_ Hi]].
        -- destruct (drained_delete _ _ _ _ _ Hd Hi) as (j & tmp & -> & Hj).
           exists j, tmp. split; [done|]. by apply lookup_app_l_Some.
        -- by destruct (i - length ev_drain)%nat as [|[|?]].
      * intros i x err3 tmp Hi Herr. apply lookup_app_Some in Hi as [Hi|[_ Hi]].
        -- destruct (drained_failure _ _ _ _ _ _ _ Hd Hi Herr) as (Hl & e & -> & He).
           split; [done|]. split; [|done].
           by rewrite <- Hl, take_app_length.
        -- by destruct (i - length ev_drain)%nat as [|[|?]].
    + eexists _, _, _, _, k. split; [exact Htr|]. split; [done|].
      destruct (local_only_quiet _ Hdump) as [_ Hq].
      split; [|split; [|split]].
      * unfold deletes in *. rewrite omap_app.
        change (omap deleted (SendBulk (PortInfo.Value <$> Ports) err2 tmp2 :: ev_dump))
          with (omap deleted ev_dump).
        rewrite Hq. by rewrite app_nil_r.
      * rewrite Hnil. apply prefix_nil.
      * intros i x Hi. apply lookup_app_Some in Hi as [Hi|[_ Hi]].
        -- destruct (drained_delete _ _ _ _ _ Hd Hi) as (j & tmp & -> & Hj).
           exists j, tmp. split; [done|]. by apply lookup_app_l_Some.
        -- destruct (i - length ev_drain)%nat as [|n]; simpl in Hi; [done|].
           by apply (Forall_lookup_1 _ _ _ _ Hdump) in Hi.
      * intros i x err3 tmp Hi Herr. apply lookup_app_Some in Hi as [Hi|[_ Hi]].
        -- destruct (drained_failure _ _ _ _ _ _ _ Hd Hi Herr) as (_ & e & _ & He).
           by rewrite Hnil in He.
        -- destruct (i - length ev_drain)%nat as [|n]; simpl in Hi; [done|].
           by apply (Forall_lookup_1 _ _ _ _ Hdump) in Hi.
  - unfold transmit. rewrite Hconn.
    eexists _, _, _, _, O. split; [done|]. split; [lia|].
    split; [done|]. split; [by apply prefix_app_r|].
    split; intros [|[|?]]; done.
Qed.

(** C6: in a turn of the loop, the value stored for a port whose multiplier
    is not zero is [HUGE_VAL] when the scaled sample is above the ceiling
    of the port, [-HUGE_VAL] when it is not and is below the floor, and the
    scaled sample otherwise. *)
Theorem samples_are_range_checked (o : Oracle) (s : LoopState) :
  (length (BoardSpecs.Ports (Specs s)) ≤ 10)%nat →
  ∃ s' ev,
    cycle o s = Done (s', ev) ∧
    ∀ (i : nat) p,
      BoardSpecs.Ports (Specs s) !! i = Some p →
      Fneb (PortInfo.Multiplier p) (F_of_Z 0) = true →
      ∃ pin p',
        Port !! i = Some pin ∧ BoardSpecs.Ports (Specs s') !! i = Some p' ∧
        let sample := Fmul (AnalogIn_read o pin) (PortInfo.Multiplier p) in
        (Fgtb sample (PortInfo.RangeCeiling p) = true →
           PortInfo.Value p' = HUGE_VAL) ∧
        (Fgtb sample (PortInfo.RangeCeiling p) = false →
         Fltb sample (PortInfo.RangeFloor p) = true →
           PortInfo.Value p' = Fopp HUGE_VAL) ∧
        (Fgtb sample (PortInfo.RangeCeiling p) = false →
         Fltb sample (PortInfo.RangeFloor p) = false →
           PortInfo.Value p' = sample).
Proof.
  intros Hlen.
  destruct (cycle_spec o s Hlen)
    as (Ports' & ev_read & s' & ev & Hread & _ & Hc & HS & _).
  exists s', ev. split; [done|]. intros i p Hp Hm.
  destruct (read_ports_spec o (PollingInterval s) (BoardSpecs.Ports (Specs s)) O)
    as (Ports2 & ev2 & Hread2 & _ & _ & Hk); [lia|].
  rewrite Hread in Hread2. injection Hread2 as <- <-.
  destruct (Hk i p Hp) as (pin & Hpin & Hp'). rewrite Hm in Hp'.
  exists pin, (sampled o pin p). rewrite HS. split; [done|]. split; [done|].
  unfold sampled, range_check. cbn [PortInfo.Value set_Value].
  repeat split.
  - by intros ->.
  - by intros -> ->.
  - by intros -> ->.
Qed.

(** C9: the polling interval a turn of the loop leaves is the one it met,
    after each send of the turn in order has had its say: a value left in
    [tmp] that is not [-1] and is above zero replaces the interval, any
    other value leaves it as it is, and [-1] is such a value. *)
Theorem polling_interval_follows_overrides (o : Oracle) (s : LoopState) :
  (length (BoardSpecs.Ports (Specs s)) ≤ 10)%nat →
  ∃ s' ev,
    cycle o s = Done (s', ev) ∧
    PollingInterval s' = adopt_all (PollingInterval s) (overrides ev) ∧
    (∀ PI tmps tmp,
       Fneb tmp (F_of_Z (-1)) = true → Fgtb tmp (F_of_Z 0) = true →
       adopt_all PI (tmps ++ [tmp]) = tmp) ∧
    (∀ PI tmps tmp,
       Fneb tmp (F_of_Z (-1)) && Fgtb tmp (F_of_Z 0) = false →
       adopt_all PI (tmps ++ [tmp]) = adopt_all PI tmps) ∧
    (∀ PI tmps, adopt_all PI (tmps ++ [F_of_Z (-1)]) = adopt_all PI tmps).
Proof.
  intros Hlen.
  destruct (cycle_spec o s Hlen)
    as (Ports' & ev_read & s' & ev & _ & _ & Hc & _ & _ & HPI & _).
  exists s', ev. split; [done|]. split; [done|]. split; [|split].
  - intros PI tmps tmp H1 H2. unfold adopt_all. rewrite foldl_app. simpl.
    unfold adopt_interval. by rewrite H1, H2.
  - intros PI tmps tmp H. unfold adopt_all. rewrite foldl_app. simpl.
    unfold adopt_interval. by rewrite H.
  - intros PI tmps. unfold adopt_all. rewrite foldl_app. simpl.
    unfold adopt_interval, Fneb. by rewrite Feqb_minus_one.
Qed.

(** C10: the sampling loop reads pin [i] of the ten for port [i]: with at
    most ten ports it comes to its end, with more than ten kept ports it
    indexes the array of pins past its end, and so does the first turn of
    the loop on the tables of any file with more than ten kept ports; and
    a port line is given a place in the table whatever the number of ports
    already there. *)
Theorem port_count_is_unchecked :
  (∀ o PI Ports, (length Ports ≤ 10)%nat →
     ∃ Ports' evs,
       read_ports o PI O Ports = Done (Ports', evs) ∧
       ∀ (i : nat) p, Ports !! i = Some p →
         ∃ pin, Port !! i = Some pin ∧
           Ports' !! i = Some (if Fneb (PortInfo.Multiplier p) (F_of_Z 0)
                               then sampled o pin p else p)) ∧
  (∀ o s,
     Forall (λ p, Fneb (PortInfo.Multiplier p) (F_of_Z 0) = true)
            (BoardSpecs.Ports (Specs s)) →
     (10 < length (BoardSpecs.Ports (Specs s)))%nat →
     read_ports o (PollingInterval s) O (BoardSpecs.Ports (Specs s)) = Undefined OutOfRange ∧
     cycle o s = Undefined OutOfRange) ∧
  (∀ fp (Specs0 : BoardSpecs) b store o,
     readConfigText fp = Done Specs0 →
     (10 < length (BoardSpecs.Ports Specs0))%nat →
     cycle o (startup b Specs0 store) = Undefined OutOfRange) ∧
  (∀ (Specs0 : BoardSpecs) name idtxt sensor,
     hd NUL name = "P"%char → ":"%char ∉ name → idtxt ≠ [] → LF ∉ idtxt →
     index (BoardSpecs.Sensors Specs0) (size_t_of_int (atoi idtxt)) = Done sensor →
     Fneb (SensorInfo.Multiplier sensor) (F_of_Z 0) = true →
     ∃ Specs', config_line (name ++ ":"%char :: idtxt ++ [LF]) Specs0 = Done Specs' ∧
       length (BoardSpecs.Ports Specs') = S (length (BoardSpecs.Ports Specs0))).
Proof.
  split; [|split; [|split]].
  - intros o PI Ports Hlen.
    destruct (read_ports_spec o PI Ports O) as (Ports' & evs & H & _ & _ & Hk); [lia|].
    by exists Ports', evs.
  - intros o s Hm Hlen. split; [|by apply cycle_overflow].
    apply read_ports_overflow; [done|lia|simpl; lia].
  - intros fp Specs0 b store o Hparse Hlen.
    apply cycle_overflow; [|done]. simpl.
    apply readConfigText_ports_ok in Hparse.
    eapply Forall_impl; [exact Hparse|]. by intros p (_ & _ & Hm & _).
  - intros Specs0 name idtxt sensor Hhd Hname Hid Hlf Hs Hm.
    assert (name ≠ []) as Hne by (by intros ->).
    rewrite config_line_port by (by destruct name).
    erewrite port_line_resolved; [|done|done|by apply strtok_newline|done].
    rewrite Hm. eexists. split; [done|].
    simpl. rewrite length_app. simpl. lia.
Qed.

End MainFacts.

(** ** Runs on the binary64 platform *)

(** C1, at the text of section 8: the sensor has the range from 0 to 500,
    and the port kept for it has the floor and the ceiling of the default
    constructor (both 0 on this platform). *)
Lemma kept_ports_keep_default_bounds_witness :
  ∃ Specs : BoardSpecs,
    readConfigText (fopen (concat spec_text)) = Done Specs ∧
    Forall (λ p, PortInfo.RangeFloor p = PortInfo_RangeFloor0 ∧
                 PortInfo.RangeCeiling p = PortInfo_RangeCeiling0)
           (BoardSpecs.Ports Specs) ∧
    SensorInfo.RangeEnd <$> BoardSpecs.Sensors Specs = [500%float] ∧
    PortInfo.RangeCeiling <$> BoardSpecs.Ports Specs = [0%float] ∧
    PortInfo.RangeEnd <$> BoardSpecs.Ports Specs = [500%float].
Proof.
  eexists. split; [reflexivity|].
  split; [|by repeat split].
  by apply (kept_ports_keep_default_bounds (fopen (concat spec_text))).
Defined.

(** C2, as stated, fails: a sensor line without its fields stops the
    parser on a null pointer, and the lines after it are not read; a port
    line whose index has no sensor makes [setBoundsFromID] index the
    catalog past its end. *)
Lemma malformed_line_is_not_skipped :
  readSDCard (Some (concat [line "SensorID"; line "PMain:0"])) = Undefined NullPointer ∧
  readSDCard (Some (concat [line "P Main:0"])) = Undefined OutOfRange.
Proof. split; reflexivity. Qed.

(** C2 (amended), on a file with a line of each kind. *)
Lemma readConfigText_completes_witness :
  ∃ Specs : BoardSpecs,
    readConfigText (fopen (concat full_text)) = Done Specs ∧
    length (BoardSpecs.Sensors Specs) = count_sensors full_text.
Proof.
  apply (readConfigText_completes full_text).
  repeat apply Forall_cons_2; [| | | | |apply Forall_nil_2].
  - exists (lit "SensorID:Voltage,V,0.01,0,500").
    split; [reflexivity|]. split; [not_in_literal|]. split; [not_in_literal|].
    split; [vm_compute; lia|].
    split; [|split; [not_taken|split; not_taken]].
    intros _. exists (lit "SensorID"), (lit "Voltage"), (lit "V"), (lit "0.01"), (lit "0"), (lit "500").
    split; [reflexivity|]. split; [not_in_literal|].
    repeat (split; [literal_field|]). discriminate.
  - exists (lit "Board 7:net:pw:tbl").
    split; [reflexivity|]. split; [not_in_literal|]. split; [not_in_literal|].
    split; [vm_compute; lia|].
    split; [not_taken|split; [not_taken|split; [|not_taken]]].
    intros _. exists (lit "Board 7"), (lit "net"), (lit "pw"), (lit "tbl").
    split; [reflexivity|]. split; [not_in_literal|].
    split; literal_field.
  - exists (lit "ConnInfo:10.0.0.1:80:host:/dir").
    split; [reflexivity|]. split; [not_in_literal|]. split; [not_in_literal|].
    split; [vm_compute; lia|].
    split; [not_taken|split; [|split; not_taken]].
    intros _. exists (lit "ConnInfo"), (lit "10.0.0.1"), (lit "80"), (lit "host"), (lit "/dir").
    split; [reflexivity|]. split; [not_in_literal|].
    repeat (split; [literal_field|]). discriminate.
  - exists (lit "A comment").
    split; [reflexivity|]. split; [not_in_literal|]. split; [not_in_literal|].
    split; [vm_compute; lia|].
    split; [not_taken|split; [not_taken|split; not_taken]].
  - exists (lit "PMain:0").
    split; [reflexivity|]. split; [not_in_literal|]. split; [not_in_literal|].
    split; [vm_compute; lia|].
    split; [not_taken|split; [not_taken|split; [not_taken|]]].
    intros _. exists (lit "PMain"), (lit "0").
    split; [reflexivity|]. split; [not_in_literal|].
    split; [discriminate|]. vm_compute. split; [discriminate | reflexivity].
Defined.

(** C3, as stated, fails: index 0 is the index of a sensor of the catalog,
    and the port that names it is not kept, the multiplier of that sensor
    being zero. *)
Lemma zero_multiplier_port_is_dropped :
  ∃ (Specs : BoardSpecs) (s : SensorInfo),
    readSDCard (Some (concat zero_multiplier_text)) = Done Specs ∧
    index (BoardSpecs.Sensors Specs) (size_t_of_int (atoi (lit "0"))) = Done s ∧
    BoardSpecs.Ports Specs = [].
Proof. eexists _, _. repeat split; reflexivity. Qed.

(** C3 (amended), on the file with a line of each kind, on the port line
    [PMain:0] after the sensor line of section 8, and at index 1 of a
    catalog of one sensor. *)
Lemma port_kept_iff_multiplier_nonzero_witness :
  (∃ Specs : BoardSpecs,
     readConfigText (fopen (concat full_text)) = Done Specs ∧
     Forall (λ p, Fneb (PortInfo.Multiplier p) (F_of_Z 0) = true ∧
                  ∃ s, index (BoardSpecs.Sensors Specs)
                             (size_t_of_int (PortInfo.SensorID p)) = Done s ∧
                       PortInfo.Multiplier p = SensorInfo.Multiplier s)
            (BoardSpecs.Ports Specs)) ∧
  (∃ Specs' : BoardSpecs,
     config_line (lit "PMain" ++ ":"%char :: lit "0" ++ [LF]) one_sensor = Done Specs' ∧
     length (BoardSpecs.Ports Specs') = 1%nat) ∧
  (setUnitMultiplier (BoardSpecs.Sensors one_sensor) 1 = Done (F_of_Z 0) ∧
   Fneb (F_of_Z 0) (F_of_Z 0) = false).
Proof.
  destruct (port_kept_iff_multiplier_nonzero (P:=binary64)) as (Hkept & Hline & Hdangling).
  split; [|split].
  - eexists. split; [reflexivity|].
    by apply (Hkept (fopen (concat full_text))).
  - destruct (Hline one_sensor (lit "PMain") (lit "0") voltage_sensor)
      as (Specs' & Hrun & Hports).
    + reflexivity.
    + not_in_literal.
    + discriminate.
    + not_in_literal.
    + reflexivity.
    + exists Specs'. split; [exact Hrun|]. by rewrite Hports.
  - apply Hdangling. vm_compute. discriminate.
Defined.

(** C7, as stated, fails: the port of the line [P Main:0] is named [P]. *)
Lemma blank_cuts_port_name :
  ∃ (Specs : BoardSpecs) (p : PortInfo),
    readSDCard (Some (concat spec_text)) = Done Specs ∧
    BoardSpecs.Ports Specs = [p] ∧
    PortInfo.Name p = lit "P" ∧
    PortInfo.Name p ≠ lit "Main".
Proof. eexists _, _. repeat split; try reflexivity. discriminate. Qed.

(** C7 (amended), on the port line [PMain:0] after the sensor line of
    section 8. *)
Lemma port_name_is_text_before_colon_witness :
  (∃ p : PortInfo,
     config_line (lit "PMain" ++ ":"%char :: lit "0" ++ [LF]) one_sensor =
       Done (push_port one_sensor p) ∧
     PortInfo.Name p = lit "PMain") ∧
  PortInfo.Name <$> BoardSpecs.Ports (push_port one_sensor (resolved_port (lit "PMain") 0 voltage_sensor)) =
    [lit "PMain"] ∧
  readSDCard (Some (concat [line "SensorID:Voltage,V,0.01,0,500"; line "PMain:0"])) =
    Done (push_port one_sensor (resolved_port (lit "PMain") 0 voltage_sensor)).
Proof.
  split; [|split; reflexivity].
  apply (port_name_is_text_before_colon one_sensor (lit "PMain") (lit "0") voltage_sensor).
  - reflexivity.
  - not_in_literal.
  - not_in_literal.
  - discriminate.
  - not_in_literal.
  - reflexivity.
  - reflexivity.
Defined.

(** C8, as stated, fails: on the line [Board:ID7:net:pw:tbl] the identity
    is [Board], the SSID is the field [ID7], the password the field [net]
    and the table name the field [pw]. *)
Lemma board_identity_is_first_token :
  ∃ Specs : BoardSpecs,
    readSDCard (Some (concat [line "Board:ID7:net:pw:tbl"])) = Done Specs ∧
    BoardSpecs.ID Specs = lit "Board" ∧
    BoardSpecs.NetworkSSID Specs = lit "ID7" ∧
    BoardSpecs.NetworkPassword Specs = lit "net" ∧
    BoardSpecs.DatabaseTableName Specs = lit "pw" ∧
    BoardSpecs.ID Specs ≠ lit "ID7" ∧
    BoardSpecs.NetworkSSID Specs ≠ lit "net".
Proof. eexists. repeat split; try reflexivity; discriminate. Qed.

(** C8 (amended), on the line [Board 7:net:pw:tbl] with its newline. *)
Lemma board_line_fields_witness :
  config_line (lit "Board 7" ++ ":"%char :: lit "net" ++ ":"%char :: lit "pw" ++ ":"%char :: line "tbl" ++ [])
              one_sensor =
    Done (set_board one_sensor (lit "Board 7") (lit "net") (lit "pw") (line "tbl")) ∧
  readSDCard (Some (concat [line "Board 7:net:pw:tbl"])) =
    Done (set_board BoardSpecs_new (lit "Board 7") (lit "net") (lit "pw") (line "tbl")).
Proof.
  split; [|reflexivity].
  apply (board_line_fields one_sensor (lit "Board 7") (lit "net") (lit "pw") (line "tbl") []).
  - reflexivity.
  - reflexivity.
  - not_in_literal.
  - literal_field.
  - literal_field.
  - literal_field.
  - by left.
Defined.

(** C4, on a board with one attempt left whose network is down: the turn
    ends in offline mode, and the two turns that follow, with the network
    up again, only reset the watchdog and dump their samples. *)
Lemma offline_mode_is_permanent_witness :
  ∃ (s1 s2 : LoopState) (ev1 evs : list Event) (rs : list Reading),
    cycle network_down three_ports = Done (s1, ev1) ∧
    OfflineMode s1 = true ∧
    run [network_up 10%float; network_up 10%float] s1 = Done (s2, evs) ∧
    OfflineMode s2 = true ∧
    Forall local_only evs ∧
    BackupFile s2 = BackupFile s1 ++ rs ∧ length rs = 2%nat.
Proof.
  destruct (offline_mode_is_permanent network_down three_ports
              [network_up 10%float; network_up 10%float])
    as (s1 & ev1 & Hcycle & _ & Hfail).
  - vm_compute. lia.
  - reflexivity.
  - reflexivity.
  - destruct Hfail as (Hoff & s2 & evs & rs & Hrun & Hoff2 & Hev & Hstore & Hrs).
    + vm_compute. discriminate.
    + vm_compute. discriminate.
    + by exists s1, s2, ev1, evs, rs.
Defined.

(** C6, at the samples of section 8: against the range from 0 to 500 the
    sample 600 is stored as plus infinity, -5 as minus infinity, and 250
    as it is. *)
Lemma samples_are_range_checked_witness :
  (∃ (s' : LoopState) (ev : list Event) (pin : PinName) (p' : PortInfo),
     cycle network_down three_ports = Done (s', ev) ∧
     Port !! 0%nat = Some pin ∧ BoardSpecs.Ports (Specs s') !! 0%nat = Some p' ∧
     PortInfo.Value p' = HUGE_VAL) ∧
  stored_values (cycle network_down three_ports) =
    Done [infinity; neg_infinity; 250%float].
Proof.
  split; [|reflexivity].
  destruct (samples_are_range_checked network_down three_ports)
    as (s' & ev & Hcycle & Hports).
  - vm_compute. lia.
  - destruct (Hports O unit_port) as (pin & p' & Hpin & Hp' & Hhigh & _).
    + reflexivity.
    + reflexivity.
    + exists s', ev, pin, p'. repeat split; try done.
      apply Hhigh. injection Hpin as <-. reflexivity.
Defined.

(** C9, at the values of section 8: a send that leaves 10 in [tmp] makes
    the interval 10, and one that leaves -1 leaves the interval at 5. *)
Lemma polling_interval_follows_overrides_witness :
  (∃ (s' : LoopState) (ev : list Event),
     cycle (network_up 10%float) three_ports = Done (s', ev) ∧
     PollingInterval s' = adopt_all (PollingInterval three_ports) (overrides ev)) ∧
  interval_left (cycle (network_up 10%float) three_ports) = Done 10%float ∧
  interval_left (cycle (network_up (-1)%float) three_ports) = Done 5%float ∧
  adopt_all 5%float ([] ++ [10%float]) = 10%float ∧
  adopt_all 5%float ([10%float] ++ [F_of_Z (-1)]) = 10%float.
Proof.
  destruct (polling_interval_follows_overrides (network_up 10%float) three_ports)
    as (s' & ev & Hcycle & HPI & Hadopt & _ & Hkeep).
  - vm_compute. lia.
  - split; [by exists s', ev|]. split; [reflexivity|]. split; [reflexivity|].
    split.
    + apply Hadopt; reflexivity.
    + rewrite Hkeep. reflexivity.
Defined.

(** C10, on a file with eleven port lines: the parser keeps the eleven
    ports, and the first turn of the loop indexes the array of pins past
    its end; the first ten of them alone are sampled to the end. *)
Lemma port_count_is_unchecked_witness :
  readSDCard (Some (concat eleven_ports_text)) = Done eleven_ports ∧
  length (BoardSpecs.Ports eleven_ports) = 11%nat ∧
  cycle network_down (startup boot_ok eleven_ports []) = Undefined OutOfRange ∧
  (∃ Ports' evs,
     read_ports network_down (F_of_Z 5) O (take 10 (BoardSpecs.Ports eleven_ports)) =
       Done (Ports', evs)).
Proof.
  destruct (port_count_is_unchecked (P:=binary64)) as (Hfits & _ & Hover & _).
  split; [reflexivity|]. split; [reflexivity|]. split.
  - apply (Hover (fopen (concat eleven_ports_text))); [reflexivity|].
    vm_compute. lia.
  - destruct (Hfits network_down (F_of_Z 5) (take 10 (BoardSpecs.Ports eleven_ports)))
      as (Ports' & evs & H & _).
    + vm_compute. lia.
    + by exists Ports', evs.
Defined.

(** ** Further facts about the parser *)

Section MoreParserFacts.
Context {P : Platform}.
Implicit Types (Buffer name body : list ascii) (Specs : BoardSpecs).
Implicit Types (lines : list (list ascii)).

Lemma wf_line_text n l : wf_line n l → text_line l.
Proof. intros (body & Hl & Hlf & Hnul & Hlen & _). by exists body. Qed.

Lemma text_line_fgets l rest bytes :
  text_line l →
  fgets BUFFLEN {| data := bytes; unread := l ++ rest |} =
    Some (l, {| data := bytes; unread := rest |}).
Proof.
  intros (body & -> & Hlf & Hnul & Hlen).
  rewrite <- app_assoc. simpl. by apply fgets_line.
Qed.

Lemma take_line_fill l rest : LF ∉ l → take_line (length l) (l ++ rest) = (l, rest).
Proof.
  induction l as [|c l IH]; intros Hlf; simpl.
  - by destruct rest.
  - apply not_elem_of_cons in Hlf as [Hc Hlf].
    rewrite (ascii_eqb_neq c LF) by done. by rewrite IH.
Qed.

Lemma buffer_fill_fgets l rest bytes :
  buffer_fill l →
  fgets BUFFLEN {| data := bytes; unread := l ++ rest |} =
    Some (l, {| data := bytes; unread := rest |}).
Proof.
  intros (Hne & Hlf & Hnul & Hlen). unfold fgets. cbn [unread data].
  destruct (l ++ rest) as [|c s] eqn:E.
  { by destruct l. }
  rewrite <- E, <- Hlen, take_line_fill by done.
  by rewrite c_str_id.
Qed.

Lemma piece_fgets l rest bytes :
  piece l →
  fgets BUFFLEN {| data := bytes; unread := l ++ rest |} =
    Some (l, {| data := bytes; unread := rest |}).
Proof. intros [Hl|Hl]; [by apply text_line_fgets|by apply buffer_fill_fgets]. Qed.

Lemma pieces_length lines :
  Forall piece lines → (length lines ≤ length (concat lines))%nat.
Proof.
  induction 1 as [|l lines Hl _ IH]; simpl; [done|].
  rewrite length_app.
  assert (1 ≤ length l)%nat; [|lia].
  destruct Hl as [(body & -> & _)|(Hne & _)].
  - rewrite length_app. simpl. lia.
  - destruct l; [done|simpl; lia].
Qed.

(** The first loop on a text is its body run on each piece. *)
Lemma read_sensors_each_line lines bytes fuel Specs :
  Forall piece lines → (length lines < fuel)%nat →
  read_sensors fuel {| data := bytes; unread := concat lines |} Specs =
    (Specs' ← each_line sensor_pass lines Specs;
     Done ({| data := bytes; unread := [] |}, Specs')).
Proof.
  intros Htext. revert fuel Specs.
  induction Htext as [|l lines Hl _ IH]; intros fuel Specs Hfuel.
  - destruct fuel; [simpl in Hfuel; lia|]. done.
  - destruct fuel; [simpl in Hfuel; lia|].
    cbn [read_sensors concat each_line]. rewrite piece_fgets by done.
    fold (sensor_test l). fold (sensor_pass l Specs).
    destruct (sensor_pass l Specs) as [Specs1| |]; [|done|done].
    cbn [mbind result_bind]. apply IH. simpl in Hfuel. lia.
Qed.

(** The second loop on a text is its body run on each piece. *)
Lemma read_config_each_line lines bytes fuel Specs :
  Forall piece lines → (length lines < fuel)%nat →
  read_config fuel {| data := bytes; unread := concat lines |} Specs =
    (Specs' ← each_line config_line lines Specs;
     Done ({| data := bytes; unread := [] |}, Specs')).
Proof.
  intros Htext. revert fuel Specs.
  induction Htext as [|l lines Hl _ IH]; intros fuel Specs Hfuel.
  - destruct fuel; [simpl in Hfuel; lia|]. done.
  - destruct fuel; [simpl in Hfuel; lia|].
    cbn [read_config concat each_line]. rewrite piece_fgets by done.
    destruct (config_line l Specs) as [Specs1| |]; [|done|done].
    cbn [mbind result_bind]. apply IH. simpl in Hfuel. lia.
Qed.

(** [readConfigText] on a text is the two passes over its pieces. *)
Lemma readConfigText_pieces lines :
  Forall piece lines →
  readConfigText (fopen (concat lines)) = parse_lines lines.
Proof.
  intros Htext. unfold readConfigText, readConfigText_fuel, fopen, parse_lines.
  cbn [data]. pose proof (pieces_length _ Htext) as Hlen.
  rewrite read_sensors_each_line by (done || lia).
  destruct (each_line sensor_pass lines BoardSpecs_new) as [Specs1| |]; [|done|done].
  cbn [mbind result_bind].
  unfold rewind. cbn [data].
  rewrite read_config_each_line by (done || lia).
  by destruct (each_line config_line lines Specs1).
Qed.

Lemma readConfigText_lines lines :
  Forall text_line lines →
  readConfigText (fopen (concat lines)) = parse_lines lines.
Proof.
  intros Htext. apply readConfigText_pieces.
  eapply Forall_impl; [done|]. intros l Hl. by left.
Qed.

Lemma each_line_app (f : list ascii → BoardSpecs → result BoardSpecs) lines1 lines2 Specs :
  each_line f (lines1 ++ lines2) Specs =
    (Specs' ← each_line f lines1 Specs; each_line f lines2 Specs').
Proof.
  revert Specs. induction lines1 as [|l lines1 IH]; intros Specs; simpl; [done|].
  destruct (f l Specs); simpl; [apply IH|done|done].
Qed.

(** *** What a line gives the tables *)

Lemma hd_app (pre rest : list ascii) c : pre ≠ [] → hd NUL pre = c → hd NUL (pre ++ rest) = c.
Proof. by destruct pre. Qed.

(** X1: a sensor line [pre:Type,Unit,Multiplier,RangeStart,RangeEnd] adds
    one sensor at the end of the catalog, with the first two fields as
    they are and [atof] of the other three; the last field runs to the end
    of the line, commas included. *)
Theorem sensor_line_fields (Specs : BoardSpecs) (pre ty un mu rs re : list ascii) :
  hd NUL pre = "S"%char → ":"%char ∉ pre →
  field "," ty → field "," un → field "," mu → field "," rs →
  re ≠ [] → LF ∉ re →
  strstr (pre ++ ":"%char :: ty ++ ","%char :: un ++ ","%char :: mu ++ ","%char :: rs ++ ","%char :: re ++ [LF])
         (lit "SensorID") = true →
  sensor_pass (pre ++ ":"%char :: ty ++ ","%char :: un ++ ","%char :: mu ++ ","%char :: rs ++ ","%char :: re ++ [LF])
              Specs =
    Done (push_sensor Specs
            {| SensorInfo.Type' := ty; SensorInfo.Unit := un;
               SensorInfo.Multiplier := atof mu;
               SensorInfo.RangeStart := atof rs;
               SensorInfo.RangeEnd := atof re |}).
Proof.
  intros Hhd Hpre Hty Hun Hmu Hrs Hre Hlf Hmark.
  assert (pre ≠ []) as Hne by (by intros ->).
  unfold sensor_pass, sensor_test. rewrite Hmark.
  rewrite (hd_app pre _ "S") by done. simpl.
  unfold sensor_line.
  rewrite strtok_colon by done.
  rewrite strtok_comma by done. simpl.
  rewrite strtok_comma by done. simpl.
  rewrite strtok_comma by done. simpl.
  rewrite strtok_comma by done. simpl.
  rewrite strtok_newline by done. done.
Qed.

(** X2: a line [C...ConnInfo...:ip:port:host:dir] sets the four members
    of the remote end: the port is [atoi] of its field when the field
    starts with a digit and 0 otherwise, and the directory runs to the end
    of the line, colons included. *)
Theorem conn_line_fields (Specs : BoardSpecs) (pre ip port host dir : list ascii) :
  hd NUL pre = "C"%char → ":"%char ∉ pre →
  field ":" ip → field ":" port → field ":" host →
  dir ≠ [] → LF ∉ dir →
  strstr (pre ++ ":"%char :: ip ++ ":"%char :: port ++ ":"%char :: host ++ ":"%char :: dir ++ [LF])
         (lit "ConnInfo") = true →
  config_line (pre ++ ":"%char :: ip ++ ":"%char :: port ++ ":"%char :: host ++ ":"%char :: dir ++ [LF])
              Specs =
    Done (set_conn Specs ip (if isdigit (hd NUL port) then atoi port else 0) host dir).
Proof.
  intros Hhd Hpre [Hip0 Hip] [Hport0 Hport] [Hhost0 Hhost] Hdir Hlf Hmark.
  assert (pre ≠ []) as Hne by (by intros ->).
  unfold config_line. rewrite Hmark.
  rewrite (hd_app pre _ "C") by done.
  change (ascii_eqb "C" "C" && true) with true. cbn iota.
  unfold conn_line.
  rewrite strtok_colon by done.
  rewrite strtok_colon by done. simpl.
  rewrite strtok_colon by done. simpl.
  rewrite strtok_colon by done. simpl.
  rewrite strtok_newline by done. done.
Qed.

(** X5: a port line whose index is below zero or not below the size of
    the catalog makes [setBoundsFromID] index the catalog out of its
    range, after [setUnitMultiplier] and [getSensorName] have answered 0
    and [No Sensor] for the same index. *)
Theorem dangling_port_line_is_undefined (Specs : BoardSpecs) (name idtxt : list ascii) :
  hd NUL name = "P"%char → ":"%char ∉ name → idtxt ≠ [] → LF ∉ idtxt →
  Z.of_nat (length (BoardSpecs.Sensors Specs)) ≤ 2 ^ 31 →
  atoi idtxt < 0 ∨ Z.of_nat (length (BoardSpecs.Sensors Specs)) ≤ atoi idtxt →
  setUnitMultiplier (BoardSpecs.Sensors Specs) (size_t_of_int (atoi idtxt)) = Done (F_of_Z 0) ∧
  getSensorName (BoardSpecs.Sensors Specs) (size_t_of_int (atoi idtxt)) = Done (lit "No Sensor") ∧
  config_line (name ++ ":"%char :: idtxt ++ [LF]) Specs = Undefined OutOfRange.
Proof.
  intros Hhd Hname Hid Hlf Hsize Hrange.
  assert (name ≠ []) as Hne by (by intros ->).
  assert (Z.of_nat (length (BoardSpecs.Sensors Specs)) ≤ size_t_of_int (atoi idtxt)) as Hout.
  { pose proof (atoi_range idtxt) as Hint. unfold INT_MIN, INT_MAX in Hint.
    unfold size_t_of_int. destruct Hrange as [Hneg|Hbig].
    - replace (atoi idtxt) with (atoi idtxt + 2 ^ 32 + (-1) * 2 ^ 32) by lia.
      rewrite Z.mod_add by lia.
      rewrite Z.mod_small by lia. lia.
    - rewrite Z.mod_small by lia. done. }
  split; [by apply setUnitMultiplier_dangling|].
  split; [by apply getSensorName_dangling|].
  rewrite config_line_port by (by apply hd_app).
  by eapply port_line_dangling; [| |apply strtok_newline|].
Qed.

(** *** Where a kept port comes from *)

Lemma scan_token_free delim s tok save :
  scan_token delim s = (tok, save) → free_of delim tok.
Proof.
  revert tok save. induction s as [|c s IH]; intros tok save; simpl.
  - intros [= <- _]. apply Forall_nil_2.
  - destruct (is_delim delim c) eqn:Hc.
    + intros [= <- _]. apply Forall_nil_2.
    + destruct (scan_token delim s) as [tok' save'].
      intros [= <- _]. constructor; [done|]. by eapply IH.
Qed.

(** The first token of a string that starts with no delimiter starts with
    the same character and holds no delimiter. *)
Lemma strtok_head delim c s tok save :
  is_delim delim c = false → strtok delim (c :: s) = (tok, save) →
  ∃ tok', tok = Some (c :: tok') ∧ free_of delim (c :: tok').
Proof.
  intros Hc. unfold strtok. rewrite skip_delims_token by done.
  simpl. rewrite Hc.
  destruct (scan_token delim s) as [tok' save'] eqn:E.
  intros [= <- _]. exists tok'. split; [done|].
  constructor; [done|]. by eapply scan_token_free.
Qed.

Lemma free_of_single_inv d tok : free_of [d] tok → d ∉ tok.
Proof.
  intros Htok Hd. eapply Forall_forall in Htok; [|done].
  rewrite is_delim_single, ascii_eqb_refl in Htok. done.
Qed.

Lemma find_first_of_None_inv c s : find_first_of c s = None → c ∉ s.
Proof.
  induction s as [|a s IH]; simpl; [intros _; apply not_elem_of_nil|].
  destruct (ascii_eqb a c) eqn:E; [done|].
  destruct (find_first_of c s); [done|]. intros _.
  apply not_elem_of_cons. split; [|by apply IH].
  intros ->. by rewrite ascii_eqb_refl in E.
Qed.

Lemma port_line_origin Buffer Specs Specs' :
  hd NUL Buffer = "P"%char →
  port_line Buffer Specs = Done Specs' →
  Specs' = Specs ∨
  ∃ p, port_origin (BoardSpecs.Sensors Specs) p ∧ Specs' = push_port Specs p.
Proof.
  intros Hhd H. destruct Buffer as [|c Buffer]; [done|]. simpl in Hhd. subst c.
  unfold port_line in H.
  destruct (strtok (lit ":") ("P"%char :: Buffer)) as [tok save] eqn:E1.
  apply strtok_head in E1 as (tok' & -> & Hfree); [|done].
  apply free_of_single_inv in Hfree.
  cbn [deref mbind result_bind] in H.
  destruct (strtok [LF] save) as [tok2 save'] eqn:E2.
  apply bind_Done in H as (id & Hid & H).
  apply fmap_Done in Hid as (idtxt & _ & <-).
  apply bind_Done in H as (m & Hm & H).
  apply bind_Done in H as (d & Hd & H).
  apply bind_Done in H as (p & Hp & H).
  injection H as <-.
  unfold setBoundsFromID in Hp.
  apply bind_Done in Hp as (s & Hs & Hp). simpl in Hs, Hp. rewrite Hs in Hp.
  simpl in Hp. injection Hp as <-. simpl.
  rewrite (setUnitMultiplier_resolved _ _ s) in Hm by done. injection Hm as <-.
  rewrite (getSensorName_resolved _ _ s) in Hd by done. injection Hd as <-.
  destruct (Fneb (SensorInfo.Multiplier s) (F_of_Z 0)) eqn:E; [|by left].
  right. eexists. split; [|done]. by exists ("P"%char :: tok'), idtxt, s.
Qed.

Lemma config_line_origin Buffer Specs Specs' :
  config_line Buffer Specs = Done Specs' →
  Forall (port_origin (BoardSpecs.Sensors Specs)) (BoardSpecs.Ports Specs) →
  Forall (port_origin (BoardSpecs.Sensors Specs')) (BoardSpecs.Ports Specs').
Proof.
  unfold config_line. intros H Hok.
  apply bind_Done in H as (Specs1 & H1 & H).
  assert (BoardSpecs.Sensors Specs1 = BoardSpecs.Sensors Specs ∧
          BoardSpecs.Ports Specs1 = BoardSpecs.Ports Specs) as [HS HP].
  { destruct (_ && _) in H1.
    - by apply conn_line_Done in H1 as (? & ? & ? & ? & ->).
    - by injection H1 as <-. }
  rewrite <- HS, <- HP in Hok. clear H1 HS HP.
  destruct (_ && _) in H.
  { by apply board_line_Done in H as (? & ? & ? & ? & ->). }
  destruct (ascii_eqb _ _) eqn:Ehd in H; [|by injection H as <-].
  apply ascii_eqb_eq in Ehd.
  apply port_line_origin in H as [->|(p & Hp & ->)]; [done| |done].
  simpl. apply Forall_app. split; [done|]. by apply Forall_singleton.
Qed.

Lemma each_line_origin lines Specs Specs' :
  each_line config_line lines Specs = Done Specs' →
  Forall (port_origin (BoardSpecs.Sensors Specs)) (BoardSpecs.Ports Specs) →
  Forall (port_origin (BoardSpecs.Sensors Specs')) (BoardSpecs.Ports Specs').
Proof.
  revert Specs. induction lines as [|l lines IH]; intros Specs H Hok; simpl in H.
  - by injection H as <-.
  - apply bind_Done in H as (Specs1 & H1 & H).
    eapply IH; [done|]. by eapply config_line_origin.
Qed.

Lemma read_config_origin fuel fp Specs fp' Specs' :
  read_config fuel fp Specs = Done (fp', Specs') →
  Forall (port_origin (BoardSpecs.Sensors Specs)) (BoardSpecs.Ports Specs) →
  Forall (port_origin (BoardSpecs.Sensors Specs')) (BoardSpecs.Ports Specs').
Proof.
  revert fp Specs. induction fuel as [|fuel IH]; intros fp Specs H Hok; simpl in H; [done|].
  destruct (fgets BUFFLEN fp) as [[Buffer fp1]|]; [|by injection H as _ <-].
  apply bind_Done in H as (Specs1 & H1 & H).
  eapply IH; [done|]. by eapply config_line_origin.
Qed.

Lemma readConfigText_origin fp Specs :
  readConfigText fp = Done Specs →
  Forall (port_origin (BoardSpecs.Sensors Specs)) (BoardSpecs.Ports Specs).
Proof.
  unfold readConfigText, readConfigText_fuel. intros H.
  apply bind_Done in H as ([fp1 Specs1] & H1 & H).
  apply bind_Done in H as ([fp2 Specs2] & H2 & H).
  injection H as <-.
  eapply read_config_origin; [done|].
  apply read_sensors_ports in H1. rewrite H1. apply Forall_nil_2.
Qed.

(** X3: every port of the tables [readConfigText] returns, whatever the
    file, is described by the sensor its index names in the returned
    catalog: its Description is that sensor's Type, [ in ] and Unit, its
    RangeEnd and Multiplier are the sensor's, and its Value is the one the
    default constructor left. *)
Theorem kept_ports_are_described (fp : FILE) (Specs : BoardSpecs) :
  readConfigText fp = Done Specs →
  Forall (λ p, ∃ s,
            index (BoardSpecs.Sensors Specs) (size_t_of_int (PortInfo.SensorID p)) = Done s ∧
            PortInfo.Description p = (SensorInfo.Type' s ++ lit " in ") ++ SensorInfo.Unit s ∧
            PortInfo.RangeEnd p = SensorInfo.RangeEnd s ∧
            PortInfo.Multiplier p = SensorInfo.Multiplier s ∧
            PortInfo.Value p = PortInfo_Value0)
         (BoardSpecs.Ports Specs).
Proof.
  intros H. apply readConfigText_origin in H.
  eapply Forall_impl; [exact H|].
  intros p (tok & idtxt & s & _ & _ & Hs & _ & ->). by exists s.
Qed.

(** X4: every port of the tables [readConfigText] returns, whatever the
    file, has a name that starts with the [P] that selected its line and
    holds neither a blank nor a colon. *)
Theorem kept_port_names (fp : FILE) (Specs : BoardSpecs) :
  readConfigText fp = Done Specs →
  Forall (λ p, hd NUL (PortInfo.Name p) = "P"%char ∧
               (" "%char ∉ PortInfo.Name p) ∧ (":"%char ∉ PortInfo.Name p))
         (BoardSpecs.Ports Specs).
Proof.
  intros H. apply readConfigText_origin in H.
  eapply Forall_impl; [exact H|].
  intros p (tok & idtxt & s & Hhd & Hcolon & _ & _ & ->).
  cbn [resolved_port PortInfo.Name].
  split; [|split].
  - destruct tok as [|c tok]; [done|]. simpl in Hhd. subst c.
    destruct (find_first_of " " ("P"%char :: tok)) as [i|] eqn:Hi.
    + rewrite (erase_at_blanks_cut _ i) by done.
      simpl in Hi. change (ascii_eqb "P" " ") with false in Hi.
      by destruct (find_first_of " " tok); simplify_eq/=.
    + apply find_first_of_None_inv in Hi.
      by rewrite erase_at_blanks_free.
  - apply find_first_of_None_inv, erase_at_blanks_ends.
  - destruct (find_first_of " " tok) as [i|] eqn:Hi.
    + rewrite (erase_at_blanks_cut _ i) by done.
      intros Hin. apply Hcolon. rewrite <- (take_drop i tok).
      apply elem_of_app. by left.
    + apply find_first_of_None_inv in Hi.
      by rewrite erase_at_blanks_free.
Qed.

(** X6: on a port line whose text before the colon holds a blank, the
    name kept is the text before the first blank: the one-argument [erase]
    of line 172 drops the rest of the name with the blank. *)
Theorem port_name_is_cut_at_first_blank (Specs : BoardSpecs) (name idtxt : list ascii)
    (i : nat) (s : SensorInfo) :
  hd NUL name = "P"%char → ":"%char ∉ name → idtxt ≠ [] → LF ∉ idtxt →
  find_first_of " " name = Some i →
  index (BoardSpecs.Sensors Specs) (size_t_of_int (atoi idtxt)) = Done s →
  Fneb (SensorInfo.Multiplier s) (F_of_Z 0) = true →
  ∃ p, config_line (name ++ ":"%char :: idtxt ++ [LF]) Specs = Done (push_port Specs p) ∧
       PortInfo.Name p = take i name ∧ PortInfo.SensorID p = atoi idtxt.
Proof.
  intros Hhd Hname Hid Hlf Hi Hs Hm.
  assert (name ≠ []) as Hne by (by intros ->).
  exists (resolved_port name (atoi idtxt) s).
  rewrite config_line_port by (by apply hd_app).
  rewrite (port_line_resolved Specs name _ idtxt [] s); [|done|done|by apply strtok_newline|done].
  rewrite Hm. split; [done|]. split; [|done].
  by apply erase_at_blanks_cut.
Qed.

(** *** The two passes and the order of the lines *)

Lemma each_line_skip (f : list ascii → BoardSpecs → result BoardSpecs) lines1 l lines2 Specs :
  (∀ Specs0, f l Specs0 = Done Specs0) →
  each_line f (lines1 ++ l :: lines2) Specs = each_line f (lines1 ++ lines2) Specs.
Proof.
  intros Hl. rewrite !each_line_app. cbn [each_line].
  destruct (each_line f lines1 Specs) as [Specs1| |]; [|done|done].
  cbn [mbind result_bind]. by rewrite Hl.
Qed.

Lemma each_line_swap (f : list ascii → BoardSpecs → result BoardSpecs) lines1 a b lines2 Specs :
  (∀ Specs0, f a Specs0 = Done Specs0) ∨ (∀ Specs0, f b Specs0 = Done Specs0) →
  each_line f (lines1 ++ a :: b :: lines2) Specs =
    each_line f (lines1 ++ b :: a :: lines2) Specs.
Proof.
  intros Hab. rewrite !each_line_app. cbn [each_line].
  destruct (each_line f lines1 Specs) as [Specs1| |]; [|done|done].
  cbn [mbind result_bind]. destruct Hab as [Ha|Hb].
  - rewrite Ha. cbn [mbind result_bind].
    destruct (f b Specs1) as [Specs2| |]; [|done|done].
    cbn [mbind result_bind]. by rewrite Ha.
  - rewrite Hb. cbn [mbind result_bind].
    destruct (f a Specs1) as [Specs2| |]; [|done|done].
    cbn [mbind result_bind]. by rewrite Hb.
Qed.

Lemma sensor_pass_other l Specs : sensor_test l = false → sensor_pass l Specs = Done Specs.
Proof. intros Hl. unfold sensor_pass. by rewrite Hl. Qed.

Lemma config_line_ignored l Specs :
  conn_test l = false → board_test l = false → port_test l = false →
  config_line l Specs = Done Specs.
Proof.
  unfold port_test, conn_test, board_test, config_line.
  intros Hc Hb Hp. rewrite Hc. cbn [mbind result_bind]. rewrite Hb in Hp |- *.
  simpl in Hp. by rewrite Hp.
Qed.

Lemma config_line_S l Specs : hd NUL l = "S"%char → config_line l Specs = Done Specs.
Proof. intros Hl. unfold config_line. by rewrite Hl. Qed.

(** X7: a line that none of the four tests takes can be left out of the
    text: [readConfigText] gives the same outcome with and without it. *)
Theorem ignored_line_changes_nothing (lines1 lines2 : list (list ascii)) (l : list ascii) :
  Forall text_line (lines1 ++ l :: lines2) → ignored_line l →
  readConfigText (fopen (concat (lines1 ++ l :: lines2))) =
    readConfigText (fopen (concat (lines1 ++ lines2))).
Proof.
  intros Htext (Hs & Hc & Hb & Hp).
  assert (Forall text_line (lines1 ++ lines2)) as Htext'.
  { apply Forall_app in Htext as [H1 H2]. apply Forall_app. split; [done|].
    by apply Forall_cons_1 in H2 as [_ H2]. }
  rewrite !readConfigText_lines by done. unfold parse_lines.
  rewrite (each_line_skip sensor_pass) by (intros; by apply sensor_pass_other).
  destruct (each_line sensor_pass (lines1 ++ lines2) BoardSpecs_new) as [Specs1| |]; [|done|done].
  cbn [mbind result_bind].
  apply each_line_skip. intros. by apply config_line_ignored.
Qed.

(** X8: the sensor lines are read in a pass of their own before any port
    line is resolved, so a line that starts with [S] can change places
    with the line after it when that line is no sensor line: a port line
    may stand above the sensor line it names. *)
Theorem sensor_line_may_follow_its_ports (lines1 lines2 : list (list ascii))
    (sl l : list ascii) :
  Forall text_line (lines1 ++ sl :: l :: lines2) →
  hd NUL sl = "S"%char → sensor_test l = false →
  readConfigText (fopen (concat (lines1 ++ sl :: l :: lines2))) =
    readConfigText (fopen (concat (lines1 ++ l :: sl :: lines2))).
Proof.
  intros Htext Hsl Hl.
  assert (Forall text_line (lines1 ++ l :: sl :: lines2)) as Htext'.
  { apply Forall_app in Htext as [H1 H2]. apply Forall_app. split; [done|].
    apply Forall_cons_1 in H2 as [Ha H2]. apply Forall_cons_1 in H2 as [Hb H2].
    by repeat constructor. }
  rewrite !readConfigText_lines by done. unfold parse_lines.
  rewrite (each_line_swap sensor_pass lines1 sl l)
    by (right; intros; by apply sensor_pass_other).
  destruct (each_line sensor_pass _ BoardSpecs_new) as [Specs1| |]; [|done|done].
  cbn [mbind result_bind].
  apply each_line_swap. left. intros. by apply config_line_S.
Qed.

(** *** The index of a sensor *)

Lemma sensor_line_adds Buffer Specs Specs' :
  sensor_line Buffer Specs = Done Specs' →
  ∃ s, Specs' = push_sensor Specs s ∧
       ∀ Specs0, sensor_line Buffer Specs0 = Done (push_sensor Specs0 s).
Proof.
  unfold sensor_line. intros H.
  destruct (strtok (lit ":") Buffer) as [t0 s0].
  destruct (strtok (lit ",") s0) as [[t1|] s1]; [|done].
  destruct (strtok (lit ",") s1) as [[t2|] s2]; [|done].
  destruct (strtok (lit ",") s2) as [[t3|] s3]; [|done].
  destruct (strtok (lit ",") s3) as [[t4|] s4]; [|done].
  destruct (strtok [LF] s4) as [[t5|] s5]; [|done].
  simpl in H. injection H as <-. by eexists.
Qed.

Lemma each_sensor_pass lines Specs Specs' :
  each_line sensor_pass lines Specs = Done Specs' →
  ∃ new, BoardSpecs.Sensors Specs' = BoardSpecs.Sensors Specs ++ new ∧
         length new = count_sensors lines.
Proof.
  revert Specs. induction lines as [|l lines IH]; intros Specs H; simpl in H.
  - injection H as <-. exists []. by rewrite app_nil_r.
  - apply bind_Done in H as (Specs1 & H1 & H).
    apply IH in H as (new & -> & Hlen).
    unfold count_sensors. cbn [List.filter]. fold (count_sensors lines).
    unfold sensor_pass in H1. destruct (sensor_test l).
    + apply sensor_line_Done in H1 as [s ->]. exists (s :: new).
      simpl. rewrite <- app_assoc. split; [done|]. by rewrite Hlen.
    + injection H1 as <-. by exists new.
Qed.

Lemma each_config_line_sensors lines Specs Specs' :
  each_line config_line lines Specs = Done Specs' →
  BoardSpecs.Sensors Specs' = BoardSpecs.Sensors Specs.
Proof.
  revert Specs. induction lines as [|l lines IH]; intros Specs H; simpl in H.
  - by injection H as <-.
  - apply bind_Done in H as (Specs1 & H1 & H).
    apply IH in H as ->. by eapply config_line_sensors.
Qed.

(** X9: the index under which a port line names a sensor is the rank of
    the sensor's line among the sensor lines of the text, counted from 0:
    the number written in the line before the colon is not read. The
    catalog has as many entries as the text has sensor lines. *)
Theorem sensor_index_is_its_rank (lines1 lines2 : list (list ascii)) (sl : list ascii)
    (Specs : BoardSpecs) :
  Forall text_line (lines1 ++ sl :: lines2) → sensor_test sl = true →
  readConfigText (fopen (concat (lines1 ++ sl :: lines2))) = Done Specs →
  length (BoardSpecs.Sensors Specs) = count_sensors (lines1 ++ sl :: lines2) ∧
  ∃ s, (∀ Specs0, sensor_pass sl Specs0 = Done (push_sensor Specs0 s)) ∧
       BoardSpecs.Sensors Specs !! count_sensors lines1 = Some s.
Proof.
  intros Htext Hsl H. rewrite readConfigText_lines in H by done.
  unfold parse_lines in H. apply bind_Done in H as (Specs1 & H1 & H).
  apply each_config_line_sensors in H as ->.
  split.
  { apply each_sensor_pass in H1 as (new & -> & Hlen). done. }
  rewrite each_line_app in H1. apply bind_Done in H1 as (Sa & Ha & H1).
  cbn [each_line] in H1. apply bind_Done in H1 as (Sb & Hb & H1).
  apply each_sensor_pass in Ha as (newa & Ea & Hlena).
  apply each_sensor_pass in H1 as (newc & -> & _).
  unfold sensor_pass in Hb. rewrite Hsl in Hb.
  apply sensor_line_adds in Hb as (s & -> & Hs).
  exists s. split.
  { intros Specs0. unfold sensor_pass. by rewrite Hsl. }
  simpl in Ea. cbn [push_sensor BoardSpecs.Sensors]. rewrite Ea.
  rewrite <- Hlena. rewrite <- app_assoc.
  by rewrite lookup_app_r, Nat.sub_diag by lia.
Qed.

(** *** Lines the format does not foresee *)

(** X16: a line too long for the buffer is read in pieces, and each piece
    is taken for a line: the outcome of [readConfigText] is that of the
    two loop bodies run over the lines of the text with the long line cut
    after its first [BUFFLEN - 1] characters. *)
Theorem long_line_is_read_in_pieces (lines1 lines2 : list (list ascii))
    (head tail : list ascii) :
  Forall text_line lines1 → buffer_fill head → text_line tail → Forall text_line lines2 →
  readConfigText (fopen (concat (lines1 ++ (head ++ tail) :: lines2))) =
    parse_lines (lines1 ++ head :: tail :: lines2).
Proof.
  intros H1 Hhead Htail H2.
  replace (concat (lines1 ++ (head ++ tail) :: lines2))
    with (concat (lines1 ++ head :: tail :: lines2)).
  2:{ rewrite !concat_app. simpl. by rewrite <- app_assoc. }
  apply readConfigText_pieces.
  apply Forall_app. split.
  { eapply Forall_impl; [done|]. intros l Hl. by left. }
  constructor; [by right|]. constructor; [by left|].
  eapply Forall_impl; [done|]. intros l Hl. by left.
Qed.

Lemma atoi_no_number (c : ascii) (rest : list ascii) :
  isdigit c = false → isspace c = false → c ≠ "-"%char → c ≠ "+"%char →
  atoi (c :: rest) = 0.
Proof.
  intros Hd Hs Hm Hp. unfold atoi. cbn [skip_space]. rewrite Hs.
  rewrite !ascii_eqb_neq by done. cbn [read_digits]. by rewrite Hd.
Qed.

(** X17: the index of a port line is not checked to be a number, as the
    remote port of the ConnInfo line is: a port line whose text after the
    colon starts with a character that is no digit, no sign and no white
    space names the first sensor of the catalog. *)
Theorem unnumbered_port_names_first_sensor (Specs : BoardSpecs) (name rest : list ascii)
    (c : ascii) (s : SensorInfo) :
  hd NUL name = "P"%char → ":"%char ∉ name → LF ∉ c :: rest →
  isdigit c = false → isspace c = false → c ≠ "-"%char → c ≠ "+"%char →
  index (BoardSpecs.Sensors Specs) 0 = Done s →
  config_line (name ++ ":"%char :: (c :: rest) ++ [LF]) Specs =
    Done (if Fneb (SensorInfo.Multiplier s) (F_of_Z 0)
          then push_port Specs (resolved_port name 0 s)
          else Specs).
Proof.
  intros Hhd Hname Hlf Hd Hs Hm Hp Hindex.
  assert (name ≠ []) as Hne by (by intros ->).
  rewrite config_line_port by (by apply hd_app).
  rewrite (port_line_resolved Specs name _ (c :: rest) [] s);
    [|done|done|by apply strtok_newline|by rewrite atoi_no_number].
  by rewrite atoi_no_number.
Qed.

End MoreParserFacts.

(** ** Further facts about the loop *)

Section MoreMainFacts.
Context {P : Platform}.
Implicit Types (o : Oracle) (s : LoopState) (p : PortInfo).
Implicit Types (Ports : list PortInfo) (store : list Reading) (evs : list Event).

(** *** Before the loop *)

(** X10: the loop is entered on line exactly when the ESP chip started
    and the table name, the remote directory, the remote address and the
    host name are neither empty nor a single blank and the remote port is
    not 0. The attempt to connect of lines 131-144 is made only then; when
    it fails it costs one of the [WIFITRIES] attempts and does not put the
    board in offline mode. *)
Theorem startup_offline_decision (b : Boot) (Specs0 : BoardSpecs) (store : list Reading) :
  (OfflineMode (startup b Specs0 store) = false ↔
     startESP b = NETWORKSUCCESS ∧
     blank (BoardSpecs.DatabaseTableName Specs0) = false ∧
     blank (BoardSpecs.RemoteDir Specs0) = false ∧
     blank (BoardSpecs.RemoteIP Specs0) = false ∧
     BoardSpecs.RemotePort Specs0 ≠ 0 ∧
     blank (BoardSpecs.HostName Specs0) = false) ∧
  (OfflineMode (startup b Specs0 store) = true →
     wifi_tries (startup b Specs0 store) = WIFITRIES ∧
     wifi_err (startup b Specs0 store) = NETWORKSUCCESS) ∧
  (OfflineMode (startup b Specs0 store) = false →
     wifi_err (startup b Specs0 store) =
       (if checkESPWiFiConnection_132 b then NETWORKSUCCESS else connectESPWiFi_134 b) ∧
     wifi_tries (startup b Specs0 store) =
       (if wifi_err (startup b Specs0 store) =? NETWORKSUCCESS
        then WIFITRIES else WIFITRIES - 1)).
Proof.
  unfold startup. cbn [OfflineMode wifi_tries wifi_err].
  destruct (startESP b =? NETWORKSUCCESS) eqn:E1;
    [apply Z.eqb_eq in E1|apply Z.eqb_neq in E1];
  destruct (blank (BoardSpecs.DatabaseTableName Specs0));
  destruct (blank (BoardSpecs.RemoteDir Specs0));
  destruct (blank (BoardSpecs.RemoteIP Specs0));
  destruct (blank (BoardSpecs.HostName Specs0));
  (destruct (BoardSpecs.RemotePort Specs0 =? 0) eqn:E2;
    [apply Z.eqb_eq in E2|apply Z.eqb_neq in E2]);
  cbn [negb andb];
  (split; [split; [intros Ho|intros (? & ? & ? & ? & ? & ?)]|split; intros Ho]);
  try done; try (by repeat split); try (by rewrite Z.eqb_refl).
  destruct (checkESPWiFiConnection_132 b); cbn [negb]; split; try done.
  - by rewrite Z.eqb_refl.
  - by destruct (_ =? _).
Qed.

(** *** The calls of one turn *)

Lemma read_ports_events o PI i Ports Ports' evs :
  read_ports o PI i Ports = Done (Ports', evs) →
  evs = replicate (length (List.filter active Ports)) (Watchdog (Fmul PI (F_of_Z 5))) ∧
  Forall2 resampled Ports Ports'.
Proof.
  revert i Ports' evs. induction Ports as [|p Ports IH]; intros i Ports' evs H.
  - injection H as <- <-. split; [done|constructor].
  - cbn [read_ports] in H.
    apply bind_Done in H as ([p1 ev1] & Hp & H).
    apply bind_Done in H as ([Ps evs1] & Hrest & H).
    injection H as <- <-. apply IH in Hrest as [-> HF].
    cbn [List.filter]. unfold read_port in Hp. fold (active p) in Hp.
    destruct (active p) eqn:Hm.
    + apply bind_Done in Hp as (pin & _ & Hp). injection Hp as <- <-.
      split; [done|]. constructor; [|done]. split; [done|congruence].
    + injection Hp as <- <-.
      split; [done|]. constructor; [|done]. split; [by destruct p|done].
Qed.

Lemma watchdogs_replicate (n : nat) (d : F) :
  watchdogs (replicate n (Watchdog d)) = replicate n d.
Proof.
  induction n as [|n IH]; [done|].
  change (d :: watchdogs (replicate n (Watchdog d)) = d :: replicate n d).
  by rewrite IH.
Qed.

Lemma replicate_quiet (n : nat) (d : F) :
  connects (replicate n (Watchdog d)) = [] ∧ backups (replicate n (Watchdog d)) = [] ∧
  deletes (replicate n (Watchdog d)) = [] ∧ dumps (replicate n (Watchdog d)) = [] ∧
  bulks (replicate n (Watchdog d)) = [].
Proof. induction n as [|n IH]; [done|]. exact IH. Qed.

Lemma drained_quiet store evs store' :
  drained store evs store' →
  watchdogs evs = [] ∧ connects evs = [] ∧ dumps evs = [] ∧ bulks evs = [].
Proof. induction 1 as [| |e store tmp evs store' _ IH]; [done|done|exact IH]. Qed.

(** A loop that leaves the file empty has sent every entry with success
    and deleted it, oldest first. *)
Lemma drained_empty store evs :
  drained store evs [] →
  backups evs = (λ e, (Some e, NETWORKSUCCESS)) <$> store ∧ deletes evs = Some <$> store.
Proof.
  intros H. remember [] as store' eqn:E.
  induction H as [store| |e store tmp evs store' _ IH]; [by subst|done|].
  destruct (IH E) as [H1 H2]. split.
  - change (backups (SendBackup (Some e) NETWORKSUCCESS tmp :: Delete (Some e) :: evs))
      with ((Some e, NETWORKSUCCESS) :: backups evs).
    by rewrite H1.
  - change (deletes (SendBackup (Some e) NETWORKSUCCESS tmp :: Delete (Some e) :: evs))
      with (Some e :: deletes evs).
    by rewrite H2.
Qed.

Lemma reconnect_events o err tries :
  (reconnect o err tries).2 = [] ∨ ∃ err', (reconnect o err tries).2 = [Connect err'].
Proof.
  unfold reconnect. destruct (checkESPWiFiConnection_189 o); [by left|].
  cbn [negb]. right. destruct (connectESPWiFi o =? NETWORKSUCCESS); by eexists.
Qed.

(** What is done with the samples of a turn: they are dumped behind what
    is left of the backup file, after a send of theirs that failed when
    nothing was left of it, or they are sent with success and the backup
    file is empty. *)
Lemma transmit_outcome o Ports PI err store :
  ∃ PI' err' store' evs ev_drain store1,
    transmit o Ports PI err store = Done (PI', err', store', evs) ∧
    drained store ev_drain store1 ∧
    ((store' = store1 ++ [PortInfo.Value <$> Ports] ∧
      (evs = ev_drain ++ [Dump (PortInfo.Value <$> Ports)] ∨
       ∃ err2 tmp, err2 ≠ NETWORKSUCCESS ∧ store1 = [] ∧
         evs = ev_drain ++ [SendBulk (PortInfo.Value <$> Ports) err2 tmp;
                            Dump (PortInfo.Value <$> Ports)])) ∨
     (store1 = [] ∧ store' = [] ∧
      ∃ tmp, evs = ev_drain ++ [SendBulk (PortInfo.Value <$> Ports) NETWORKSUCCESS tmp])).
Proof.
  destruct (drain_spec o store (S (length store)) O PI err)
    as (PI1 & err1 & store1 & ev_drain & Hdrain & Hd & HPI); [lia|].
  unfold transmit. destruct (checkESPWiFiConnection_216 o).
  2:{ eexists _, _, _, _, [], store. split; [done|]. split; [constructor|].
      left. split; [done|]. by left. }
  rewrite Hdrain. cbn [mbind result_bind].
  destruct store1 as [|e1 store1]; cbn [checkForBackupFile negb].
  - destruct (sendBulkDataTCP o) as [err2 tmp2].
    destruct (err2 =? NETWORKSUCCESS) eqn:E; cbn [negb].
    + apply Z.eqb_eq in E as ->.
      eexists _, _, _, _, ev_drain, []. split; [done|]. split; [done|].
      right. split; [done|]. split; [done|]. by eexists.
    + apply Z.eqb_neq in E.
      eexists _, _, _, _, ev_drain, []. split; [done|]. split; [done|].
      left. split; [done|]. right. by exists err2, tmp2.
  - eexists _, _, _, _, ev_drain, (e1 :: store1). split; [done|]. split; [done|].
    left. split; [done|]. by left.
Qed.

(** The calls of a turn of the loop, in their order, and the backup file
    it leaves. *)
Lemma cycle_outcome o s :
  (length (BoardSpecs.Ports (Specs s)) ≤ 10)%nat →
  ∃ s' ev_send ev_drain store1,
    cycle o s =
      Done (s', replicate (length (List.filter active (BoardSpecs.Ports (Specs s))))
                          (Watchdog (Fmul (PollingInterval s) (F_of_Z 5))) ++
                (if OfflineMode s then [] else (reconnect o (wifi_err s) (wifi_tries s)).2) ++
                ev_send) ∧
    (OfflineMode s = true → OfflineMode s' = true) ∧
    (OfflineMode s = false →
       wifi_tries s' = (reconnect o (wifi_err s) (wifi_tries s)).1.1.2 ∧
       OfflineMode s' = (reconnect o (wifi_err s) (wifi_tries s)).1.2) ∧
    length (BoardSpecs.Ports (Specs s')) = length (BoardSpecs.Ports (Specs s)) ∧
    drained (BackupFile s) ev_drain store1 ∧
    ((BackupFile s' = store1 ++ [PortInfo.Value <$> BoardSpecs.Ports (Specs s')] ∧
      (ev_send = ev_drain ++ [Dump (PortInfo.Value <$> BoardSpecs.Ports (Specs s'))] ∨
       ∃ err2 tmp, err2 ≠ NETWORKSUCCESS ∧ store1 = [] ∧
         ev_send = ev_drain ++ [SendBulk (PortInfo.Value <$> BoardSpecs.Ports (Specs s')) err2 tmp;
                                Dump (PortInfo.Value <$> BoardSpecs.Ports (Specs s'))])) ∨
     (store1 = [] ∧ BackupFile s' = [] ∧
      ∃ tmp, ev_send = ev_drain ++
               [SendBulk (PortInfo.Value <$> BoardSpecs.Ports (Specs s')) NETWORKSUCCESS tmp])).
Proof.
  intros Hlen.
  destruct (cycle_spec o s Hlen)
    as (Ports' & ev_read & s' & ev & Hread & _ & Hc & HS & Hl & _ & Hoff & Hon).
  apply read_ports_events in Hread as [-> _].
  assert (BoardSpecs.Ports (Specs s') = Ports') as HP by (by rewrite HS).
  exists s'. destruct (OfflineMode s) eqn:Eoff.
  - destruct (Hoff eq_refl) as (Hoff' & _ & -> & Hstore).
    exists [Dump (PortInfo.Value <$> Ports')], [], (BackupFile s). rewrite HP.
    split; [done|]. split; [done|]. split; [done|]. split; [done|]. split; [constructor|].
    left. split; [done|]. by left.
  - destruct (Hon eq_refl) as (ev_send & Hrec & Htr & ->).
    destruct (transmit_outcome o Ports' (PollingInterval s)
                (reconnect o (wifi_err s) (wifi_tries s)).1.1.1 (BackupFile s))
      as (PI' & err' & store' & evs & ev_drain & store1 & Htr' & Hd & Hout).
    rewrite Htr in Htr'. injection Htr' as _ _ -> ->.
    exists evs, ev_drain, store1. rewrite HP. split; [done|]. split; [done|].
    split; [by rewrite Hrec|]. by split.
Qed.

Lemma watchdogs_app evs1 evs2 : watchdogs (evs1 ++ evs2) = watchdogs evs1 ++ watchdogs evs2.
Proof. apply omap_app. Qed.

Lemma connects_app evs1 evs2 : connects (evs1 ++ evs2) = connects evs1 ++ connects evs2.
Proof. apply omap_app. Qed.

Lemma backups_app evs1 evs2 : backups (evs1 ++ evs2) = backups evs1 ++ backups evs2.
Proof. apply omap_app. Qed.

Lemma deletes_app evs1 evs2 : deletes (evs1 ++ evs2) = deletes evs1 ++ deletes evs2.
Proof. apply omap_app. Qed.

Lemma dumps_app evs1 evs2 : dumps (evs1 ++ evs2) = dumps evs1 ++ dumps evs2.
Proof. apply omap_app. Qed.

Lemma bulks_app evs1 evs2 : bulks (evs1 ++ evs2) = bulks evs1 ++ bulks evs2.
Proof. apply omap_app. Qed.

(** The attempt to connect sends nothing and touches no file. *)
Lemma reconnect_local o s :
  watchdogs (if OfflineMode s then [] else (reconnect o (wifi_err s) (wifi_tries s)).2) = [] ∧
  backups (if OfflineMode s then [] else (reconnect o (wifi_err s) (wifi_tries s)).2) = [] ∧
  deletes (if OfflineMode s then [] else (reconnect o (wifi_err s) (wifi_tries s)).2) = [] ∧
  dumps (if OfflineMode s then [] else (reconnect o (wifi_err s) (wifi_tries s)).2) = [] ∧
  bulks (if OfflineMode s then [] else (reconnect o (wifi_err s) (wifi_tries s)).2) = [].
Proof.
  destruct (OfflineMode s); [done|].
  by destruct (reconnect_events o (wifi_err s) (wifi_tries s)) as [->|[err' ->]].
Qed.

(** X11: a turn of the loop of a board with at most ten ports does one of
    two things with its samples: it sends them with success, dumps nothing
    and leaves the backup file empty, or it dumps them once, at the end of
    what is left of the backup file, and any send of them has failed. *)
Theorem samples_are_sent_or_kept (o : Oracle) (s : LoopState) :
  (length (BoardSpecs.Ports (Specs s)) ≤ 10)%nat →
  ∃ s' ev,
    cycle o s = Done (s', ev) ∧
    ((bulks ev = [(PortInfo.Value <$> BoardSpecs.Ports (Specs s'), NETWORKSUCCESS)] ∧
      dumps ev = [] ∧ BackupFile s' = []) ∨
     (dumps ev = [PortInfo.Value <$> BoardSpecs.Ports (Specs s')] ∧
      Forall (λ b, b.2 ≠ NETWORKSUCCESS) (bulks ev) ∧
      ∃ k, BackupFile s' =
             drop k (BackupFile s) ++ [PortInfo.Value <$> BoardSpecs.Ports (Specs s')])).
Proof.
  intros Hlen.
  destruct (cycle_outcome o s Hlen)
    as (s' & ev_send & ev_drain & store1 & Hc & _ & _ & _ & Hd & Hout).
  eexists _, _. split; [exact Hc|].
  destruct (replicate_quiet (length (List.filter active (BoardSpecs.Ports (Specs s))))
              (Fmul (PollingInterval s) (F_of_Z 5))) as (_ & _ & _ & Rd & Rb).
  destruct (reconnect_local o s) as (_ & _ & _ & Cd & Cb).
  destruct (drained_quiet _ _ _ Hd) as (_ & _ & Dd & Db).
  destruct (drained_drop _ _ _ Hd) as (k & _ & Hk & _).
  rewrite !dumps_app, !bulks_app, Rd, Rb, Cd, Cb.
  destruct Hout as [[Hst [->|(err2 & tmp & Hne & -> & ->)]]|(-> & Hst & tmp & ->)];
    rewrite dumps_app, bulks_app, Dd, Db.
  - right. split; [done|]. split; [constructor|]. exists k. by rewrite <- Hk.
  - right. split; [done|]. split; [by repeat constructor|]. exists k. by rewrite <- Hk.
  - left. done.
Qed.

Lemma app3_cons {A} (a b c : list A) (x : A) (l : list A) :
  a ++ b ++ c ++ x :: l = (a ++ b ++ c) ++ x :: l.
Proof. by rewrite <- !app_assoc. Qed.

(** The place of a send of fresh samples among the calls of a turn. *)
Lemma bulk_position evs1 (x : Event) evs2 (before : list Event) now err tmp after :
  evs1 ++ x :: evs2 = before ++ SendBulk now err tmp :: after →
  bulks evs1 = [] → bulks evs2 = [] →
  before = evs1 ∧ x = SendBulk now err tmp.
Proof.
  revert before. induction evs1 as [|a evs1 IH]; intros [|b before] H H1 H2; simpl in H.
  - by injection H as -> _.
  - injection H as -> ->. rewrite bulks_app in H2.
    by destruct (bulks before).
  - by injection H as -> _.
  - injection H as -> H. destruct (IH before H) as [-> ->]; [|done|done].
    by destruct b.
Qed.

(** X12: the fresh samples are sent only after the whole backup file: in
    a turn of the loop, every call of [sendBulkDataTCP] sends the samples
    of that turn, and the calls before it have sent every entry the backup
    file held with success and deleted it, oldest first. *)
Theorem fresh_samples_follow_the_backlog (o : Oracle) (s : LoopState) :
  (length (BoardSpecs.Ports (Specs s)) ≤ 10)%nat →
  ∃ s' ev,
    cycle o s = Done (s', ev) ∧
    ∀ before now err tmp after,
      ev = before ++ SendBulk now err tmp :: after →
      now = PortInfo.Value <$> BoardSpecs.Ports (Specs s') ∧
      backups before = (λ e, (Some e, NETWORKSUCCESS)) <$> BackupFile s ∧
      deletes before = Some <$> BackupFile s.
Proof.
  intros Hlen.
  destruct (cycle_outcome o s Hlen)
    as (s' & ev_send & ev_drain & store1 & Hc & _ & _ & _ & Hd & Hout).
  eexists _, _. split; [exact Hc|].
  intros before now err tmp after Hev.
  destruct (replicate_quiet (length (List.filter active (BoardSpecs.Ports (Specs s))))
              (Fmul (PollingInterval s) (F_of_Z 5))) as (_ & Rk & Rx & _ & Rb).
  destruct (reconnect_local o s) as (_ & Ck & Cx & _ & Cb).
  destruct (drained_quiet _ _ _ Hd) as (_ & _ & _ & Db).
  destruct Hout as [[Hst [->|(err2 & tmp2 & Hne & -> & ->)]]|(-> & Hst & tmp2 & ->)].
  - apply (f_equal bulks) in Hev.
    rewrite !bulks_app, Rb, Cb, Db in Hev. cbn in Hev.
    by destruct (bulks before).
  - rewrite app3_cons in Hev.
    apply bulk_position in Hev as [-> [= <- _ _]]; [| |done].
    2:{ by rewrite !bulks_app, Rb, Cb, Db. }
    split; [done|]. destruct (drained_empty _ _ Hd) as [Hb Hx].
    by rewrite !backups_app, !deletes_app, Rk, Rx, Ck, Cx.
  - rewrite app3_cons in Hev.
    apply bulk_position in Hev as [-> [= <- _ _]]; [| |done].
    2:{ by rewrite !bulks_app, Rb, Cb, Db. }
    split; [done|]. destruct (drained_empty _ _ Hd) as [Hb Hx].
    by rewrite !backups_app, !deletes_app, Rk, Rx, Ck, Cx.
Qed.

(** X13: a turn of the loop resets the watchdog once for every port whose
    multiplier is not zero, each time to five times the polling interval
    the turn started with, and at no other place: an interval adopted from
    a send counts from the next turn on, and a board without such a port
    never resets the watchdog. *)
Theorem watchdog_is_reset_per_active_port (o : Oracle) (s : LoopState) :
  (length (BoardSpecs.Ports (Specs s)) ≤ 10)%nat →
  ∃ s' ev,
    cycle o s = Done (s', ev) ∧
    watchdogs ev =
      replicate (length (List.filter active (BoardSpecs.Ports (Specs s))))
                (Fmul (PollingInterval s) (F_of_Z 5)).
Proof.
  intros Hlen.
  destruct (cycle_outcome o s Hlen)
    as (s' & ev_send & ev_drain & store1 & Hc & _ & _ & _ & Hd & Hout).
  eexists _, _. split; [exact Hc|].
  destruct (reconnect_local o s) as (Cw & _).
  destruct (drained_quiet _ _ _ Hd) as (Dw & _).
  rewrite !watchdogs_app, watchdogs_replicate, Cw.
  destruct Hout as [[Hst [->|(err2 & tmp & Hne & -> & ->)]]|(-> & Hst & tmp & ->)];
    rewrite watchdogs_app, Dw; cbn; by rewrite app_nil_r.
Qed.

(** *** Over the turns *)

Lemma cycle_frame o s s' ev :
  cycle o s = Done (s', ev) →
  Specs s' = set_Ports (Specs s) (BoardSpecs.Ports (Specs s')) ∧
  Forall2 resampled (BoardSpecs.Ports (Specs s)) (BoardSpecs.Ports (Specs s')).
Proof.
  unfold cycle. intros H.
  apply bind_Done in H as ([Ports' ev_read] & Hread & H).
  apply read_ports_events in Hread as [_ HF].
  destruct (OfflineMode s); cbn [negb] in H.
  - by injection H as <- _.
  - destruct (reconnect o (wifi_err s) (wifi_tries s)) as [[[err1 tries1] off1] ev_conn].
    apply bind_Done in H as ([[[PI' err'] store'] ev_send] & _ & H).
    by injection H as <- _.
Qed.

Lemma resampled_refl p : resampled p p.
Proof. split; [by destruct p|done]. Qed.

Lemma resampled_trans p p' p'' : resampled p p' → resampled p' p'' → resampled p p''.
Proof.
  intros [H1 H1'] [H2 H2']. split.
  - destruct p, p', p''. unfold set_Value in *. simpl in *. congruence.
  - intros Hp. pose proof (H1' Hp) as ->. by apply H2'.
Qed.

Lemma Forall2_resampled_trans Ports Ports' Ports'' :
  Forall2 resampled Ports Ports' → Forall2 resampled Ports' Ports'' →
  Forall2 resampled Ports Ports''.
Proof.
  intros H. revert Ports''.
  induction H as [|p p' Ports Ports' Hp _ IH]; intros Ports'' H'.
  - by inversion H'.
  - inversion H' as [|? p'' ? Ports3 Hp' HF]; subst.
    constructor; [by eapply resampled_trans|by apply IH].
Qed.

(** X14: the turns of the loop write to the tables of the board in one
    place only, the member [Value] of the ports: after any number of turns
    the catalog, the connection data and every other member of every port
    are as the parser left them, and a port whose multiplier is zero has
    its [Value] unchanged as well. *)
Theorem turns_change_only_values (os : list Oracle) (s s' : LoopState) (evs : list Event) :
  run os s = Done (s', evs) →
  Specs s' = set_Ports (Specs s) (BoardSpecs.Ports (Specs s')) ∧
  Forall2 resampled (BoardSpecs.Ports (Specs s)) (BoardSpecs.Ports (Specs s')).
Proof.
  revert s evs. induction os as [|o os IH]; intros s evs H; cbn [run] in H.
  - injection H as <- _. split; [by destruct (Specs s)|].
    induction (BoardSpecs.Ports (Specs s)); constructor; [apply resampled_refl|done].
  - apply bind_Done in H as ([s1 ev1] & Hc & H).
    apply bind_Done in H as ([s2 evs2] & Hrun & H).
    injection H as <- _.
    apply cycle_frame in Hc as [HS1 HF1]. apply IH in Hrun as [HS2 HF2].
    split; [|by eapply Forall2_resampled_trans].
    rewrite HS1 in HS2. exact HS2.
Qed.

(** X15: offline mode makes no attempt to connect, and on line the
    attempts that fail are counted: while every attempt fails, the turns
    of the loop make at most [wifi_tries] of them, and one when
    [wifi_tries] is below 1. *)
Theorem reconnect_attempts_are_bounded (os : list Oracle) (s : LoopState) :
  (length (BoardSpecs.Ports (Specs s)) ≤ 10)%nat →
  Forall (λ o, connectESPWiFi o ≠ NETWORKSUCCESS) os →
  ∃ s' evs,
    run os s = Done (s', evs) ∧
    (OfflineMode s = true → connects evs = []) ∧
    (length (connects evs) ≤ Z.to_nat (Z.max 1 (wifi_tries s)))%nat.
Proof.
  intros Hlen Hfail. revert s Hlen.
  induction Hfail as [|o os Ho _ IH]; intros s Hlen.
  - exists s, []. split; [done|]. split; [done|]. simpl. lia.
  - destruct (cycle_outcome o s Hlen)
      as (s1 & ev_send & ev_drain & store1 & Hc & Hoff & Hon & Hl1 & Hd & Hout).
    destruct (IH s1) as (s2 & evs & Hrun & Hoff2 & Hbound); [lia|].
    cbn [run]. rewrite Hc. cbn [mbind result_bind]. rewrite Hrun. cbn [mbind result_bind].
    eexists _, _. split; [done|].
    destruct (replicate_quiet (length (List.filter active (BoardSpecs.Ports (Specs s))))
                (Fmul (PollingInterval s) (F_of_Z 5))) as (Rc & _).
    destruct (drained_quiet _ _ _ Hd) as (_ & Dc & _).
    assert (connects ev_send = []) as Hsend.
    { destruct Hout as [[Hst [->|(err2 & tmp & Hne & -> & ->)]]|(-> & Hst & tmp & ->)];
        by rewrite connects_app, Dc. }
    rewrite !connects_app, Rc, Hsend, app_nil_r. cbn [app].
    destruct (OfflineMode s) eqn:Eoff.
    + rewrite (Hoff2 (Hoff eq_refl)). split; [done|]. simpl. lia.
    + split; [done|]. destruct (Hon eq_refl) as [Ht Ho'].
      unfold reconnect in *. destruct (checkESPWiFiConnection_189 o); cbn [negb] in *.
      * cbn in Ht. cbn. rewrite <- Ht. exact Hbound.
      * apply Z.eqb_neq in Ho. rewrite Ho in *. cbn in Ht, Ho'. cbn.
        destruct (wifi_tries s - 1 <=? 0) eqn:E.
        -- rewrite (Hoff2 Ho'). simpl. lia.
        -- apply Z.leb_gt in E. rewrite Ht in Hbound. lia.
Qed.

(** *** The settings the loop needs to go on line *)

Lemma each_sensor_pass_settings lines (Specs Specs' : BoardSpecs) :
  each_line sensor_pass lines Specs = Done Specs' →
  BoardSpecs.RemoteIP Specs' = BoardSpecs.RemoteIP Specs ∧
  BoardSpecs.DatabaseTableName Specs' = BoardSpecs.DatabaseTableName Specs.
Proof.
  revert Specs. induction lines as [|l lines IH]; intros Specs H; simpl in H.
  - by injection H as <-.
  - apply bind_Done in H as (Specs1 & H1 & H). apply IH in H as [-> ->].
    unfold sensor_pass in H1. destruct (sensor_test l).
    + by apply sensor_line_Done in H1 as [x ->].
    + by injection H1 as <-.
Qed.

Lemma config_line_no_conn l (Specs Specs' : BoardSpecs) :
  config_line l Specs = Done Specs' → conn_test l = false →
  BoardSpecs.RemoteIP Specs' = BoardSpecs.RemoteIP Specs.
Proof.
  unfold config_line. fold (conn_test l). intros H Hc. rewrite Hc in H.
  cbn [mbind result_bind] in H.
  destruct (_ && _) in H.
  { by apply board_line_Done in H as (? & ? & ? & ? & ->). }
  destruct (ascii_eqb _ _) in H; [|by injection H as <-].
  by apply port_line_Done in H as [->|(name & idtxt & x & _ & _ & ->)].
Qed.

Lemma config_line_no_board l (Specs Specs' : BoardSpecs) :
  config_line l Specs = Done Specs' → board_test l = false →
  BoardSpecs.DatabaseTableName Specs' = BoardSpecs.DatabaseTableName Specs.
Proof.
  unfold config_line. fold (board_test l). intros H Hb. rewrite Hb in H.
  apply bind_Done in H as (Specs1 & H1 & H).
  assert (BoardSpecs.DatabaseTableName Specs1 = BoardSpecs.DatabaseTableName Specs) as <-.
  { destruct (_ && _) in H1.
    - by apply conn_line_Done in H1 as (? & ? & ? & ? & ->).
    - by injection H1 as <-. }
  destruct (ascii_eqb _ _) in H; [|by injection H as <-].
  by apply port_line_Done in H as [->|(name & idtxt & x & _ & _ & ->)].
Qed.

Lemma each_config_line_no_conn lines (Specs Specs' : BoardSpecs) :
  each_line config_line lines Specs = Done Specs' →
  Forall (λ l, conn_test l = false) lines →
  BoardSpecs.RemoteIP Specs' = BoardSpecs.RemoteIP Specs.
Proof.
  intros H Hl. revert Specs H.
  induction Hl as [|l lines Hl _ IH]; intros Specs H; simpl in H.
  - by injection H as <-.
  - apply bind_Done in H as (Specs1 & H1 & H). apply IH in H as ->.
    by eapply config_line_no_conn.
Qed.

Lemma each_config_line_no_board lines (Specs Specs' : BoardSpecs) :
  each_line config_line lines Specs = Done Specs' →
  Forall (λ l, board_test l = false) lines →
  BoardSpecs.DatabaseTableName Specs' = BoardSpecs.DatabaseTableName Specs.
Proof.
  intros H Hl. revert Specs H.
  induction Hl as [|l lines Hl _ IH]; intros Specs H; simpl in H.
  - by injection H as <-.
  - apply bind_Done in H as (Specs1 & H1 & H). apply IH in H as ->.
    by eapply config_line_no_board.
Qed.

(** X18: the board goes on line only with a configuration that names a
    remote end and a table: when the file cannot be opened, or its text
    has no ConnInfo line, or no Board line, the loop is entered in offline
    mode, whatever the ESP chip and the network answer. *)
Theorem missing_settings_mean_offline (b : Boot) (store : list Reading)
    (file : option (list ascii)) (Specs0 : BoardSpecs) :
  readSDCard file = Done Specs0 →
  file = None ∨
  (∃ lines, file = Some (concat lines) ∧ Forall text_line lines ∧
     (Forall (λ l, conn_test l = false) lines ∨
      Forall (λ l, board_test l = false) lines)) →
  OfflineMode (startup b Specs0 store) = true.
Proof.
  intros Hread Hfile.
  assert (BoardSpecs.RemoteIP Specs0 = [] ∨ BoardSpecs.DatabaseTableName Specs0 = []) as Hempty.
  { destruct Hfile as [->|(lines & -> & Htext & Hno)].
    - injection Hread as <-. by left.
    - unfold readSDCard in Hread.
      change (rewind (fopen (concat lines))) with (fopen (concat lines)) in Hread.
      rewrite readConfigText_lines in Hread by done.
      unfold parse_lines in Hread. apply bind_Done in Hread as (Specs1 & H1 & H2).
      apply each_sensor_pass_settings in H1 as [HIP Htbl].
      destruct Hno as [Hno|Hno].
      + left. by rewrite (each_config_line_no_conn _ _ _ H2 Hno), HIP.
      + right. by rewrite (each_config_line_no_board _ _ _ H2 Hno), Htbl. }
  unfold startup. cbn [OfflineMode].
  destruct Hempty as [-> | ->]; cbn [blank];
    by repeat match goal with |- context [if ?c then _ else _] => destruct c end.
Qed.

End MoreMainFacts.

(** ** Further runs on the binary64 platform *)

(** A literal with its newline is a line of text. *)
Ltac literal_line s :=
  exists (lit s);
  split; [reflexivity|split; [not_in_literal|split; [not_in_literal|vm_compute; lia]]].

(** X1, on the sensor line of section 8. *)
Lemma sensor_line_fields_witness :
  sensor_pass (lit "SensorID" ++ ":"%char :: lit "Voltage" ++ ","%char :: lit "V" ++ ","%char ::
               lit "0.01" ++ ","%char :: lit "0" ++ ","%char :: lit "500" ++ [LF])
              BoardSpecs_new =
    Done (push_sensor BoardSpecs_new
            {| SensorInfo.Type' := lit "Voltage"; SensorInfo.Unit := lit "V";
               SensorInfo.Multiplier := atof (lit "0.01");
               SensorInfo.RangeStart := atof (lit "0");
               SensorInfo.RangeEnd := atof (lit "500") |}).
Proof.
  apply (sensor_line_fields BoardSpecs_new (lit "SensorID") (lit "Voltage") (lit "V")
           (lit "0.01") (lit "0") (lit "500")).
  - reflexivity.
  - not_in_literal.
  - literal_field.
  - literal_field.
  - literal_field.
  - literal_field.
  - discriminate.
  - not_in_literal.
  - reflexivity.
Defined.

(** X2, on a ConnInfo line whose port is [http]: the remote port is 0. *)
Lemma conn_line_fields_witness :
  config_line (lit "ConnInfo" ++ ":"%char :: lit "10.0.0.1" ++ ":"%char :: lit "http" ++ ":"%char ::
               lit "host" ++ ":"%char :: lit "/dir" ++ [LF])
              one_sensor =
    Done (set_conn one_sensor (lit "10.0.0.1")
            (if isdigit (hd NUL (lit "http")) then atoi (lit "http") else 0)
            (lit "host") (lit "/dir")) ∧
  (if isdigit (hd NUL (lit "http")) then atoi (lit "http") else 0) = 0.
Proof.
  split; [|reflexivity].
  apply (conn_line_fields one_sensor (lit "ConnInfo") (lit "10.0.0.1") (lit "http")
           (lit "host") (lit "/dir")).
  - reflexivity.
  - not_in_literal.
  - literal_field.
  - literal_field.
  - literal_field.
  - discriminate.
  - not_in_literal.
  - reflexivity.
Defined.

(** X3, on the file with a line of each kind. *)
Lemma kept_ports_are_described_witness :
  ∃ Specs : BoardSpecs,
    readConfigText (fopen (concat full_text)) = Done Specs ∧
    Forall (λ p, ∃ s,
              index (BoardSpecs.Sensors Specs) (size_t_of_int (PortInfo.SensorID p)) = Done s ∧
              PortInfo.Description p = (SensorInfo.Type' s ++ lit " in ") ++ SensorInfo.Unit s ∧
              PortInfo.RangeEnd p = SensorInfo.RangeEnd s ∧
              PortInfo.Multiplier p = SensorInfo.Multiplier s ∧
              PortInfo.Value p = PortInfo_Value0)
           (BoardSpecs.Ports Specs) ∧
    PortInfo.Description <$> BoardSpecs.Ports Specs = [lit "Voltage in V"].
Proof.
  eexists. split; [reflexivity|]. split; [|reflexivity].
  by apply (kept_ports_are_described (fopen (concat full_text))).
Defined.

(** X4, on the text of section 8, whose port is named [P]. *)
Lemma kept_port_names_witness :
  ∃ Specs : BoardSpecs,
    readConfigText (fopen (concat spec_text)) = Done Specs ∧
    Forall (λ p, hd NUL (PortInfo.Name p) = "P"%char ∧
                 (" "%char ∉ PortInfo.Name p) ∧ (":"%char ∉ PortInfo.Name p))
           (BoardSpecs.Ports Specs) ∧
    PortInfo.Name <$> BoardSpecs.Ports Specs = [lit "P"].
Proof.
  eexists. split; [reflexivity|]. split; [|reflexivity].
  by apply (kept_port_names (fopen (concat spec_text))).
Defined.

(** X5, on the port line [PMain:-1] after one sensor line. *)
Lemma dangling_port_line_is_undefined_witness :
  setUnitMultiplier (BoardSpecs.Sensors one_sensor) (size_t_of_int (atoi (lit "-1"))) =
    Done (F_of_Z 0) ∧
  getSensorName (BoardSpecs.Sensors one_sensor) (size_t_of_int (atoi (lit "-1"))) =
    Done (lit "No Sensor") ∧
  config_line (lit "PMain" ++ ":"%char :: lit "-1" ++ [LF]) one_sensor = Undefined OutOfRange.
Proof.
  apply (dangling_port_line_is_undefined one_sensor (lit "PMain") (lit "-1")).
  - reflexivity.
  - not_in_literal.
  - discriminate.
  - not_in_literal.
  - vm_compute. discriminate.
  - left. reflexivity.
Defined.

(** X6, on the port line [P Main:0] of section 8. *)
Lemma port_name_is_cut_at_first_blank_witness :
  ∃ p : PortInfo,
    config_line (lit "P Main" ++ ":"%char :: lit "0" ++ [LF]) one_sensor =
      Done (push_port one_sensor p) ∧
    PortInfo.Name p = take 1 (lit "P Main") ∧ PortInfo.SensorID p = atoi (lit "0").
Proof.
  apply (port_name_is_cut_at_first_blank one_sensor (lit "P Main") (lit "0") 1 voltage_sensor).
  - reflexivity.
  - not_in_literal.
  - discriminate.
  - not_in_literal.
  - reflexivity.
  - reflexivity.
  - reflexivity.
Defined.

(** X7, on a comment between the two lines of a text. *)
Lemma ignored_line_changes_nothing_witness :
  readConfigText (fopen (concat ([line "SensorID:Voltage,V,0.01,0,500"] ++
                                 line "A comment" :: [line "PMain:0"]))) =
    readConfigText (fopen (concat ([line "SensorID:Voltage,V,0.01,0,500"] ++ [line "PMain:0"]))).
Proof.
  apply (ignored_line_changes_nothing [line "SensorID:Voltage,V,0.01,0,500"]
           [line "PMain:0"] (line "A comment")).
  - repeat apply Forall_cons_2; [| | |apply Forall_nil_2].
    + literal_line "SensorID:Voltage,V,0.01,0,500".
    + literal_line "A comment".
    + literal_line "PMain:0".
  - repeat split; reflexivity.
Defined.

(** X8, on a port line above the sensor line it names. *)
Lemma sensor_line_may_follow_its_ports_witness :
  readConfigText (fopen (concat ([] ++ line "SensorID:Voltage,V,0.01,0,500" ::
                                 line "PMain:0" :: []))) =
    readConfigText (fopen (concat ([] ++ line "PMain:0" ::
                                   line "SensorID:Voltage,V,0.01,0,500" :: []))) ∧
  readConfigText (fopen (concat [line "PMain:0"; line "SensorID:Voltage,V,0.01,0,500"])) =
    Done (push_port one_sensor (resolved_port (lit "PMain") 0 voltage_sensor)).
Proof.
  split; [|reflexivity].
  apply (sensor_line_may_follow_its_ports [] [] (line "SensorID:Voltage,V,0.01,0,500")
           (line "PMain:0")).
  - repeat apply Forall_cons_2; [| |apply Forall_nil_2].
    + literal_line "SensorID:Voltage,V,0.01,0,500".
    + literal_line "PMain:0".
  - reflexivity.
  - reflexivity.
Defined.

(** X9, on a text whose second sensor line carries the number 9: the
    sensor is at index 1. *)
Lemma sensor_index_is_its_rank_witness :
  ∃ Specs : BoardSpecs,
    readConfigText (fopen (concat ([line "SensorID9:Amps,A,2,0,10"] ++
                                   line "SensorID9:Voltage,V,0.01,0,500" ::
                                   [line "PMain:1"]))) = Done Specs ∧
    length (BoardSpecs.Sensors Specs) =
      count_sensors ([line "SensorID9:Amps,A,2,0,10"] ++
                     line "SensorID9:Voltage,V,0.01,0,500" :: [line "PMain:1"]) ∧
    (∃ s, (∀ Specs0, sensor_pass (line "SensorID9:Voltage,V,0.01,0,500") Specs0 =
                       Done (push_sensor Specs0 s)) ∧
          BoardSpecs.Sensors Specs !! count_sensors [line "SensorID9:Amps,A,2,0,10"] = Some s) ∧
    count_sensors [line "SensorID9:Amps,A,2,0,10"] = 1%nat.
Proof.
  eexists. split; [reflexivity|].
  rewrite (and_assoc _ _ (_ = 1%nat)). split; [|reflexivity].
  apply (sensor_index_is_its_rank [line "SensorID9:Amps,A,2,0,10"] [line "PMain:1"]
           (line "SensorID9:Voltage,V,0.01,0,500")).
  - repeat apply Forall_cons_2; [| | |apply Forall_nil_2].
    + literal_line "SensorID9:Amps,A,2,0,10".
    + literal_line "SensorID9:Voltage,V,0.01,0,500".
    + literal_line "PMain:1".
  - reflexivity.
  - reflexivity.
Defined.

(** X16, on a line of 127 characters followed by [PMain:0]: the port line
    at its end is taken. *)
Lemma long_line_is_read_in_pieces_witness :
  readConfigText (fopen (concat ([line "SensorID:Voltage,V,0.01,0,500"] ++
                                 (long_comment ++ line "PMain:0") :: []))) =
    parse_lines ([line "SensorID:Voltage,V,0.01,0,500"] ++
                 long_comment :: line "PMain:0" :: []) ∧
  parse_lines ([line "SensorID:Voltage,V,0.01,0,500"] ++ long_comment :: line "PMain:0" :: []) =
    Done (push_port one_sensor (resolved_port (lit "PMain") 0 voltage_sensor)).
Proof.
  split; [|reflexivity].
  apply (long_line_is_read_in_pieces [line "SensorID:Voltage,V,0.01,0,500"] []
           long_comment (line "PMain:0")).
  - apply Forall_cons_2; [|apply Forall_nil_2].
    literal_line "SensorID:Voltage,V,0.01,0,500".
  - split; [discriminate|]. split; [not_in_literal|]. split; [not_in_literal|reflexivity].
  - literal_line "PMain:0".
  - apply Forall_nil_2.
Defined.

(** X17, on the port line [PMain:x1] after one sensor line. *)
Lemma unnumbered_port_names_first_sensor_witness :
  config_line (lit "PMain" ++ ":"%char :: ("x"%char :: lit "1") ++ [LF]) one_sensor =
    Done (if Fneb (SensorInfo.Multiplier voltage_sensor) (F_of_Z 0)
          then push_port one_sensor (resolved_port (lit "PMain") 0 voltage_sensor)
          else one_sensor).
Proof.
  apply (unnumbered_port_names_first_sensor one_sensor (lit "PMain") (lit "1") "x" voltage_sensor).
  - reflexivity.
  - not_in_literal.
  - not_in_literal.
  - reflexivity.
  - reflexivity.
  - discriminate.
  - discriminate.
  - reflexivity.
Defined.

(** X11, on a board with two readings in its backup file and the network
    up: both are sent, and the samples after them. *)
Lemma samples_are_sent_or_kept_witness :
  ∃ (s' : LoopState) (ev : list Event),
    cycle (network_up 10%float) with_backlog = Done (s', ev) ∧
    ((bulks ev = [(PortInfo.Value <$> BoardSpecs.Ports (Specs s'), NETWORKSUCCESS)] ∧
      dumps ev = [] ∧ BackupFile s' = []) ∨
     (dumps ev = [PortInfo.Value <$> BoardSpecs.Ports (Specs s')] ∧
      Forall (λ b, b.2 ≠ NETWORKSUCCESS) (bulks ev) ∧
      ∃ k, BackupFile s' =
             drop k (BackupFile with_backlog) ++ [PortInfo.Value <$> BoardSpecs.Ports (Specs s')])).
Proof.
  apply (samples_are_sent_or_kept (network_up 10%float) with_backlog).
  vm_compute. lia.
Defined.

(** X12, on the same turn. *)
Lemma fresh_samples_follow_the_backlog_witness :
  ∃ (s' : LoopState) (ev : list Event),
    cycle (network_up 10%float) with_backlog = Done (s', ev) ∧
    ∀ before now err tmp after,
      ev = before ++ SendBulk now err tmp :: after →
      now = PortInfo.Value <$> BoardSpecs.Ports (Specs s') ∧
      backups before = (λ e, (Some e, NETWORKSUCCESS)) <$> BackupFile with_backlog ∧
      deletes before = Some <$> BackupFile with_backlog.
Proof.
  apply (fresh_samples_follow_the_backlog (network_up 10%float) with_backlog).
  vm_compute. lia.
Defined.

(** X13, on a board with three ports: three resets, to 25 seconds. *)
Lemma watchdog_is_reset_per_active_port_witness :
  (∃ (s' : LoopState) (ev : list Event),
     cycle (network_up 10%float) three_ports = Done (s', ev) ∧
     watchdogs ev =
       replicate (length (List.filter active (BoardSpecs.Ports (Specs three_ports))))
                 (Fmul (PollingInterval three_ports) (F_of_Z 5))) ∧
  replicate (length (List.filter active (BoardSpecs.Ports (Specs three_ports))))
            (Fmul (PollingInterval three_ports) (F_of_Z 5)) =
    [25%float; 25%float; 25%float].
Proof.
  split; [|reflexivity].
  apply (watchdog_is_reset_per_active_port (network_up 10%float) three_ports).
  vm_compute. lia.
Defined.

(** X14, on two turns of a board with three ports. *)
Lemma turns_change_only_values_witness :
  ∃ (s' : LoopState) (evs : list Event),
    run [network_down; network_up 10%float] three_ports = Done (s', evs) ∧
    Specs s' = set_Ports (Specs three_ports) (BoardSpecs.Ports (Specs s')) ∧
    Forall2 resampled (BoardSpecs.Ports (Specs three_ports)) (BoardSpecs.Ports (Specs s')).
Proof.
  eexists _, _. split; [reflexivity|].
  eapply (turns_change_only_values [network_down; network_up 10%float] three_ports).
  reflexivity.
Defined.

(** X15, on a board with three attempts left whose network stays down
    for five turns. *)
Lemma reconnect_attempts_are_bounded_witness :
  ∃ (s' : LoopState) (evs : list Event),
    run (replicate 5 network_down) with_backlog = Done (s', evs) ∧
    (OfflineMode with_backlog = true → connects evs = []) ∧
    (length (connects evs) ≤ Z.to_nat (Z.max 1 (wifi_tries with_backlog)))%nat.
Proof.
  apply (reconnect_attempts_are_bounded (replicate 5 network_down) with_backlog).
  - vm_compute. lia.
  - repeat apply Forall_cons_2; [| | | | |apply Forall_nil_2]; discriminate.
Defined.

(** X18, on the text of section 8, which has no ConnInfo line. *)
Lemma missing_settings_mean_offline_witness :
  ∃ Specs0 : BoardSpecs,
    readSDCard (Some (concat spec_text)) = Done Specs0 ∧
    OfflineMode (startup boot_ok Specs0 []) = true.
Proof.
  eexists. split; [reflexivity|].
  apply (missing_settings_mean_offline boot_ok [] (Some (concat spec_text))); [reflexivity|].
  right. exists spec_text. split; [reflexivity|]. split.
  - repeat apply Forall_cons_2; [| |apply Forall_nil_2].
    + literal_line "SensorID:Voltage,V,0.01,0,500".
    + literal_line "P Main:0".
  - left. repeat apply Forall_cons_2; [| |apply Forall_nil_2]; reflexivity.
Defined.
